(** * Inference Guardian: process tracker, CUDA monitor, zombie reaper, fence

    A shallow embedding of the supervisory daemon of luca-express-talks
    (processTracker.ts, cudaMonitor.ts, zombieReaper.ts, inferenceFence.ts and
    the shared types.ts), followed by the properties established about it.

    Conventions.
    - A JavaScript [number] holding a PID, a millisecond timestamp, a count or
      a memory size in MB is an integer of [Z].  CPU seconds, and the CPU
      percentage that [scanProcesses] computes from them, are IEEE binary64
      numbers ([f64]): the operations are those of the Standard Library's
      [SpecFloat] at precision 53 and maximal exponent 1024, so that the
      arithmetic rounds as the doubles of the source do, NaN, the infinities
      and the two zeros included.  A working-set size is only copied, never
      computed with: it is a rational of [Q].
    - [Set<number>] is a [gset Z], [Map<number, _>] is a [gmap Z _].  The one
      map whose iteration order is observable, [currentCandidates] of the
      reaper, is an insertion-ordered association list.
    - Module-level [let]/[const] state is a record passed in and out.
    - What the source gets from the operating system (the clock, the process
      list, nvidia-smi, the liveness probe, the kill signal, the port owner)
      is an argument of the function that asks for it. *)

From Stdlib Require Import QArith Ascii String.
From Stdlib Require SpecFloat PrimFloat FloatOps.
From stdpp Require Import gmap strings list fin_maps pretty.

Local Open Scope Z_scope.

(** ** JavaScript numbers that are computed with: IEEE binary64 *)

Definition f64 : Type := SpecFloat.spec_float.

(** An integer as a double, rounded to the nearest one when it has more than
    53 significant bits: the numeric literals of the source, and the
    difference of two millisecond timestamps. *)
Definition f64_of_Z (z : Z) : f64 := SpecFloat.binary_normalize 53 1024 z 0 false.
Coercion f64_of_Z : Z >-> f64.

(** [x - y], [x * y], [x / y], [x < y] and [x <= y] on doubles. *)
Definition f64_sub : f64 -> f64 -> f64 := SpecFloat.SFsub 53 1024.
Definition f64_mul : f64 -> f64 -> f64 := SpecFloat.SFmul 53 1024.
Definition f64_div : f64 -> f64 -> f64 := SpecFloat.SFdiv 53 1024.
Definition f64_ltb : f64 -> f64 -> bool := SpecFloat.SFltb.
Definition f64_leb : f64 -> f64 -> bool := SpecFloat.SFleb.

(** The double that the decimal numeral m / 10^k reads as (m and 10^k being
    doubles themselves, the quotient is the nearest double): 0.29 is
    [f64_dec 29 2]. *)
Definition f64_dec (m k : Z) : f64 := f64_div (f64_of_Z m) (f64_of_Z (10 ^ k)).




(** ** Shared type definitions (types.ts) *)

Inductive ProcessRole := BackendServer | ModelWorker | UnknownRole.
Inductive ProcessHealth := Healthy | Stale | Zombie | Killed.

Record TrackedProcess := mkTrackedProcess {
  tp_pid : Z;
  tp_parentPid : option Z;
  tp_role : ProcessRole;
  tp_startedAt : Z;
  tp_lastHeartbeat : Z;
  tp_commandLine : string;
  tp_cpuPercent : f64;
  tp_memoryMb : Q;
  tp_gpuMemoryMb : option Z;
  tp_status : ProcessHealth
}.

Record GpuInfo := mkGpuInfo {
  gi_name : string;
  gi_memoryUsedMb : Z;
  gi_memoryTotalMb : Z;
  gi_memoryFreeMb : Z;
  gi_utilizationPercent : Z;
  gi_temperature : Z
}.

Record GpuProcess := mkGpuProcess {
  gp_pid : Z;
  gp_processName : string;
  gp_usedMemoryMb : Z;
  gp_isManaged : bool
}.

Inductive CudaAlertType := VramLeak | UnmanagedProcess | OverBudget | Thermal.
Inductive AlertSeverity := Info | Warning | Critical.

Record CudaAlert := mkCudaAlert {
  ca_type : CudaAlertType;
  ca_severity : AlertSeverity;
  ca_message : string;
  ca_pid : option Z;
  ca_timestamp : Z
}.

Record CudaSnapshot := mkCudaSnapshot {
  cs_timestamp : Z;
  cs_gpu : option GpuInfo;
  cs_processes : list GpuProcess;
  cs_alerts : list CudaAlert
}.

Record CudaHistoryEntry := mkCudaHistoryEntry {
  he_timestamp : Z;
  he_memoryUsedMb : Z;
  he_utilizationPercent : Z;
  he_temperature : Z;
  he_processCount : Z
}.

Inductive ReaperRuleName :=
  OrphanKill | DuplicateModel | PortSquatter | StaleWorker | VramHog.

Inductive ReaperOutcome := OutKilled | OutFailed | OutSkippedSafety | OutDryRun.

Record ReaperAction := mkReaperAction {
  ra_timestamp : Z;
  ra_targetPid : Z;
  ra_rule : ReaperRuleName;
  ra_reason : string;
  ra_outcome : ReaperOutcome;
  ra_freedMemoryMb : option Z
}.

Record ReaperConfig := mkReaperConfig {
  rc_enabled : bool;
  rc_dryRun : bool;
  rc_maxKillsPerWindow : Z;
  rc_windowMs : Z;
  rc_rules : ReaperRuleName -> bool
}.

Record FenceConfig := mkFenceConfig {
  fc_maxConcurrentModels : Z;
  fc_vramBudgetMb : Z;
  fc_promptTimeoutMs : Z;
  fc_inferenceStepTimeoutMs : Z;
  fc_maxConnectionsPerModel : Z
}.

Record FenceStatus := mkFenceStatus {
  fs_activeModels : Z;
  fs_vramUsedMb : Z;
  fs_vramBudgetMb : Z;
  fs_isOverBudget : bool;
  fs_promptStartedAt : option Z;
  fs_promptTimedOut : bool;
  fs_locked : bool
}.

Definition DEFAULT_REAPER_CONFIG : ReaperConfig :=
  {| rc_enabled := true;
     rc_dryRun := false;
     rc_maxKillsPerWindow := 3;
     rc_windowMs := 300000;
     rc_rules := fun _ => true |}.

Definition DEFAULT_FENCE_CONFIG : FenceConfig :=
  {| fc_maxConcurrentModels := 1;
     fc_vramBudgetMb := 12288;
     fc_promptTimeoutMs := 300000;
     fc_inferenceStepTimeoutMs := 10000;
     fc_maxConnectionsPerModel := 1 |}.

Definition HISTORY_MAX_ENTRIES : nat := 120.

#[global] Instance ProcessRole_eq_dec : EqDecision ProcessRole.
Proof. solve_decision. Defined.
#[global] Instance ProcessHealth_eq_dec : EqDecision ProcessHealth.
Proof. solve_decision. Defined.
#[global] Instance CudaAlertType_eq_dec : EqDecision CudaAlertType.
Proof. solve_decision. Defined.
#[global] Instance AlertSeverity_eq_dec : EqDecision AlertSeverity.
Proof. solve_decision. Defined.
#[global] Instance ReaperRuleName_eq_dec : EqDecision ReaperRuleName.
Proof. solve_decision. Defined.
#[global] Instance ReaperOutcome_eq_dec : EqDecision ReaperOutcome.
Proof. solve_decision. Defined.

(** ** JavaScript helpers *)

(** [Math.round]: NaN, the infinities, the zeros and the integers are
    returned as they are; any other double m * 2^e (so e < 0) goes to
    floor(x + 1/2), the nearest integer with halves going up, computed
    exactly, and to the zero of the sign of [x] when that integer is 0
    (-0 for -0.5 <= x < 0). *)
Definition Math_round (x : f64) : f64 :=
  match x with
  | SpecFloat.S754_finite s m e =>
      if 0 <=? e then x
      else
        let n := (2 * SpecFloat.cond_Zopp s (Z.pos m) + 2 ^ (- e)) / 2 ^ (1 - e) in
        if n =? 0 then SpecFloat.S754_zero s else f64_of_Z n
  | _ => x
  end.

(** [Math.min] of two numbers: NaN when either is NaN, else the smaller
    one, -0 counting as smaller than +0. *)
Definition Math_min (x y : f64) : f64 :=
  match SpecFloat.SFcompare x y with
  | None => SpecFloat.S754_nan
  | Some Lt => x
  | Some Gt => y
  | Some Eq => match x with SpecFloat.S754_zero true => x | _ => y end
  end.

(** [x ?? d] *)
Definition nullish {A} (x : option A) (d : A) : A := default d x.

(** [String.prototype.toLowerCase], on the ASCII letters. *)
Definition lower_ascii (c : ascii) : ascii :=
  let n := nat_of_ascii c in
  if ((65 <=? n) && (n <=? 90))%nat then ascii_of_nat (n + 32) else c.

Fixpoint toLowerCase (s : string) : string :=
  match s with
  | EmptyString => EmptyString
  | String c s' => String (lower_ascii c) (toLowerCase s')
  end.

(** [s.includes(sub)] *)
Fixpoint includes (s sub : string) : bool :=
  String.prefix sub s ||
  match s with
  | EmptyString => false
  | String _ s' => includes s' sub
  end.

(** [while (a.length > cap) a.shift()] *)
Definition trim_to {A} (cap : nat) (a : list A) : list A :=
  drop (length a - cap)%nat a.

(** An insertion-ordered [Map]: [set] on a present key overwrites the value
    where it stands, [set] on a new key appends. *)
Section JsMap.
Context {V : Type}.

Fixpoint jsmap_set (k : Z) (v : V) (m : list (Z * V)) : list (Z * V) :=
  match m with
  | [] => [(k, v)]
  | (k', v') :: m' =>
      if decide (k = k') then (k, v) :: m' else (k', v') :: jsmap_set k v m'
  end.

Fixpoint jsmap_get (k : Z) (m : list (Z * V)) : option V :=
  match m with
  | [] => None
  | (k', v') :: m' => if decide (k = k') then Some v' else jsmap_get k m'
  end.

Definition jsmap_has (k : Z) (m : list (Z * V)) : bool :=
  bool_decide (is_Some (jsmap_get k m)).
End JsMap.

(** ** Process tracker (processTracker.ts) *)

Module ProcessTracker.

(** Raw row returned by Win32_Process + Get-Process join. *)
Record RawProcessInfo := mkRaw {
  raw_pid : Z;
  raw_parentPid : Z;
  raw_name : string;
  raw_commandLine : string;
  raw_cpuSeconds : f64;
  raw_workingSetMb : Q
}.

Record CpuSample := mkCpuSample { cpuSeconds : f64; timestamp : Z }.

(** [managedPids], [lastCpuSnapshot], [staleCycles] *)
Record State := mkState {
  managedPids : gset Z;
  lastCpuSnapshot : gmap Z CpuSample;
  staleCycles : gmap Z Z
}.

Definition init : State :=
  {| managedPids := ∅; lastCpuSnapshot := ∅; staleCycles := ∅ |}.

Definition registerManagedPid (pid : Z) (st : State) : State :=
  {| managedPids := {[pid]} ∪ managedPids st;
     lastCpuSnapshot := lastCpuSnapshot st;
     staleCycles := delete pid (staleCycles st) |}.

Definition unregisterManagedPid (pid : Z) (st : State) : State :=
  {| managedPids := managedPids st ∖ {[pid]};
     lastCpuSnapshot := delete pid (lastCpuSnapshot st);
     staleCycles := delete pid (staleCycles st) |}.

Definition isManagedPid (pid : Z) (st : State) : bool :=
  bool_decide (pid ∈ managedPids st).

Definition classifyRole (raw : RawProcessInfo) (st : State) : ProcessRole :=
  let cmd := toLowerCase (raw_commandLine raw) in
  if includes cmd "moshi.server" || includes cmd "moshi\server" then
    if isManagedPid (raw_pid raw) st then BackendServer else UnknownRole
  else if isManagedPid (raw_parentPid raw) st then ModelWorker
  else if isManagedPid (raw_pid raw) st then BackendServer
  else UnknownRole.

(** The health of one process; the counter map [staleCycles] is read and
    written on the way, so it is threaded through. *)
Definition determineHealth (raw : RawProcessInfo) (role : ProcessRole)
    (cpuPercent : f64) (gpuMemMb : option Z) (alivePids : gset Z)
    (managed : gset Z) (sc : gmap Z Z) : ProcessHealth * gmap Z Z :=
  let pid := raw_pid raw in
  let orphaned :=
    (1 <? raw_parentPid raw)
    && negb (bool_decide (raw_parentPid raw ∈ alivePids))
    && negb (bool_decide (pid ∈ managed)) in
  let cycles1 := nullish (sc !! pid) 0 + 1 in
  let sc1 := if orphaned then <[pid := cycles1]> sc else sc in
  if orphaned && (2 <=? cycles1) then (Zombie, sc1)
  else
    let idle :=
      bool_decide (role = UnknownRole)
      && match gpuMemMb with Some g => 500 <? g | None => false end
      && f64_leb cpuPercent (f64_of_Z 1) in
    let cycles2 := nullish (sc1 !! pid) 0 + 1 in
    let sc2 := if idle then <[pid := cycles2]> sc1 else sc1 in
    if idle && (3 <=? cycles2) then (Stale, sc2)
    else (Healthy, delete pid sc2).

(** The CPU activity delta of [scanProcesses], every operation being the
    binary64 one.  The two timestamps are whole milliseconds, so their
    difference is the one of [Z] brought to a double. *)
Definition cpuPercentOf (raw : RawProcessInfo) (prev : option CpuSample)
    (now : Z) : f64 :=
  match prev with
  | Some p =>
      let dtSec := f64_div (f64_of_Z (now - timestamp p)) (f64_of_Z 1000) in
      if f64_ltb (f64_of_Z 0) dtSec then
        Math_min (f64_of_Z 100)
          (Math_round
             (f64_mul (f64_div (f64_sub (raw_cpuSeconds raw) (cpuSeconds p)) dtSec)
                      (f64_of_Z 100)))
      else f64_of_Z 0
  | None => f64_of_Z 0
  end.

(** One turn of the loop over [rawProcesses]. *)
Definition scanOne (gpuPidMemoryMap : gmap Z Z) (alivePids : gset Z)
    (now : Z) (acc : list TrackedProcess * State) (raw : RawProcessInfo)
    : list TrackedProcess * State :=
  let '(result, st) := acc in
  let role := classifyRole raw st in
  let gpuMem := gpuPidMemoryMap !! raw_pid raw in
  let cpuPercent := cpuPercentOf raw (lastCpuSnapshot st !! raw_pid raw) now in
  let last' :=
    <[raw_pid raw := mkCpuSample (raw_cpuSeconds raw) now]> (lastCpuSnapshot st) in
  let '(status, sc') :=
    determineHealth raw role cpuPercent gpuMem alivePids
      (managedPids st) (staleCycles st) in
  (result ++ [ {| tp_pid := raw_pid raw;
                  tp_parentPid := Some (raw_parentPid raw);
                  tp_role := role;
                  tp_startedAt := now;
                  tp_lastHeartbeat := now;
                  tp_commandLine := raw_commandLine raw;
                  tp_cpuPercent := cpuPercent;
                  tp_memoryMb := raw_workingSetMb raw;
                  tp_gpuMemoryMb := gpuMem;
                  tp_status := status |} ],
   {| managedPids := managedPids st;
      lastCpuSnapshot := last';
      staleCycles := sc' |}).

(** [scanProcesses]: [rawProcesses] is what [listPythonProcesses] returned
    and [now] what [Date.now()] returned. *)
Definition scanProcesses (gpuPidMemoryMap : gmap Z Z)
    (rawProcesses : list RawProcessInfo) (now : Z) (st : State)
    : list TrackedProcess * State :=
  let alivePids : gset Z := list_to_set (raw_pid <$> rawProcesses) in
  let '(result, st1) :=
    fold_left (scanOne gpuPidMemoryMap alivePids now) rawProcesses ([], st) in
  (result,
   {| managedPids := managedPids st1;
      lastCpuSnapshot :=
        filter (fun kv => kv.1 ∈ alivePids) (lastCpuSnapshot st1);
      staleCycles :=
        filter (fun kv => kv.1 ∉ dom (lastCpuSnapshot st1) ∨ kv.1 ∈ alivePids)
               (staleCycles st1) |}).

(** What [scanProcesses] copies from a raw row into its record, and the
    role it gives it under the registry [managed]. *)
Definition mirrors (gpuPidMemoryMap : gmap Z Z) (now : Z) (managed : gset Z)
    (raw : RawProcessInfo) (tp : TrackedProcess) : Prop :=
  tp_pid tp = raw_pid raw
  ∧ tp_parentPid tp = Some (raw_parentPid raw)
  ∧ tp_role tp
    = classifyRole raw {| managedPids := managed; lastCpuSnapshot := ∅;
                          staleCycles := ∅ |}
  ∧ tp_startedAt tp = now
  ∧ tp_lastHeartbeat tp = now
  ∧ tp_commandLine tp = raw_commandLine raw
  ∧ tp_memoryMb tp = raw_workingSetMb raw
  ∧ tp_gpuMemoryMb tp = gpuPidMemoryMap !! raw_pid raw.

(** The samples [lastCpuSnapshot] holds once the loop of [scanProcesses]
    has gone over [raws]. *)
Definition sampled (now : Z) (raws : list RawProcessInfo)
    (last : gmap Z CpuSample) : gmap Z CpuSample :=
  fold_left (fun m raw => <[raw_pid raw := mkCpuSample (raw_cpuSeconds raw) now]> m)
    raws last.

(** [getManagedPids]: the members of the registry as a list.  The callers
    only test membership in it. *)
Definition getManagedPids (st : State) : list Z := elements (managedPids st).

End ProcessTracker.

(** ** CUDA monitor (cudaMonitor.ts) *)

Module CudaMonitor.

(** [history], [previousSnapshot], [vramBudgetMb] *)
Record State := mkState {
  history : list CudaHistoryEntry;
  previousSnapshot : option CudaSnapshot;
  vramBudgetMb : Z
}.

Definition init : State :=
  {| history := []; previousSnapshot := None; vramBudgetMb := 14000 |}.

Definition setVramBudget (budgetMb : Z) (st : State) : State :=
  {| history := history st;
     previousSnapshot := previousSnapshot st;
     vramBudgetMb := budgetMb |}.

(** [previousSnapshot?.gpu] *)
Definition previousGpu (st : State) : option GpuInfo :=
  match previousSnapshot st with
  | Some s => cs_gpu s
  | None => None
  end.

Definition overBudgetAlerts (g : GpuInfo) (now : Z) (st : State) : list CudaAlert :=
  if vramBudgetMb st <? gi_memoryUsedMb g then
    [ {| ca_type := OverBudget; ca_severity := Warning;
         ca_message := "VRAM usage " +:+ pretty (gi_memoryUsedMb g)
                       +:+ " MB exceeds budget of " +:+ pretty (vramBudgetMb st)
                       +:+ " MB.";
         ca_pid := None; ca_timestamp := now |} ]
  else [].

Definition thermalAlerts (g : GpuInfo) (now : Z) : list CudaAlert :=
  if 90 <=? gi_temperature g then
    [ {| ca_type := Thermal; ca_severity := Critical;
         ca_message := "GPU temperature " +:+ pretty (gi_temperature g)
                       +:+ "°C is critically high.";
         ca_pid := None; ca_timestamp := now |} ]
  else if 80 <=? gi_temperature g then
    [ {| ca_type := Thermal; ca_severity := Warning;
         ca_message := "GPU temperature " +:+ pretty (gi_temperature g)
                       +:+ "°C is elevated.";
         ca_pid := None; ca_timestamp := now |} ]
  else [].

Definition unmanagedAlert (now : Z) (proc : GpuProcess) : list CudaAlert :=
  if negb (gp_isManaged proc) && (100 <? gp_usedMemoryMb proc) then
    [ {| ca_type := UnmanagedProcess; ca_severity := Warning;
         ca_message := "Unmanaged process PID " +:+ pretty (gp_pid proc)
                       +:+ " (" +:+ gp_processName proc +:+ ") using "
                       +:+ pretty (gp_usedMemoryMb proc) +:+ " MB VRAM.";
         ca_pid := Some (gp_pid proc); ca_timestamp := now |} ]
  else [].

(** VRAM leak detection: memory growing while no managed process is on the GPU. *)
Definition leakAlerts (g : GpuInfo) (processes : list GpuProcess) (now : Z)
    (st : State) : list CudaAlert :=
  match previousGpu st with
  | Some pg =>
      let prevUsed := gi_memoryUsedMb pg in
      let delta := gi_memoryUsedMb g - prevUsed in
      let managedProcesses := filter (fun p => gp_isManaged p = true) processes in
      if (500 <? delta) && bool_decide (length managedProcesses = 0%nat) then
        [ {| ca_type := VramLeak; ca_severity := Warning;
             ca_message := "VRAM grew by " +:+ pretty delta
                           +:+ " MB with no managed processes on GPU. Possible leak.";
             ca_pid := None; ca_timestamp := now |} ]
      else []
  | None => []
  end.

Definition generateAlerts (gpu : option GpuInfo) (processes : list GpuProcess)
    (now : Z) (st : State) : list CudaAlert :=
  match gpu with
  | None => []
  | Some g =>
      overBudgetAlerts g now st
      ++ thermalAlerts g now
      ++ concat (unmanagedAlert now <$> processes)
      ++ leakAlerts g processes now st
  end.

(** [pollCuda]: [gpu] is what [queryGpuInfo] returned, [processes] what
    [queryGpuProcesses] returned and [now] what [Date.now()] returned. *)
Definition pollCuda (gpu : option GpuInfo) (processes : list GpuProcess)
    (now : Z) (st : State) : CudaSnapshot * State :=
  let alerts := generateAlerts gpu processes now st in
  let snapshot :=
    {| cs_timestamp := now; cs_gpu := gpu;
       cs_processes := processes; cs_alerts := alerts |} in
  let history' :=
    match gpu with
    | Some g =>
        trim_to HISTORY_MAX_ENTRIES
          (history st ++
             [ {| he_timestamp := now;
                  he_memoryUsedMb := gi_memoryUsedMb g;
                  he_utilizationPercent := gi_utilizationPercent g;
                  he_temperature := gi_temperature g;
                  he_processCount := Z.of_nat (length processes) |} ])
    | None => history st
    end in
  (snapshot,
   {| history := history';
      previousSnapshot := Some snapshot;
      vramBudgetMb := vramBudgetMb st |}).


(** A line of [nvidia-smi --query-compute-apps=pid,process_name,used_memory]
    once [queryGpuProcesses] has split it and read its numbers:
    [Number(parts[0]) || 0], [parts[1] ?? 'unknown'], [Number(parts[2]) || 0]. *)
Record GpuRow := mkGpuRow {
  row_pid : Z;
  row_processName : string;
  row_usedMemoryMb : Z
}.

(** [queryGpuProcesses]: every row is stamped with [isManagedPid(pid)] and
    the rows without a positive PID are dropped.  [rows] is empty when
    nvidia-smi fails or prints nothing. *)
Definition queryGpuProcesses (managed : gset Z) (rows : list GpuRow)
    : list GpuProcess :=
  filter (fun p => 0 < gp_pid p)
    ((fun r => {| gp_pid := row_pid r;
                  gp_processName := row_processName r;
                  gp_usedMemoryMb := row_usedMemoryMb r;
                  gp_isManaged := bool_decide (row_pid r ∈ managed) |}) <$> rows).

(** [getGpuPidMemoryMap]: a fresh nvidia-smi query, folded into a map. *)
Definition getGpuPidMemoryMap (managed : gset Z) (rows : list GpuRow) : gmap Z Z :=
  fold_left (fun map p => <[gp_pid p := gp_usedMemoryMb p]> map)
    (queryGpuProcesses managed rows) ∅.

End CudaMonitor.

(** ** Inference fence (inferenceFence.ts) *)

Module InferenceFence.

(** [config], [promptStartedAt], [locked] *)
Record State := mkState {
  config : FenceConfig;
  promptStartedAt : option Z;
  locked : bool
}.

Definition init : State :=
  {| config := DEFAULT_FENCE_CONFIG; promptStartedAt := None; locked := false |}.

Definition resetFence (st : State) : State :=
  {| config := config st; promptStartedAt := None; locked := false |}.

Definition markPromptStarted (now : Z) (st : State) : State :=
  {| config := config st; promptStartedAt := Some now; locked := locked st |}.

Definition markPromptFinished (st : State) : State :=
  {| config := config st; promptStartedAt := None; locked := locked st |}.

Definition acquireLock (st : State) : bool * State :=
  if locked st then (false, st)
  else (true, {| config := config st;
                 promptStartedAt := promptStartedAt st;
                 locked := true |}).

Definition releaseLock (st : State) : State :=
  {| config := config st; promptStartedAt := promptStartedAt st; locked := false |}.

(** Processes using more than 4 GB of VRAM count as loaded models. *)
Definition activeModelsOf (cudaSnapshot : CudaSnapshot) : Z :=
  Z.of_nat (length (filter (fun p => 4000 < gp_usedMemoryMb p)
                           (cs_processes cudaSnapshot))).

Definition evaluate (_processes : list TrackedProcess)
    (cudaSnapshot : CudaSnapshot) (now : Z) (st : State) : FenceStatus :=
  let activeModels := activeModelsOf cudaSnapshot in
  let managedVram :=
    foldl (fun sum p => sum + gp_usedMemoryMb p) 0
          (filter (fun p => gp_isManaged p = true) (cs_processes cudaSnapshot)) in
  let isOverBudget := fc_vramBudgetMb (config st) <? managedVram in
  let promptTimedOut :=
    match promptStartedAt st with
    | Some t => fc_promptTimeoutMs (config st) <? now - t
    | None => false
    end in
  {| fs_activeModels := activeModels;
     fs_vramUsedMb := managedVram;
     fs_vramBudgetMb := fc_vramBudgetMb (config st);
     fs_isOverBudget := isOverBudget;
     fs_promptStartedAt := promptStartedAt st;
     fs_promptTimedOut := promptTimedOut;
     fs_locked := locked st |}.

Record LaunchDecision := mkLaunchDecision {
  allowed : bool;
  reason : option string
}.

Definition canLaunchModel (cudaSnapshot : CudaSnapshot) (st : State)
    : LaunchDecision :=
  let activeModels := activeModelsOf cudaSnapshot in
  if fc_maxConcurrentModels (config st) <=? activeModels then
    {| allowed := false;
       reason := Some ("Already " +:+ pretty activeModels +:+ "/"
                       +:+ pretty (fc_maxConcurrentModels (config st))
                       +:+ " model(s) loaded. Kill existing before launching another.") |}
  else if locked st then
    {| allowed := false;
       reason := Some "Fence is locked — another operation is in progress." |}
  else {| allowed := true; reason := None |}.

(** A [Partial<FenceConfig>]. *)
Record ConfigPatch := mkConfigPatch {
  patch_maxConcurrentModels : option Z;
  patch_vramBudgetMb : option Z;
  patch_promptTimeoutMs : option Z;
  patch_inferenceStepTimeoutMs : option Z;
  patch_maxConnectionsPerModel : option Z
}.

Definition getConfig (st : State) : FenceConfig := config st.

Definition updateConfig (patch : ConfigPatch) (st : State) : State :=
  let c := config st in
  {| config :=
       {| fc_maxConcurrentModels :=
            nullish (patch_maxConcurrentModels patch) (fc_maxConcurrentModels c);
          fc_vramBudgetMb := nullish (patch_vramBudgetMb patch) (fc_vramBudgetMb c);
          fc_promptTimeoutMs :=
            nullish (patch_promptTimeoutMs patch) (fc_promptTimeoutMs c);
          fc_inferenceStepTimeoutMs :=
            nullish (patch_inferenceStepTimeoutMs patch)
                    (fc_inferenceStepTimeoutMs c);
          fc_maxConnectionsPerModel :=
            nullish (patch_maxConnectionsPerModel patch)
                    (fc_maxConnectionsPerModel c) |};
     promptStartedAt := promptStartedAt st;
     locked := locked st |}.

End InferenceFence.

(** ** Zombie reaper (zombieReaper.ts) *)

Module ZombieReaper.

(** An entry of [candidates]. *)
Record Candidate := mkCandidate {
  cand_rule : ReaperRuleName;
  cand_reason : string;
  cand_firstSeenAt : Z
}.

(** An entry of [currentCandidates]. *)
Record Flag := mkFlag {
  flag_rule : ReaperRuleName;
  flag_reason : string
}.

(** [config], [actionLog], [candidates] *)
Record State := mkState {
  config : ReaperConfig;
  actionLog : list ReaperAction;
  candidates : gmap Z Candidate
}.

Definition init : State :=
  {| config := DEFAULT_REAPER_CONFIG; actionLog := []; candidates := ∅ |}.

(** What one call of [evaluate] obtains from outside the module: the value
    of the n-th [Date.now()] of the call, the answer of [getPortOwner(8998)],
    and the answers of [isPidAlive] and [safeKillPid] of the process tracker
    ([process.kill(pid, 0)] and [process.kill(pid)] not throwing). *)
Record Host := mkHost {
  Date_now : nat -> Z;
  getPortOwner : option Z;
  isPidAlive : Z -> bool;
  safeKillPid : Z -> bool
}.

(** A [Partial<ReaperConfig>]; in [patch_rules] a rule that the patch does
    not mention is [None]. *)
Record ConfigPatch := mkConfigPatch {
  patch_enabled : option bool;
  patch_dryRun : option bool;
  patch_maxKillsPerWindow : option Z;
  patch_windowMs : option Z;
  patch_rules : option (ReaperRuleName -> option bool)
}.

Definition getConfig (st : State) : ReaperConfig := config st.

(** [config = { ...config, ...patch }] has already put [patch.rules] in the
    place of [config.rules] when [{ ...config.rules, ...patch.rules }] is
    evaluated: a patch that carries rules leaves those rules and no other,
    and a rule it does not mention reads [undefined], which the [if] of
    [evaluate] takes for false. *)

Definition updateConfig (patch : ConfigPatch) (st : State) : State :=
  let c := config st in
  {| config :=
       {| rc_enabled := nullish (patch_enabled patch) (rc_enabled c);
          rc_dryRun := nullish (patch_dryRun patch) (rc_dryRun c);
          rc_maxKillsPerWindow :=
            nullish (patch_maxKillsPerWindow patch) (rc_maxKillsPerWindow c);
          rc_windowMs := nullish (patch_windowMs patch) (rc_windowMs c);
          rc_rules :=
            match patch_rules patch with
            | Some pr => fun r => nullish (pr r) false
            | None => rc_rules c
            end |};
     actionLog := actionLog st;
     candidates := candidates st |}.

Definition getActionLog (st : State) : list ReaperAction := actionLog st.

(** [getKillsInWindow], [now] being its [Date.now()]. *)
Definition getKillsInWindow (now : Z) (st : State) : Z :=
  let cutoff := now - rc_windowMs (config st) in
  Z.of_nat (length (filter (fun a => cutoff < ra_timestamp a ∧ ra_outcome a = OutKilled)
                           (actionLog st))).

(** *** The five rules, each filling [currentCandidates] *)

Definition ruleOrphanKill (managed : gset Z) (processes : list TrackedProcess)
    (cur : list (Z * Flag)) : list (Z * Flag) :=
  fold_left (fun cur proc =>
    if bool_decide (tp_status proc = Zombie)
       && negb (bool_decide (tp_pid proc ∈ managed)) then
      jsmap_set (tp_pid proc)
        {| flag_rule := OrphanKill;
           flag_reason :=
             "PID " +:+ pretty (tp_pid proc) +:+ " is orphaned (parent "
             +:+ match tp_parentPid proc with
                 | Some p => pretty p
                 | None => "null"
                 end
             +:+ " dead), using " +:+ pretty (nullish (tp_gpuMemoryMb proc) 0)
             +:+ " MB VRAM." |} cur
    else cur) processes cur.

Definition ruleDuplicateModel (cudaSnapshot : CudaSnapshot)
    (cur : list (Z * Flag)) : list (Z * Flag) :=
  let gpuHogs := filter (fun p => 4000 < gp_usedMemoryMb p)
                        (cs_processes cudaSnapshot) in
  if bool_decide (1 < length gpuHogs)%nat then
    fold_left (fun cur hog =>
      if negb (gp_isManaged hog) then
        jsmap_set (gp_pid hog)
          {| flag_rule := DuplicateModel;
             flag_reason :=
               "PID " +:+ pretty (gp_pid hog) +:+ " using "
               +:+ pretty (gp_usedMemoryMb hog)
               +:+ " MB VRAM — duplicate model detected ("
               +:+ pretty (length gpuHogs) +:+ " processes >4GB)." |} cur
      else cur) gpuHogs cur
  else cur.

Definition rulePortSquatter (managed : gset Z) (portOwner : option Z)
    (managedBackendPid : option Z) (cur : list (Z * Flag)) : list (Z * Flag) :=
  match portOwner with
  | Some owner =>
      if negb (bool_decide (Some owner = managedBackendPid))
         && negb (bool_decide (owner ∈ managed)) then
        jsmap_set owner
          {| flag_rule := PortSquatter;
             flag_reason :=
               "PID " +:+ pretty owner
               +:+ " holding port 8998 but is not the managed backend." |} cur
      else cur
  | None => cur
  end.

Definition ruleStaleWorker (managed : gset Z) (processes : list TrackedProcess)
    (cur : list (Z * Flag)) : list (Z * Flag) :=
  fold_left (fun cur proc =>
    if bool_decide (tp_status proc = Stale)
       && negb (bool_decide (tp_pid proc ∈ managed)) then
      jsmap_set (tp_pid proc)
        {| flag_rule := StaleWorker;
           flag_reason :=
             "PID " +:+ pretty (tp_pid proc)
             +:+ " has no CPU activity for multiple cycles and owns "
             +:+ pretty (nullish (tp_gpuMemoryMb proc) 0) +:+ " MB VRAM." |} cur
    else cur) processes cur.

Definition ruleVramHog (processes : list TrackedProcess)
    (cudaSnapshot : CudaSnapshot) (cur : list (Z * Flag)) : list (Z * Flag) :=
  fold_left (fun cur gpuProc =>
    if negb (gp_isManaged gpuProc) && (2000 <? gp_usedMemoryMb gpuProc) then
      match find (fun p => bool_decide (tp_pid p = gp_pid gpuProc)) processes with
      | Some tracked =>
          if bool_decide (tp_role tracked = UnknownRole) then
            jsmap_set (gp_pid gpuProc)
              {| flag_rule := VramHog;
                 flag_reason :=
                   "Unmanaged PID " +:+ pretty (gp_pid gpuProc) +:+ " using "
                   +:+ pretty (gp_usedMemoryMb gpuProc)
                   +:+ " MB VRAM for unknown purpose." |} cur
          else cur
      | None => cur
      end
    else cur) (cs_processes cudaSnapshot) cur.

Definition when {A} (b : bool) (f : A -> A) (x : A) : A := if b then f x else x.

(** [currentCandidates] as it stands when the rules have run. *)
Definition currentCandidates (cfg : ReaperConfig) (managed : gset Z) (h : Host)
    (processes : list TrackedProcess) (cudaSnapshot : CudaSnapshot)
    (managedBackendPid : option Z) : list (Z * Flag) :=
  when (rc_rules cfg VramHog) (ruleVramHog processes cudaSnapshot)
    (when (rc_rules cfg StaleWorker) (ruleStaleWorker managed processes)
      (when (rc_rules cfg PortSquatter)
            (rulePortSquatter managed (getPortOwner h) managedBackendPid)
        (when (rc_rules cfg DuplicateModel) (ruleDuplicateModel cudaSnapshot)
          (when (rc_rules cfg OrphanKill) (ruleOrphanKill managed processes)
             [])))).

(** *** Kill execution *)

(** What the confirmation loop carries: [candidates], the local [actions],
    the PIDs [safeKillPid] was called on (the termination capability), in
    call order, and the number of [Date.now()] calls made so far. *)
Record Loop := mkLoop {
  loop_candidates : gmap Z Candidate;
  loop_actions : list ReaperAction;
  loop_signalled : list Z;
  loop_ticks : nat
}.

Definition executeKill (cfg : ReaperConfig) (managed : gset Z) (h : Host)
    (pid : Z) (rule : ReaperRuleName) (reason : string) (currentKillCount : Z)
    (cands : gmap Z Candidate) (signalled : list Z) (ticks : nat)
    : ReaperAction * gmap Z Candidate * list Z * nat :=
  let now := Date_now h ticks in
  let ticks := S ticks in
  (* Safety: circuit breaker *)
  if rc_maxKillsPerWindow cfg <=? currentKillCount then
    ({| ra_timestamp := now; ra_targetPid := pid; ra_rule := rule;
        ra_reason := reason; ra_outcome := OutSkippedSafety;
        ra_freedMemoryMb := None |}, cands, signalled, ticks)
  (* Safety: never kill managed healthy processes *)
  else if bool_decide (pid ∈ managed) then
    ({| ra_timestamp := now; ra_targetPid := pid; ra_rule := rule;
        ra_reason := reason +:+ " (skipped: PID is in managed registry)";
        ra_outcome := OutSkippedSafety;
        ra_freedMemoryMb := None |}, cands, signalled, ticks)
  (* Dry run mode *)
  else if rc_dryRun cfg then
    ({| ra_timestamp := now; ra_targetPid := pid; ra_rule := rule;
        ra_reason := reason; ra_outcome := OutDryRun;
        ra_freedMemoryMb := None |}, cands, signalled, ticks)
  (* Verify still alive *)
  else if negb (isPidAlive h pid) then
    ({| ra_timestamp := now; ra_targetPid := pid; ra_rule := rule;
        ra_reason := reason +:+ " (already dead)";
        ra_outcome := OutSkippedSafety;
        ra_freedMemoryMb := None |}, cands, signalled, ticks)
  (* Execute kill *)
  else
    let killed := safeKillPid h pid in
    ({| ra_timestamp := now; ra_targetPid := pid; ra_rule := rule;
        ra_reason := reason;
        ra_outcome := if killed then OutKilled else OutFailed;
        ra_freedMemoryMb := None |},
     delete pid cands, signalled ++ [pid], ticks).

(** First time seen for this rule: [candidates.set(pid, { ...info,
    firstSeenAt: Date.now() })]. *)
Definition registerCandidate (h : Host) (l : Loop) (pid : Z) (info : Flag) : Loop :=
  {| loop_candidates :=
       <[pid := mkCandidate (flag_rule info) (flag_reason info)
                  (Date_now h (loop_ticks l))]> (loop_candidates l);
     loop_actions := loop_actions l;
     loop_signalled := loop_signalled l;
     loop_ticks := S (loop_ticks l) |}.

(** One turn of the 2-cycle confirmation loop. *)
Definition confirmOne (cfg : ReaperConfig) (managed : gset Z) (h : Host)
    (killsInWindow : Z) (l : Loop) (entry : Z * Flag) : Loop :=
  let '(pid, info) := entry in
  match loop_candidates l !! pid with
  | Some prev =>
      if bool_decide (cand_rule prev = flag_rule info) then
        (* Confirmed: candidate was seen in previous cycle too *)
        let '(action, cands, signalled, ticks) :=
          executeKill cfg managed h pid (flag_rule info) (flag_reason info)
            (killsInWindow
             + Z.of_nat (length (filter (fun a => ra_outcome a = OutKilled)
                                        (loop_actions l))))
            (loop_candidates l) (loop_signalled l) (loop_ticks l) in
        {| loop_candidates := cands;
           loop_actions := loop_actions l ++ [action];
           loop_signalled := signalled;
           loop_ticks := ticks |}
      else registerCandidate h l pid info
  | None => registerCandidate h l pid info
  end.

(** The test the loop makes, as a proposition: the PID has an entry in
    [candidates] and that entry carries the rule it is flagged under now. *)
Definition isConfirmed (cands : gmap Z Candidate) (pid : Z) (info : Flag) : Prop :=
  ∃ prev, cands !! pid = Some prev ∧ cand_rule prev = flag_rule info.

#[global] Instance isConfirmed_dec cands pid info :
  Decision (isConfirmed cands pid info).
Proof.
  unfold isConfirmed. destruct (cands !! pid) as [prev|].
  - destruct (decide (cand_rule prev = flag_rule info)) as [Heq|Hne].
    + left. by exists prev.
    + right. intros (p & [= <-] & ?). done.
  - right. intros (p & [=] & _).
Defined.

(** A loop that has sent no signal and only made dry runs and skips. *)
Definition quiet (l : Loop) : Prop :=
  loop_signalled l = []
  ∧ ∀ a, a ∈ loop_actions l →
         ra_outcome a = OutDryRun ∨ ra_outcome a = OutSkippedSafety.

(** What a call of [evaluate] leaves behind. *)
Record Outcome := mkOutcome {
  out_actions : list ReaperAction;
  out_state : State;
  out_signalled : list Z
}.

(** Run one reaper evaluation cycle.  [managed] is the registry that
    [isManagedPid] consults. *)
Definition evaluate (managed : gset Z) (h : Host)
    (processes : list TrackedProcess) (cudaSnapshot : CudaSnapshot)
    (managedBackendPid : option Z) (st : State) : Outcome :=
  if negb (rc_enabled (config st)) then
    {| out_actions := []; out_state := st; out_signalled := [] |}
  else
    let cur := currentCandidates (config st) managed h processes cudaSnapshot
                 managedBackendPid in
    let killsInWindow := getKillsInWindow (Date_now h 0) st in
    let l := fold_left (confirmOne (config st) managed h killsInWindow) cur
               {| loop_candidates := candidates st; loop_actions := [];
                  loop_signalled := []; loop_ticks := 1 |} in
    (* Prune candidates not seen this cycle *)
    let pruned := filter (fun kv => jsmap_has kv.1 cur = true) (loop_candidates l) in
    {| out_actions := loop_actions l;
       out_state :=
         {| config := config st;
            actionLog := trim_to 100 (actionLog st ++ loop_actions l);
            candidates := pruned |};
       out_signalled := loop_signalled l |}.

(** *** Successive cycles *)

(** The arguments and surroundings of one call of [evaluate]. *)
Record Cycle := mkCycle {
  cy_managed : gset Z;
  cy_host : Host;
  cy_processes : list TrackedProcess;
  cy_cuda : CudaSnapshot;
  cy_backendPid : option Z
}.

Definition step (c : Cycle) (st : State) : Outcome :=
  evaluate (cy_managed c) (cy_host c) (cy_processes c) (cy_cuda c)
    (cy_backendPid c) st.

(** The cycles run in order; the actions of each cycle, the PIDs signalled
    over all of them and the final state are returned. *)
Fixpoint run (cs : list Cycle) (st : State)
    : list (list ReaperAction) * list Z * State :=
  match cs with
  | [] => ([], [], st)
  | c :: cs' =>
      let o := step c st in
      let '(acts, sig, st') := run cs' (out_state o) in
      (out_actions o :: acts, out_signalled o ++ sig, st')
  end.

(** *** What a flag stands for *)

(** The condition under which a rule puts [pid] into [currentCandidates]. *)
Definition justified (cfg : ReaperConfig) (managed : gset Z) (h : Host)
    (processes : list TrackedProcess) (cudaSnapshot : CudaSnapshot)
    (managedBackendPid : option Z) (pid : Z) (rule : ReaperRuleName) : Prop :=
  rc_rules cfg rule = true
  ∧ match rule with
    | OrphanKill =>
        (pid ∉ managed)
        ∧ ∃ proc, proc ∈ processes ∧ tp_pid proc = pid ∧ tp_status proc = Zombie
    | DuplicateModel =>
        (1 < length (filter (fun p => (4000 < gp_usedMemoryMb p)%Z)
                            (cs_processes cudaSnapshot)))%nat
        ∧ ∃ hog, hog ∈ cs_processes cudaSnapshot ∧ gp_pid hog = pid
                 ∧ 4000 < gp_usedMemoryMb hog ∧ gp_isManaged hog = false
    | PortSquatter =>
        (pid ∉ managed)
        ∧ getPortOwner h = Some pid ∧ managedBackendPid ≠ Some pid
    | StaleWorker =>
        (pid ∉ managed)
        ∧ ∃ proc, proc ∈ processes ∧ tp_pid proc = pid ∧ tp_status proc = Stale
    | VramHog =>
        (∃ gpuProc, gpuProc ∈ cs_processes cudaSnapshot ∧ gp_pid gpuProc = pid
                    ∧ 2000 < gp_usedMemoryMb gpuProc ∧ gp_isManaged gpuProc = false)
        ∧ ∃ tracked, tracked ∈ processes ∧ tp_pid tracked = pid
                     ∧ tp_role tracked = UnknownRole
    end.

(** A snapshot whose [isManaged] stamps agree with the registry, as
    [queryGpuProcesses] makes them. *)
Definition stampedBy (managed : gset Z) (cudaSnapshot : CudaSnapshot) : Prop :=
  ∀ p, p ∈ cs_processes cudaSnapshot →
       gp_isManaged p = bool_decide (gp_pid p ∈ managed).

End ZombieReaper.

(** ** Guardian daemon (index.ts)

    The state the daemon keeps of its own, next to the states of the four
    modules it drives.  The two interval timers, [running] and [startedAt]
    are left out, and with them [start], [stop] and [getStatus]: the polls
    below are what the timers call.  Each call is taken to run to its end
    before the next one starts; two async calls that overlap at an [await]
    are not modelled. *)

Module Guardian.

Record State := mkState {
  tracker : ProcessTracker.State;
  cuda : CudaMonitor.State;
  reaper : ZombieReaper.State;
  fence : InferenceFence.State;
  latestProcesses : list TrackedProcess;
  latestCuda : CudaSnapshot;
  managedBackendPid : option Z;
  guardianLog : list string
}.

Definition init : State :=
  {| tracker := ProcessTracker.init;
     cuda := CudaMonitor.init;
     reaper := ZombieReaper.init;
     fence := InferenceFence.init;
     latestProcesses := [];
     latestCuda := {| cs_timestamp := 0; cs_gpu := None;
                      cs_processes := []; cs_alerts := [] |};
     managedBackendPid := None;
     guardianLog := [] |}.

(** [glog]: [time] is what [new Date().toLocaleTimeString()] returned. *)
Definition glog (time : string) (msg : string) (log : list string) : list string :=
  trim_to 300 (log ++ ["[" +:+ time +:+ "] " +:+ msg]).

Definition withTrackerLog (tr : ProcessTracker.State) (log : list string)
    (st : State) : State :=
  {| tracker := tr; cuda := cuda st; reaper := reaper st; fence := fence st;
     latestProcesses := latestProcesses st; latestCuda := latestCuda st;
     managedBackendPid := managedBackendPid st; guardianLog := log |}.

Definition withBackendPid (b : option Z) (st : State) : State :=
  {| tracker := tracker st; cuda := cuda st; reaper := reaper st;
     fence := fence st; latestProcesses := latestProcesses st;
     latestCuda := latestCuda st; managedBackendPid := b;
     guardianLog := guardianLog st |}.

Definition setManagedBackendPid (pid : Z) (time : string) (st : State) : State :=
  withTrackerLog (ProcessTracker.registerManagedPid pid (tracker st))
    (glog time ("Registered managed backend PID " +:+ pretty pid) (guardianLog st))
    (withBackendPid (Some pid) st).

Definition clearManagedBackendPid (pid : Z) (time : string) (st : State) : State :=
  withTrackerLog (ProcessTracker.unregisterManagedPid pid (tracker st))
    (glog time ("Unregistered managed backend PID " +:+ pretty pid) (guardianLog st))
    (withBackendPid
       (if bool_decide (managedBackendPid st = Some pid) then None
        else managedBackendPid st) st).

Definition registerChildPid (pid : Z) (time : string) (st : State) : State :=
  withTrackerLog (ProcessTracker.registerManagedPid pid (tracker st))
    (glog time ("Registered managed child PID " +:+ pretty pid) (guardianLog st))
    st.

Record KillResult := mkKillResult {
  success : bool;
  message : string
}.

(** [manualKill]: [safeKillPid] is the answer [process.kill(pid)] would
    give; the PIDs it was really asked about are returned last. *)
Definition manualKill (pid : Z) (safeKillPid : Z -> bool) (time : string)
    (st : State) : KillResult * State * list Z :=
  let managed := ProcessTracker.getManagedPids (tracker st) in
  if bool_decide (pid ∈ managed) then
    ({| success := false;
        message := "PID " +:+ pretty pid
                   +:+ " is in the managed registry. Use server restart instead." |},
     st, [])
  else
    let killed := safeKillPid pid in
    let msg :=
      if killed then "PID " +:+ pretty pid +:+ " killed successfully."
      else "Failed to kill PID " +:+ pretty pid
           +:+ " — may already be dead or require elevated privileges." in
    ({| success := killed; message := msg |},
     withTrackerLog (tracker st) (glog time msg (guardianLog st)) st,
     [pid]).

(** One turn of the loop of [runProcessPoll] that registers the children of
    the managed backend; [times n] is what the n-th
    [new Date().toLocaleTimeString()] of the poll returned. *)
Definition autoRegister (backend : Z) (times : nat -> string)
    (acc : State * nat) (proc : TrackedProcess) : State * nat :=
  let '(st, n) := acc in
  if bool_decide (tp_parentPid proc = Some backend)
     && negb (bool_decide (tp_pid proc ∈ ProcessTracker.getManagedPids (tracker st)))
  then (registerChildPid (tp_pid proc) (times n) st, S n)
  else (st, n).

(** [runProcessPoll]: [rows] is the nvidia-smi listing read by
    [getGpuPidMemoryMap], [rawProcesses] what [listPythonProcesses] returned
    and [now] the [Date.now()] of [scanProcesses]. *)
Definition runProcessPoll (rows : list CudaMonitor.GpuRow)
    (rawProcesses : list ProcessTracker.RawProcessInfo) (now : Z)
    (times : nat -> string) (st : State) : State :=
  let gpuMap :=
    CudaMonitor.getGpuPidMemoryMap (ProcessTracker.managedPids (tracker st)) rows in
  let '(procs, tr) :=
    ProcessTracker.scanProcesses gpuMap rawProcesses now (tracker st) in
  let st1 :=
    {| tracker := tr; cuda := cuda st; reaper := reaper st; fence := fence st;
       latestProcesses := procs; latestCuda := latestCuda st;
       managedBackendPid := managedBackendPid st;
       guardianLog := guardianLog st |} in
  match managedBackendPid st with
  | Some backend => (fold_left (autoRegister backend times) procs (st1, 0%nat)).1
  | None => st1
  end.

Definition ruleName (r : ReaperRuleName) : string :=
  match r with
  | OrphanKill => "orphan-kill"
  | DuplicateModel => "duplicate-model"
  | PortSquatter => "port-squatter"
  | StaleWorker => "stale-worker"
  | VramHog => "vram-hog"
  end.

Definition outcomeName (o : ReaperOutcome) : string :=
  match o with
  | OutKilled => "killed"
  | OutFailed => "failed"
  | OutSkippedSafety => "skipped-safety"
  | OutDryRun => "dry-run"
  end.

(** What one call of [runCudaPoll] obtains from outside: the answers of
    nvidia-smi, the [Date.now()] of [pollCuda], the host of the reaper, the
    [Date.now()] of the fence and the wall-clock labels of [glog]. *)
Record CudaPollInput := mkCudaPollInput {
  in_gpu : option GpuInfo;
  in_rows : list CudaMonitor.GpuRow;
  in_pollNow : Z;
  in_host : ZombieReaper.Host;
  in_fenceNow : Z;
  in_times : nat -> string
}.

(** The log lines of [runCudaPoll], in order: one per reaper action, then
    the warnings of the fence. *)
Definition cudaPollLines (actions : list ReaperAction) (fs : FenceStatus)
    : list string :=
  ((fun a => "REAPER [" +:+ ruleName (ra_rule a) +:+ "] "
             +:+ outcomeName (ra_outcome a) +:+ ": " +:+ ra_reason a) <$> actions)
  ++ (if fs_isOverBudget fs then
        ["FENCE Warning: VRAM " +:+ pretty (fs_vramUsedMb fs)
         +:+ " MB exceeds budget " +:+ pretty (fs_vramBudgetMb fs) +:+ " MB"]
      else [])
  ++ (if fs_promptTimedOut fs then
        ["FENCE Warning: Prompt processing has timed out"]
      else []).

(** [glog] called on each line in turn. *)
Definition glogAll (times : nat -> string) (lines : list string)
    (log : list string) : list string :=
  (fold_left (fun acc line => (glog (times acc.2) line acc.1, S acc.2))
             lines (log, 0%nat)).1.

(** [runCudaPoll]; the PIDs the reaper signalled are returned beside the
    state. *)
Definition runCudaPoll (i : CudaPollInput) (st : State) : State * list Z :=
  let managed := ProcessTracker.managedPids (tracker st) in
  let '(snapshot, cuda') :=
    CudaMonitor.pollCuda (in_gpu i)
      (CudaMonitor.queryGpuProcesses managed (in_rows i)) (in_pollNow i) (cuda st) in
  let o :=
    ZombieReaper.evaluate managed (in_host i) (latestProcesses st) snapshot
      (managedBackendPid st) (reaper st) in
  let fenceStatus :=
    InferenceFence.evaluate (latestProcesses st) snapshot (in_fenceNow i) (fence st) in
  ({| tracker := tracker st; cuda := cuda';
      reaper := ZombieReaper.out_state o; fence := fence st;
      latestProcesses := latestProcesses st; latestCuda := snapshot;
      managedBackendPid := managedBackendPid st;
      guardianLog :=
        glogAll (in_times i)
          (cudaPollLines (ZombieReaper.out_actions o) fenceStatus)
          (guardianLog st) |},
   ZombieReaper.out_signalled o).

(** *** The daemon's life as a succession of calls

    What reaches the daemon from outside, each with what the call obtains
    from the operating system: the two polls that the timers fire, the
    registration calls of the process launcher, and the calls of the HTTP
    endpoints (manual kill, reaper configuration, fence reset). *)
Inductive Call :=
  | CallProcessPoll (rows : list CudaMonitor.GpuRow)
      (rawProcesses : list ProcessTracker.RawProcessInfo) (now : Z)
      (times : nat -> string)
  | CallCudaPoll (i : CudaPollInput)
  | CallSetManagedBackendPid (pid : Z) (time : string)
  | CallClearManagedBackendPid (pid : Z) (time : string)
  | CallRegisterChildPid (pid : Z) (time : string)
  | CallManualKill (pid : Z) (safeKillPid : Z -> bool) (time : string)
  | CallReaperUpdateConfig (patch : ZombieReaper.ConfigPatch)
  | CallFenceReset.

Definition withReaper (r : ZombieReaper.State) (st : State) : State :=
  {| tracker := tracker st; cuda := cuda st; reaper := r; fence := fence st;
     latestProcesses := latestProcesses st; latestCuda := latestCuda st;
     managedBackendPid := managedBackendPid st; guardianLog := guardianLog st |}.

Definition withFence (f : InferenceFence.State) (st : State) : State :=
  {| tracker := tracker st; cuda := cuda st; reaper := reaper st; fence := f;
     latestProcesses := latestProcesses st; latestCuda := latestCuda st;
     managedBackendPid := managedBackendPid st; guardianLog := guardianLog st |}.

(** One call: the state it leaves and the PIDs it sent a kill signal to. *)
Definition exec (c : Call) (st : State) : State * list Z :=
  match c with
  | CallProcessPoll rows raws now times =>
      (runProcessPoll rows raws now times st, [])
  | CallCudaPoll i => runCudaPoll i st
  | CallSetManagedBackendPid pid time => (setManagedBackendPid pid time st, [])
  | CallClearManagedBackendPid pid time => (clearManagedBackendPid pid time st, [])
  | CallRegisterChildPid pid time => (registerChildPid pid time st, [])
  | CallManualKill pid safeKillPid time =>
      let '(_, st', signalled) := manualKill pid safeKillPid time st in
      (st', signalled)
  | CallReaperUpdateConfig patch =>
      (withReaper (ZombieReaper.updateConfig patch (reaper st)) st, [])
  | CallFenceReset => (withFence (InferenceFence.resetFence (fence st)) st, [])
  end.

(** The calls in order, from [st]: the state reached before each call is
    paired with the PIDs that call signalled, and the final state returned. *)
Fixpoint execAll (cs : list Call) (st : State) : list (State * list Z) * State :=
  match cs with
  | [] => ([], st)
  | c :: cs' =>
      let '(st1, signalled) := exec c st in
      let '(trace, final) := execAll cs' st1 in
      ((st, signalled) :: trace, final)
  end.

(** The bounds of the three logs of the daemon. *)
Definition bounded (st : State) : Prop :=
  (length (guardianLog st) ≤ 300)%nat
  ∧ (length (ZombieReaper.actionLog (reaper st)) ≤ 100)%nat
  ∧ (length (CudaMonitor.history (cuda st)) ≤ 120)%nat.

(** What the process tracker's debounce leaves of the health status: empty
    counters and nothing but healthy processes. *)
Definition allHealthy (st : State) : Prop :=
  ProcessTracker.staleCycles (tracker st) = ∅
  ∧ Forall (fun tp => tp_status tp = Healthy) (latestProcesses st)
  ∧ Forall (fun a => ra_rule a ≠ OrphanKill ∧ ra_rule a ≠ StaleWorker)
      (ZombieReaper.actionLog (reaper st)).

End Guardian.

(** ** Sample inputs of the process tracker *)

Module TrackerSamples.
Import ProcessTracker.

(** PID 700, whose parent PID 650 is not in the process list. *)
Definition orphan700 (cpu : f64) : RawProcessInfo :=
  {| raw_pid := 700; raw_parentPid := 650; raw_name := "python.exe";
     raw_commandLine := "python worker.py";
     raw_cpuSeconds := cpu; raw_workingSetMb := 100 |}.

(** Three scans five seconds apart, PID 700 being listed alone each time. *)
Definition orphanScan1 := scanProcesses ∅ [orphan700 10] 1000 init.
Definition orphanScan2 := scanProcesses ∅ [orphan700 10] 6000 orphanScan1.2.
Definition orphanScan3 := scanProcesses ∅ [orphan700 10] 11000 orphanScan2.2.

(** The same orphan holding 5000 MB of VRAM and burning no CPU. *)
Definition idleScan1 := scanProcesses {[700 := 5000]} [orphan700 10] 1000 init.
Definition idleScan2 := scanProcesses {[700 := 5000]} [orphan700 10] 6000 idleScan1.2.
Definition idleScan3 := scanProcesses {[700 := 5000]} [orphan700 10] 11000 idleScan2.2.
Definition idleScan4 := scanProcesses {[700 := 5000]} [orphan700 10] 16000 idleScan3.2.


(** A quarter of a second of CPU over two seconds: 12.5 percent. *)
Definition quarterScan1 := scanProcesses ∅ [orphan700 0] 1000 init.

(** 0.29 s of CPU over two seconds: the doubles give 14.499999999999998
    percent, where the exact quotient is 14.5. *)
Definition roundedScan2 :=
  scanProcesses ∅ [orphan700 (f64_dec 29 2)] 3000 quarterScan1.2.

(** From 0.01 s to 3.13 s of CPU over 4992 ms: the doubles give 62.5
    percent, where the exact quotient lies just below. *)
Definition slowScan1 := scanProcesses ∅ [orphan700 (f64_dec 1 2)] 1000 init.
Definition slowScan2 :=
  scanProcesses ∅ [orphan700 (f64_dec 313 2)] 5992 slowScan1.2.

End TrackerSamples.

(** ** Sample inputs of the reaper

    The scenarios the properties below are exercised on. *)

Module Samples.
Import ZombieReaper.

(** A host whose clock reads [t] throughout the call, with nobody on port
    8998, where every probed PID is alive and every kill signal is delivered. *)
Definition hostAt (t : Z) : Host :=
  {| Date_now := fun _ => t; getPortOwner := None;
     isPidAlive := fun _ => true; safeKillPid := fun _ => true |}.

(** The same, with every probed PID already gone. *)
Definition deadHostAt (t : Z) : Host :=
  {| Date_now := fun _ => t; getPortOwner := None;
     isPidAlive := fun _ => false; safeKillPid := fun _ => false |}.

Definition gpuProc (pid mb : Z) (isManaged : bool) : GpuProcess :=
  {| gp_pid := pid; gp_processName := "python.exe";
     gp_usedMemoryMb := mb; gp_isManaged := isManaged |}.

Definition snapshotOf (t : Z) (procs : list GpuProcess) : CudaSnapshot :=
  {| cs_timestamp := t; cs_gpu := None; cs_processes := procs; cs_alerts := [] |}.

(** PID 500, unmanaged, holds 5000 MB while PID 600, managed, holds 6000 MB. *)
Definition duplicateSnapshot (t : Z) : CudaSnapshot :=
  snapshotOf t [gpuProc 500 5000 false; gpuProc 600 6000 true].

(** A snapshot taken before PID 600 was registered: both processes still
    carry [isManaged = false]. *)
Definition outdatedSnapshot (t : Z) : CudaSnapshot :=
  snapshotOf t [gpuProc 500 5000 false; gpuProc 600 6000 false].

(** The reaper after one call on the outdated snapshot: PIDs 500 and 600
    are candidates of the duplicate-model rule. *)
Definition afterFirstSight : State :=
  out_state (evaluate ∅ (hostAt 0) [] (outdatedSnapshot 0) None init).

(** [updateConfig({ enabled: b })] *)
Definition patchEnabled (b : bool) : ConfigPatch :=
  {| patch_enabled := Some b; patch_dryRun := None;
     patch_maxKillsPerWindow := None; patch_windowMs := None;
     patch_rules := None |}.

(** [updateConfig({ dryRun: b })] *)
Definition patchDryRun (b : bool) : ConfigPatch :=
  {| patch_enabled := None; patch_dryRun := Some b;
     patch_maxKillsPerWindow := None; patch_windowMs := None;
     patch_rules := None |}.



(** What each action of a call did, to whom. *)
Definition verdicts (acts : list ReaperAction) : list (Z * ReaperRuleName * ReaperOutcome) :=
  (fun a => (ra_targetPid a, ra_rule a, ra_outcome a)) <$> acts.



(** PID 500 seen as a duplicate model by two calls in a row. *)
Definition twice1 : Outcome :=
  evaluate {[600]} (hostAt 0) [] (duplicateSnapshot 0) (Some 600) init.
Definition twice2 : Outcome :=
  evaluate {[600]} (hostAt 10000) [] (duplicateSnapshot 10000) (Some 600)
    (out_state twice1).

(** Three stray models are killed; then dry-run mode is switched on and two
    more stray models show up. *)
Definition strays (t : Z) (pids : list Z) : Cycle :=
  {| cy_managed := ∅; cy_host := hostAt t; cy_processes := [];
     cy_cuda := snapshotOf t ((fun pid => gpuProc pid 5000 false) <$> pids);
     cy_backendPid := None |}.
Definition afterThreeKills : State :=
  (run [strays 0 [501; 502; 503]; strays 10000 [501; 502; 503]] init).2.
Definition dryRunAfterKills : list (list ReaperAction) * list Z * State :=
  run [strays 20000 [504; 505]; strays 30000 [504; 505]]
      (updateConfig (patchDryRun true) afterThreeKills).

(** Dry-run mode on the outdated snapshot, PID 600 registered meanwhile. *)
Definition dryRunOutdated : Outcome :=
  evaluate {[600]} (hostAt 10000) [] (outdatedSnapshot 10000) None
    (updateConfig (patchDryRun true) afterFirstSight).

(** The same snapshot pair handed to four calls in a row, ten seconds apart:
    PID 500 stays listed beside PID 600, and stays alive. *)
Definition unchangedCycle (h : Host) : Cycle :=
  {| cy_managed := {[600]}; cy_host := h; cy_processes := [];
     cy_cuda := duplicateSnapshot 0; cy_backendPid := Some 600 |}.
Definition unchangedAlive : list (list ReaperAction) * list Z * State :=
  run [unchangedCycle (hostAt 0); unchangedCycle (hostAt 10000);
       unchangedCycle (hostAt 20000); unchangedCycle (hostAt 30000)] init.
(** The same, PID 500 no longer answering the liveness probe after the kill. *)
Definition unchangedDead : list (list ReaperAction) * list Z * State :=
  run [unchangedCycle (hostAt 0); unchangedCycle (hostAt 10000);
       unchangedCycle (deadHostAt 20000); unchangedCycle (deadHostAt 30000)] init.
(** The same in dry-run mode. *)
Definition unchangedDryRun : list (list ReaperAction) * list Z * State :=
  run [unchangedCycle (hostAt 0); unchangedCycle (hostAt 10000);
       unchangedCycle (hostAt 20000); unchangedCycle (hostAt 30000)]
      (updateConfig (patchDryRun true) init).

(** Seven stray models with the default configuration (at most 3 kills per
    300 000 ms).  Calls are ten seconds apart.  The first two calls see all
    seven; PIDs 501, 502 and 503 are killed in the second and are gone from
    then on; the other four stay listed for the 25 calls that follow. *)
Definition breakerCycles : list Cycle :=
  strays 0 [501; 502; 503; 504; 505; 506; 507]
  :: strays 10000 [501; 502; 503; 504; 505; 506; 507]
  :: ((fun k => strays (10000 * Z.of_nat k) [504; 505; 506; 507]) <$> seq 2 25).
Definition breakerRun : list (list ReaperAction) * list Z * State :=
  run breakerCycles init.
(** The state the 27th call starts from. *)
Definition breakerBeforeLast : State := (run (take 26 breakerCycles) init).2.

(** The kills of a run: when, and of whom. *)
Definition killsOf (acts : list (list ReaperAction)) : list (Z * Z) :=
  (fun a => (ra_timestamp a, ra_targetPid a))
    <$> filter (fun a => ra_outcome a = OutKilled) (concat acts).

End Samples.

(** ** Sample inputs of the CUDA monitor *)

Module CudaSamples.
Import CudaMonitor.

Definition gpuUsing (usedMb : Z) : GpuInfo :=
  {| gi_name := "NVIDIA GeForce RTX 4090"; gi_memoryUsedMb := usedMb;
     gi_memoryTotalMb := 24564; gi_memoryFreeMb := 24564 - usedMb;
     gi_utilizationPercent := 5; gi_temperature := 50 |}.

(** Two polls ten seconds apart, the GPU going from 8000 MB to 8000 + [delta]
    MB used, with [procs] resident at the second poll. *)
Definition secondPoll (delta : Z) (procs : list GpuProcess) : CudaSnapshot :=
  (pollCuda (Some (gpuUsing (8000 + delta))) procs 10000
     (pollCuda (Some (gpuUsing 8000)) [] 0 init).2).1.

Definition alertKinds (s : CudaSnapshot) : list (CudaAlertType * AlertSeverity) :=
  (fun a => (ca_type a, ca_severity a)) <$> cs_alerts s.

End CudaSamples.

(** * Properties *)

(** ** Insertion-ordered maps *)

Section JsMapFacts.
Context {V : Type}.
Implicit Types (m : list (Z * V)) (k : Z) (v : V).

Lemma jsmap_set_keys k v m :
  ((jsmap_set k v m).*1 = m.*1) ∨ ((k ∉ m.*1) ∧ (jsmap_set k v m).*1 = m.*1 ++ [k]).
Proof.
  induction m as [|[k' v'] m IH]; simpl.
  - right. split; [apply not_elem_of_nil | done].
  - destruct (decide (k = k')) as [->|Hne]; rewrite !fmap_cons; simpl; [by left|].
    destruct IH as [IH|[Hnin IH]]; rewrite IH; [by left|].
    right. split; [|done]. rewrite not_elem_of_cons. done.
Qed.

Lemma jsmap_set_NoDup k v m : NoDup m.*1 → NoDup (jsmap_set k v m).*1.
Proof.
  intros Hnd. destruct (jsmap_set_keys k v m) as [->|[Hnin ->]]; [done|].
  apply NoDup_app. split_and!; [done| |apply NoDup_singleton].
  intros x Hx Hx'. apply list_elem_of_singleton in Hx'. by subst.
Qed.

Lemma jsmap_get_Some k v m : jsmap_get k m = Some v → (k, v) ∈ m.
Proof.
  induction m as [|[k' v'] m IH]; simpl; [done|].
  destruct (decide (k = k')) as [->|Hne].
  - intros [= ->]. apply list_elem_of_here.
  - intros H. apply list_elem_of_further. auto.
Qed.

Lemma jsmap_get_None k m : jsmap_get k m = None ↔ k ∉ m.*1.
Proof.
  induction m as [|[k' v'] m IH]; simpl.
  - split; [intros _; apply not_elem_of_nil | done].
  - rewrite not_elem_of_cons. destruct (decide (k = k')) as [->|Hne].
    + split; [done | intros [? _]; done].
    + rewrite IH. tauto.
Qed.

Lemma jsmap_get_elem k v m : NoDup m.*1 → (k, v) ∈ m → jsmap_get k m = Some v.
Proof.
  induction m as [|[k' v'] m IH]; simpl.
  - intros _ H. by apply elem_of_nil in H.
  - intros Hnd Hin. apply NoDup_cons in Hnd as [Hnin Hnd].
    apply elem_of_cons in Hin as [[= -> ->]|Hin].
    + by rewrite decide_True.
    + rewrite decide_False; [auto|].
      intros ->. apply Hnin. apply list_elem_of_fmap. by exists (k', v).
Qed.

Lemma jsmap_has_true k m : jsmap_has k m = true ↔ k ∈ m.*1.
Proof.
  unfold jsmap_has. rewrite bool_decide_eq_true.
  destruct (jsmap_get k m) as [v|] eqn:E.
  - split; [intros _ | by eauto].
    apply list_elem_of_fmap. exists (k, v). split; [done|]. by apply jsmap_get_Some.
  - apply jsmap_get_None in E. split; [by intros [? [=]] | done].
Qed.

End JsMapFacts.

(** ** The reaper's kill execution and confirmation loop *)

Section ReaperLoop.
Import ZombieReaper.
Variables (cfg : ReaperConfig) (managed : gset Z) (h : Host).

(** [executeKill] either leaves [candidates] and the signals alone (a skip
    or a dry run) or has passed every guard and called [safeKillPid]. *)
Lemma executeKill_spec pid rule reason n cands sig ticks :
  ∃ a,
    ra_targetPid a = pid ∧ ra_rule a = rule ∧ ra_timestamp a = Date_now h ticks ∧
    ((executeKill cfg managed h pid rule reason n cands sig ticks
        = (a, cands, sig, S ticks)
      ∧ (ra_outcome a = OutSkippedSafety ∨ ra_outcome a = OutDryRun))
     ∨ (executeKill cfg managed h pid rule reason n cands sig ticks
          = (a, delete pid cands, sig ++ [pid], S ticks)
        ∧ ra_outcome a = (if safeKillPid h pid then OutKilled else OutFailed)
        ∧ n < rc_maxKillsPerWindow cfg ∧ (pid ∉ managed)
        ∧ rc_dryRun cfg = false ∧ isPidAlive h pid = true)).
Proof.
  unfold executeKill.
  destruct (rc_maxKillsPerWindow cfg <=? n) eqn:Hmax;
    [eexists; split_and!; [..|left; split; [reflexivity|]]; simpl; auto|].
  destruct (bool_decide (pid ∈ managed)) eqn:Hman;
    [eexists; split_and!; [..|left; split; [reflexivity|]]; simpl; auto|].
  destruct (rc_dryRun cfg) eqn:Hdry;
    [eexists; split_and!; [..|left; split; [reflexivity|]]; simpl; auto|].
  destruct (isPidAlive h pid) eqn:Halive; simpl;
    [|eexists; split_and!; [..|left; split; [reflexivity|]]; simpl; auto].
  eexists; split_and!; [..|right; split_and!; [reflexivity|..]]; simpl; auto.
  - apply Z.leb_gt in Hmax. lia.
  - by apply bool_decide_eq_false in Hman.
Qed.

(** The circuit breaker comes first. *)
Lemma executeKill_circuit_breaker pid rule reason n cands sig ticks :
  rc_maxKillsPerWindow cfg ≤ n →
  executeKill cfg managed h pid rule reason n cands sig ticks
  = ({| ra_timestamp := Date_now h ticks; ra_targetPid := pid; ra_rule := rule;
        ra_reason := reason; ra_outcome := OutSkippedSafety;
        ra_freedMemoryMb := None |}, cands, sig, S ticks).
Proof.
  intros Hn. unfold executeKill.
  by rewrite (proj2 (Z.leb_le _ _) Hn).
Qed.

(** The registry check comes second: a managed PID is never signalled. *)
Lemma executeKill_managed pid rule reason n cands sig ticks :
  pid ∈ managed →
  ∃ a, executeKill cfg managed h pid rule reason n cands sig ticks
       = (a, cands, sig, S ticks)
       ∧ ra_targetPid a = pid ∧ ra_outcome a = OutSkippedSafety.
Proof.
  intros Hin. unfold executeKill.
  destruct (rc_maxKillsPerWindow cfg <=? n); [by eexists|].
  rewrite bool_decide_eq_true_2 by done. by eexists.
Qed.

Variable killsInWindow : Z.

Local Abbreviation confirm := (confirmOne cfg managed h killsInWindow).
Local Abbreviation killCount l :=
  (killsInWindow
   + Z.of_nat (length (filter (fun a => ra_outcome a = OutKilled) (loop_actions l)))).

(** The two branches of the loop body. *)
Lemma confirmOne_cases l pid info :
  (isConfirmed (loop_candidates l) pid info
   ∧ ∃ a cands sig,
       executeKill cfg managed h pid (flag_rule info) (flag_reason info)
         (killCount l) (loop_candidates l) (loop_signalled l) (loop_ticks l)
       = (a, cands, sig, S (loop_ticks l))
       ∧ confirm l (pid, info)
         = {| loop_candidates := cands; loop_actions := loop_actions l ++ [a];
              loop_signalled := sig; loop_ticks := S (loop_ticks l) |})
  ∨ (¬ isConfirmed (loop_candidates l) pid info
     ∧ confirm l (pid, info) = registerCandidate h l pid info).
Proof.
  unfold confirmOne, isConfirmed.
  destruct (loop_candidates l !! pid) as [prev|] eqn:Hprev.
  - destruct (bool_decide (cand_rule prev = flag_rule info)) eqn:Hrule.
    + apply bool_decide_eq_true in Hrule. left. split; [by eexists|].
      destruct (executeKill_spec pid (flag_rule info) (flag_reason info)
                  (killCount l) (loop_candidates l) (loop_signalled l)
                  (loop_ticks l)) as (a & _ & _ & _ & [[-> _]|[-> _]]);
        by do 3 eexists.
    + apply bool_decide_eq_false in Hrule. right. split; [|done].
      intros (p & [= <-] & ?). done.
  - right. split; [|done]. intros (p & [=] & _).
Qed.

(** A turn of the loop touches the candidate entry of its own PID only. *)
Lemma confirmOne_lookup_ne l e pid :
  pid ≠ e.1 → loop_candidates (confirm l e) !! pid = loop_candidates l !! pid.
Proof.
  destruct e as [p info]. intros Hne. simpl in Hne.
  destruct (confirmOne_cases l p info) as [(_ & a & c & s & Hex & ->)|[_ ->]]; simpl.
  - destruct (executeKill_spec p (flag_rule info) (flag_reason info)
                (killCount l) (loop_candidates l) (loop_signalled l)
                (loop_ticks l)) as (a' & _ & _ & _ & [[Heq _]|[Heq _]]);
      rewrite Heq in Hex; injection Hex as <- <- <-; [done|].
    by rewrite lookup_delete_ne.
  - by rewrite lookup_insert_ne.
Qed.

Lemma confirm_fold_lookup_ne cur l pid :
  pid ∉ cur.*1 →
  loop_candidates (fold_left confirm cur l) !! pid = loop_candidates l !! pid.
Proof.
  revert l. induction cur as [|e cur IH]; intros l Hnin; simpl; [done|].
  rewrite fmap_cons in Hnin. apply not_elem_of_cons in Hnin as [Hne Hnin].
  rewrite IH by done. by apply confirmOne_lookup_ne.
Qed.

(** Actions are only ever appended. *)
Lemma confirmOne_actions_prefix l e :
  loop_actions l `prefix_of` loop_actions (confirm l e).
Proof.
  destruct e as [p info].
  destruct (confirmOne_cases l p info) as [(_ & a & c & s & _ & ->)|[_ ->]]; simpl.
  - by apply prefix_app_r.
  - done.
Qed.

Lemma confirm_fold_actions_prefix cur l :
  loop_actions l `prefix_of` loop_actions (fold_left confirm cur l).
Proof.
  revert l. induction cur as [|e cur IH]; intros l; simpl; [done|].
  etrans; [apply confirmOne_actions_prefix | apply IH].
Qed.

(** An invariant of the loop body is an invariant of the loop. *)
Lemma confirm_fold_inv (P : Loop → Prop) cur l :
  P l → (∀ l e, e ∈ cur → P l → P (confirm l e)) → P (fold_left confirm cur l).
Proof.
  revert l. induction cur as [|e cur IH]; intros l Hl Hstep; simpl; [done|].
  apply IH.
  - apply Hstep; [apply list_elem_of_here | done].
  - intros l' e' He'. apply Hstep. by apply list_elem_of_further.
Qed.

(** Every action of the loop targets a flagged PID that was confirmed
    against the candidates the loop started from. *)
Lemma confirm_fold_actions_elim cur l a :
  NoDup cur.*1 → a ∈ loop_actions (fold_left confirm cur l) →
  a ∈ loop_actions l
  ∨ ∃ info, (ra_targetPid a, info) ∈ cur
            ∧ isConfirmed (loop_candidates l) (ra_targetPid a) info
            ∧ ra_rule a = flag_rule info.
Proof.
  revert l. induction cur as [|[p info] cur IH]; intros l Hnd Ha; cbn [fold_left] in Ha; [by left|].
  rewrite fmap_cons in Hnd. apply NoDup_cons in Hnd as [Hp Hnd].
  destruct (IH _ Hnd Ha) as [Hin|(info' & Hin & Hconf & Hrule)].
  - destruct (confirmOne_cases l p info) as [(Hc & a' & c & s & Hex & Heq)|[_ Heq]];
      rewrite Heq in Hin; simpl in Hin; [|by left].
    apply elem_of_app in Hin as [Hin|Hin]; [by left|].
    apply list_elem_of_singleton in Hin. subst a'. right.
    destruct (executeKill_spec p (flag_rule info) (flag_reason info)
                (killCount l) (loop_candidates l) (loop_signalled l)
                (loop_ticks l)) as (b & Ht & Hr & _ & [[Heq' _]|[Heq' _]]);
      rewrite Heq' in Hex; injection Hex as -> _ _;
      (exists info; rewrite Ht; split_and!; [apply list_elem_of_here|done|done]).
  - right. exists info'. split_and!; [by apply list_elem_of_further| |done].
    destruct Hconf as (prev & Hprev & Hr). exists prev. split; [|done].
    rewrite <- Hprev. symmetry. apply confirmOne_lookup_ne. simpl.
    intros Hpid. rewrite Hpid in Hin.
    apply Hp. apply list_elem_of_fmap. by exists (p, info').
Qed.

(** A flagged PID that is confirmed when the loop starts gets its
    [executeKill], whose action stays in [actions] and whose verdict on the
    candidate entry stands when the loop ends. *)
Lemma confirm_fold_confirmed (P : Loop → Prop) cur l pid info :
  NoDup cur.*1 → (pid, info) ∈ cur →
  isConfirmed (loop_candidates l) pid info →
  P l → (∀ l e, P l → P (confirm l e)) →
  ∃ l' a cands sig,
    P l' ∧ loop_candidates l' !! pid = loop_candidates l !! pid
    ∧ executeKill cfg managed h pid (flag_rule info) (flag_reason info)
        (killCount l') (loop_candidates l') (loop_signalled l') (loop_ticks l')
      = (a, cands, sig, S (loop_ticks l'))
    ∧ a ∈ loop_actions (fold_left confirm cur l)
    ∧ loop_candidates (fold_left confirm cur l) !! pid = cands !! pid.
Proof.
  intros Hnd Hin Hconf HP Hstep.
  apply list_elem_of_split in Hin as (pre & post & ->).
  rewrite fmap_app, fmap_cons in Hnd. simpl in Hnd.
  apply NoDup_app in Hnd as (_ & Hpre & Hnd). apply NoDup_cons in Hnd as [Hpost _].
  assert (pid ∉ pre.*1) as Hpre'.
  { intros Hin. apply (Hpre _ Hin). apply list_elem_of_here. }
  rewrite fold_left_app. cbn [fold_left].
  set (l' := fold_left confirm pre l).
  assert (loop_candidates l' !! pid = loop_candidates l !! pid) as Hsame
    by (by apply confirm_fold_lookup_ne).
  destruct (confirmOne_cases l' pid info)
    as [(_ & a & c & s & Hex & Heq)|[Hno _]].
  - exists l', a, c, s. split_and!; [|done|done| |].
    + apply confirm_fold_inv; [done|]. intros; by apply Hstep.
    + eapply elem_of_prefix; [|apply confirm_fold_actions_prefix].
      rewrite Heq. simpl. apply elem_of_app. right. apply list_elem_of_here.
    + rewrite confirm_fold_lookup_ne by done. by rewrite Heq.
  - exfalso. apply Hno. unfold isConfirmed. by rewrite Hsame.
Qed.

(** A flagged PID that is not confirmed when the loop starts is registered
    under the rule it is flagged with. *)
Lemma confirm_fold_unconfirmed cur l pid info :
  NoDup cur.*1 → (pid, info) ∈ cur →
  ¬ isConfirmed (loop_candidates l) pid info →
  ∃ t, loop_candidates (fold_left confirm cur l) !! pid
       = Some (mkCandidate (flag_rule info) (flag_reason info) t).
Proof.
  intros Hnd Hin Hconf.
  apply list_elem_of_split in Hin as (pre & post & ->).
  rewrite fmap_app, fmap_cons in Hnd. simpl in Hnd.
  apply NoDup_app in Hnd as (_ & Hpre & Hnd). apply NoDup_cons in Hnd as [Hpost _].
  assert (pid ∉ pre.*1) as Hpre'.
  { intros Hin. apply (Hpre _ Hin). apply list_elem_of_here. }
  rewrite fold_left_app. cbn [fold_left].
  set (l' := fold_left confirm pre l).
  assert (loop_candidates l' !! pid = loop_candidates l !! pid) as Hsame
    by (by apply confirm_fold_lookup_ne).
  rewrite confirm_fold_lookup_ne by done.
  destruct (confirmOne_cases l' pid info) as [(Hyes & _)|[_ ->]].
  - exfalso. apply Hconf. unfold isConfirmed in *. by rewrite <- Hsame.
  - eexists. unfold registerCandidate. simpl. apply lookup_insert_eq.
Qed.

End ReaperLoop.

(** ** The rules never list a PID twice *)

Lemma fold_left_inv {A B} (P : A → Prop) (f : A → B → A) (xs : list B) (a : A) :
  P a → (∀ a x, P a → P (f a x)) → P (fold_left f xs a).
Proof.
  intros Ha Hf. revert a Ha. induction xs as [|x xs IH]; intros a Ha; simpl; auto.
Qed.

Lemma currentCandidates_NoDup cfg managed h processes cudaSnapshot backend :
  NoDup (ZombieReaper.currentCandidates cfg managed h processes cudaSnapshot
           backend).*1.
Proof.
  unfold ZombieReaper.currentCandidates, ZombieReaper.when.
  assert (NoDup ([] : list (Z * ZombieReaper.Flag)).*1) as H0 by constructor.
  revert H0. generalize ([] : list (Z * ZombieReaper.Flag)). intros c0 H0.
  assert (∀ c, NoDup c.*1 → NoDup (ZombieReaper.ruleOrphanKill managed processes c).*1) as H1.
  { intros c Hc. apply (fold_left_inv (fun c => NoDup c.*1)); [done|].
    intros c' x Hc'. destruct (_ && _); [by apply jsmap_set_NoDup | done]. }
  assert (∀ c, NoDup c.*1 → NoDup (ZombieReaper.ruleDuplicateModel cudaSnapshot c).*1) as H2.
  { intros c Hc. unfold ZombieReaper.ruleDuplicateModel.
    destruct (bool_decide _); [|done].
    apply (fold_left_inv (fun c => NoDup c.*1)); [done|].
    intros c' x Hc'. destruct (negb _); [by apply jsmap_set_NoDup | done]. }
  assert (∀ c, NoDup c.*1 →
            NoDup (ZombieReaper.rulePortSquatter managed
                     (ZombieReaper.getPortOwner h) backend c).*1) as H3.
  { intros c Hc. unfold ZombieReaper.rulePortSquatter.
    destruct (ZombieReaper.getPortOwner h); [|done].
    destruct (_ && _); [by apply jsmap_set_NoDup | done]. }
  assert (∀ c, NoDup c.*1 → NoDup (ZombieReaper.ruleStaleWorker managed processes c).*1) as H4.
  { intros c Hc. apply (fold_left_inv (fun c => NoDup c.*1)); [done|].
    intros c' x Hc'. destruct (_ && _); [by apply jsmap_set_NoDup | done]. }
  assert (∀ c, NoDup c.*1 → NoDup (ZombieReaper.ruleVramHog processes cudaSnapshot c).*1) as H5.
  { intros c Hc. apply (fold_left_inv (fun c => NoDup c.*1)); [done|].
    intros c' x Hc'. destruct (_ && _); [|done].
    destruct (find _ _); [|done].
    destruct (bool_decide _); [by apply jsmap_set_NoDup | done]. }
  destruct (rc_rules cfg OrphanKill), (rc_rules cfg DuplicateModel),
    (rc_rules cfg PortSquatter), (rc_rules cfg StaleWorker),
    (rc_rules cfg VramHog); auto 10.
Qed.

(** Pruning keeps exactly the entries of the PIDs flagged this cycle. *)
Lemma lookup_pruned (cur : list (Z * ZombieReaper.Flag))
    (m : gmap Z ZombieReaper.Candidate) (pid : Z) :
  filter (fun kv => jsmap_has kv.1 cur = true) m !! pid
  = if jsmap_has pid cur then m !! pid else None.
Proof.
  apply option_eq. intros c. rewrite map_lookup_filter_Some. simpl.
  destruct (jsmap_has pid cur); [tauto|]. split; [by intros [_ ?] | done].
Qed.

(** ** One call of [evaluate] with the reaper enabled *)

Section ReaperCycle.
Import ZombieReaper.
Variables (managed : gset Z) (h : Host) (processes : list TrackedProcess)
          (cudaSnapshot : CudaSnapshot) (backend : option Z) (st : State).
Hypothesis Henabled : rc_enabled (config st) = true.

Local Abbreviation cur :=
  (currentCandidates (config st) managed h processes cudaSnapshot backend).
Local Abbreviation kills0 := (getKillsInWindow (Date_now h 0) st).
Local Abbreviation loop0 :=
  {| loop_candidates := candidates st; loop_actions := [];
     loop_signalled := []; loop_ticks := 1 |}.
Local Abbreviation loopEnd :=
  (fold_left (confirmOne (config st) managed h kills0) cur loop0).
Local Abbreviation result :=
  (evaluate managed h processes cudaSnapshot backend st).

Lemma evaluate_enabled :
  result
  = {| out_actions := loop_actions loopEnd;
       out_state :=
         {| config := config st;
            actionLog := trim_to 100 (actionLog st ++ loop_actions loopEnd);
            candidates :=
              filter (fun kv => jsmap_has kv.1 cur = true) (loop_candidates loopEnd) |};
       out_signalled := loop_signalled loopEnd |}.
Proof. unfold evaluate. by rewrite Henabled. Qed.

(** An action is only taken against a PID flagged in this call under the
    rule its candidate entry already carried. *)
Lemma evaluate_action_confirmed a :
  a ∈ out_actions result →
  ∃ info, jsmap_get (ra_targetPid a) cur = Some info
          ∧ isConfirmed (candidates st) (ra_targetPid a) info
          ∧ ra_rule a = flag_rule info.
Proof.
  rewrite evaluate_enabled. simpl. intros Ha.
  apply confirm_fold_actions_elim in Ha as [Ha|(info & Hin & Hc & Hr)];
    [by apply elem_of_nil in Ha| |apply currentCandidates_NoDup].
  exists info. split_and!; [|done|done].
  apply jsmap_get_elem; [apply currentCandidates_NoDup | done].
Qed.

(** A PID that no rule flags loses its candidate entry and gets no action. *)
Lemma evaluate_unflagged pid :
  jsmap_get pid cur = None →
  candidates (out_state result) !! pid = None
  ∧ ∀ a, a ∈ out_actions result → ra_targetPid a ≠ pid.
Proof.
  intros Hnone. split.
  - rewrite evaluate_enabled. simpl. rewrite lookup_pruned.
    unfold jsmap_has. rewrite Hnone. rewrite bool_decide_eq_false_2; [done|].
    by intros [? [=]].
  - intros a Ha Hpid. apply evaluate_action_confirmed in Ha as (info & Hget & _).
    rewrite Hpid in Hget. congruence.
Qed.

(** A PID flagged without a candidate entry of the same rule is registered
    under the rule it is flagged with, and gets no action. *)
Lemma evaluate_first_seen pid info :
  jsmap_get pid cur = Some info →
  ¬ isConfirmed (candidates st) pid info →
  (∃ t, candidates (out_state result) !! pid
        = Some (mkCandidate (flag_rule info) (flag_reason info) t))
  ∧ ∀ a, a ∈ out_actions result → ra_targetPid a ≠ pid.
Proof.
  intros Hget Hno. split.
  - rewrite evaluate_enabled. simpl. rewrite lookup_pruned.
    unfold jsmap_has. rewrite Hget. rewrite bool_decide_eq_true_2 by eauto.
    apply confirm_fold_unconfirmed;
      [apply currentCandidates_NoDup | by apply jsmap_get_Some | done].
  - intros a Ha Hpid. apply evaluate_action_confirmed in Ha as (info' & Hget' & Hc & _).
    rewrite Hpid in Hget', Hc. congruence.
Qed.

(** A PID flagged under the rule of its candidate entry gets an action; the
    entry goes when the kill signal was sent and stays otherwise. *)
Lemma evaluate_confirmed (P : Loop → Prop) pid info :
  jsmap_get pid cur = Some info →
  isConfirmed (candidates st) pid info →
  P loop0 → (∀ l e, P l → P (confirmOne (config st) managed h kills0 l e)) →
  ∃ l a cands sig,
    P l
    ∧ executeKill (config st) managed h pid (flag_rule info) (flag_reason info)
        (kills0 + Z.of_nat (length (filter (fun a => ra_outcome a = OutKilled)
                                           (loop_actions l))))
        (loop_candidates l) (loop_signalled l) (loop_ticks l)
      = (a, cands, sig, S (loop_ticks l))
    ∧ a ∈ out_actions result
    ∧ ra_targetPid a = pid ∧ ra_rule a = flag_rule info
    ∧ candidates (out_state result) !! pid
      = (if decide (ra_outcome a = OutKilled ∨ ra_outcome a = OutFailed)
         then None else candidates st !! pid).
Proof.
  intros Hget Hconf HP Hstep.
  destruct (confirm_fold_confirmed (config st) managed h kills0 P cur loop0 pid info)
    as (l & a & cands & sig & HPl & Hsame & Hex & Hin & Hfin);
    [apply currentCandidates_NoDup | by apply jsmap_get_Some | done..|].
  exists l, a, cands, sig. rewrite evaluate_enabled. simpl.
  destruct (executeKill_spec (config st) managed h pid (flag_rule info)
              (flag_reason info)
              (kills0 + Z.of_nat (length (filter (fun a => ra_outcome a = OutKilled)
                                                 (loop_actions l))))
              (loop_candidates l) (loop_signalled l) (loop_ticks l))
    as (a' & Ht & Hr & _ & [[Heq Hout]|(Heq & Hout & _)]);
    rewrite Heq in Hex; injection Hex as -> <- <-;
    (split_and!; [done..|]);
    rewrite lookup_pruned; unfold jsmap_has; rewrite Hget;
    rewrite bool_decide_eq_true_2 by eauto; rewrite Hfin.
  - rewrite decide_False; [done|]. intros [Hk|Hk]; destruct Hout; congruence.
  - rewrite decide_True; [apply lookup_delete_eq|].
    rewrite Hout. destruct (safeKillPid h pid); auto.
Qed.


End ReaperCycle.

(** ** The reaper's safety invariants *)

Section ReaperSafety.
Import ZombieReaper.

(** Whatever the state, the actions of one call spare the managed PIDs and
    no signal goes to one of them. *)
Lemma evaluate_spares_managed managed h processes cudaSnapshot backend st :
  (∀ a, a ∈ out_actions (evaluate managed h processes cudaSnapshot backend st) →
        ra_targetPid a ∈ managed → ra_outcome a = OutSkippedSafety)
  ∧ (∀ q, q ∈ out_signalled (evaluate managed h processes cudaSnapshot backend st) →
          q ∉ managed).
Proof.
  destruct (rc_enabled (config st)) eqn:Hen.
  - rewrite evaluate_enabled by done. simpl.
    apply (confirm_fold_inv (config st) managed h _
             (fun l => (∀ a, a ∈ loop_actions l → ra_targetPid a ∈ managed →
                             ra_outcome a = OutSkippedSafety)
                       ∧ (∀ q, q ∈ loop_signalled l → q ∉ managed))).
    + simpl. split; intros ? H; by apply elem_of_nil in H.
    + intros l [pid info] _ [Hacts Hsig].
      destruct (confirmOne_cases (config st) managed h
                  (getKillsInWindow (Date_now h 0) st) l pid info)
        as [(_ & a & c & s & Hex & ->)|[_ ->]]; simpl; [|done].
      destruct (executeKill_spec (config st) managed h pid (flag_rule info)
                  (flag_reason info)
                  (getKillsInWindow (Date_now h 0) st
                   + Z.of_nat (length (filter (fun a => ra_outcome a = OutKilled)
                                              (loop_actions l))))
                  (loop_candidates l) (loop_signalled l) (loop_ticks l))
        as (a' & Ht & _ & _ & [[Heq Hout]|(Heq & Hout & _ & Hnm & _)]);
        rewrite Heq in Hex; injection Hex as -> <- <-; split.
      * intros b Hb Hm. apply elem_of_app in Hb as [Hb|Hb]; [by apply Hacts|].
        apply list_elem_of_singleton in Hb as ->. rewrite Ht in Hm.
        destruct (executeKill_managed (config st) managed h pid (flag_rule info)
                    (flag_reason info)
                    (getKillsInWindow (Date_now h 0) st
                     + Z.of_nat (length (filter (fun a => ra_outcome a = OutKilled)
                                                (loop_actions l))))
                    (loop_candidates l) (loop_signalled l) (loop_ticks l) Hm)
          as (a'' & Heq' & _ & Hs).
        rewrite Heq in Heq'. by injection Heq' as ->.
      * done.
      * intros b Hb Hm. apply elem_of_app in Hb as [Hb|Hb]; [by apply Hacts|].
        apply list_elem_of_singleton in Hb as ->. rewrite Ht in Hm. done.
      * intros q Hq. apply elem_of_app in Hq as [Hq|Hq]; [by apply Hsig|].
        by apply list_elem_of_singleton in Hq as ->.
  - unfold evaluate. rewrite Hen. simpl.
    split; intros ? H; by apply elem_of_nil in H.
Qed.

(** The same over any succession of calls, each with the registry, the
    host and the snapshots of its own. *)
Lemma run_spares_managed cs st i c acts a :
  cs !! i = Some c → (run cs st).1.1 !! i = Some acts →
  a ∈ acts → ra_targetPid a ∈ cy_managed c → ra_outcome a = OutSkippedSafety.
Proof.
  revert st i. induction cs as [|c0 cs IH]; intros st i Hc Hacts Ha Hm; [done|].
  simpl in Hacts.
  destruct (run cs (out_state (step c0 st))) as [[acts' sig'] st'] eqn:Hrun.
  destruct i as [|i]; simpl in *.
  - injection Hc as ->. injection Hacts as <-.
    by eapply (proj1 (evaluate_spares_managed _ _ _ _ _ _)).
  - eapply (IH (out_state (step c0 st)) i); [done| |done..].
    by rewrite Hrun.
Qed.

End ReaperSafety.

(** C1. A PID that is in the managed registry when the kill-execution path
    runs gets outcome skipped-safety and no signal: [executeKill] answers
    skipped-safety for it whatever the rule, the kill count and the mode;
    every action of [evaluate] that targets it is skipped-safety;
    [safeKillPid] is not called on it; and this holds cycle after cycle. *)
Theorem reaper_never_kills_managed (managed : gset Z) (p : Z) :
  p ∈ managed →
  (∀ cfg h rule reason n cands sig ticks,
     ∃ a, ZombieReaper.executeKill cfg managed h p rule reason n cands sig ticks
          = (a, cands, sig, S ticks)
          ∧ ra_targetPid a = p ∧ ra_outcome a = OutSkippedSafety)
  ∧ (∀ h processes cudaSnapshot backend st a,
       a ∈ ZombieReaper.out_actions
             (ZombieReaper.evaluate managed h processes cudaSnapshot backend st) →
       ra_targetPid a = p →
       ra_outcome a = OutSkippedSafety ∧ ra_outcome a ≠ OutKilled)
  ∧ (∀ h processes cudaSnapshot backend st,
       p ∉ ZombieReaper.out_signalled
             (ZombieReaper.evaluate managed h processes cudaSnapshot backend st))
  ∧ (∀ cs st i c acts a,
       cs !! i = Some c → ZombieReaper.cy_managed c = managed →
       (ZombieReaper.run cs st).1.1 !! i = Some acts →
       a ∈ acts → ra_targetPid a = p → ra_outcome a = OutSkippedSafety).
Proof.
  intros Hp. split_and!.
  - intros. by apply executeKill_managed.
  - intros h processes cudaSnapshot backend st a Ha Ht.
    assert (ra_outcome a = OutSkippedSafety) as Hs.
    { eapply (proj1 (evaluate_spares_managed _ _ _ _ _ _)); [done|]. by rewrite Ht. }
    split; [done|]. by rewrite Hs.
  - intros h processes cudaSnapshot backend st Hin.
    by apply (proj2 (evaluate_spares_managed _ _ _ _ _ _)) in Hin.
  - intros cs st i c acts a Hc Hm Hacts Ha Ht.
    eapply run_spares_managed; [done..|]. by rewrite Hm, Ht.
Qed.

(** PID 600 is registered after the snapshot that lists it as unmanaged was
    taken, and is a confirmed candidate: it is skipped. *)
Lemma reaper_never_kills_managed_witness :
  600 ∈ ({[600]} : gset Z)
  ∧ (∃ a, a ∈ ZombieReaper.out_actions
                (ZombieReaper.evaluate {[600]} (Samples.hostAt 10000) []
                   (Samples.outdatedSnapshot 10000) None Samples.afterFirstSight)
          ∧ ra_targetPid a = 600)
  ∧ (∀ a, a ∈ ZombieReaper.out_actions
                (ZombieReaper.evaluate {[600]} (Samples.hostAt 10000) []
                   (Samples.outdatedSnapshot 10000) None Samples.afterFirstSight) →
          ra_targetPid a = 600 →
          ra_outcome a = OutSkippedSafety ∧ ra_outcome a ≠ OutKilled).
Proof.
  assert (600 ∈ ({[600]} : gset Z)) as H600 by (apply elem_of_singleton; reflexivity).
  split; [exact H600|]. split.
  - eexists. split; [vm_compute; apply list_elem_of_further, list_elem_of_here|reflexivity].
  - exact (proj1 (proj2 (reaper_never_kills_managed {[600]} 600 H600))
             (Samples.hostAt 10000) [] (Samples.outdatedSnapshot 10000) None
             Samples.afterFirstSight).
Defined.

(** C10. With [enabled] false, [evaluate] returns no action and hands the
    state back as it got it: the candidate map and the action log are the
    ones it was given, and nothing is signalled. *)
Theorem evaluate_disabled_is_noop managed h processes cudaSnapshot backend
    (st : ZombieReaper.State) :
  rc_enabled (ZombieReaper.config st) = false →
  ZombieReaper.evaluate managed h processes cudaSnapshot backend st
  = {| ZombieReaper.out_actions := [];
       ZombieReaper.out_state := st;
       ZombieReaper.out_signalled := [] |}.
Proof. intros Hoff. unfold ZombieReaper.evaluate. by rewrite Hoff. Qed.

(** The reaper is switched off while PIDs 500 and 600 are candidates. *)
Lemma evaluate_disabled_is_noop_witness :
  rc_enabled (ZombieReaper.config
                (ZombieReaper.updateConfig (Samples.patchEnabled false) Samples.afterFirstSight))
  = false
  ∧ dom (ZombieReaper.candidates
           (ZombieReaper.updateConfig (Samples.patchEnabled false) Samples.afterFirstSight))
    = ({[500; 600]} : gset Z)
  ∧ ZombieReaper.evaluate ∅ (Samples.hostAt 10000) []
      (Samples.outdatedSnapshot 10000) None
      (ZombieReaper.updateConfig (Samples.patchEnabled false) Samples.afterFirstSight)
    = {| ZombieReaper.out_actions := [];
         ZombieReaper.out_state :=
           ZombieReaper.updateConfig (Samples.patchEnabled false)
             Samples.afterFirstSight;
         ZombieReaper.out_signalled := [] |}.
Proof.
  split; [reflexivity|]. split; [by vm_compute|].
  exact (evaluate_disabled_is_noop ∅ (Samples.hostAt 10000) []
           (Samples.outdatedSnapshot 10000) None
           (ZombieReaper.updateConfig (Samples.patchEnabled false) Samples.afterFirstSight)
           eq_refl).
Defined.

(** ** Two-cycle confirmation *)




(** ** Dry-run mode *)

Lemma elem_of_trim_to_suffix {A} (cap : nat) (old new : list A) (x : A) :
  (length new ≤ cap)%nat → x ∈ new → x ∈ trim_to cap (old ++ new).
Proof.
  intros Hlen Hx. unfold trim_to. rewrite length_app.
  rewrite drop_app_le by lia. apply elem_of_app. by right.
Qed.

Section DryRun.
Import ZombieReaper.
Variables (managed : gset Z) (h : Host).
Variable cfg : ReaperConfig.
Hypothesis Hdry : rc_dryRun cfg = true.

(** In dry-run mode the two safety guards still come first. *)
Lemma executeKill_dry_run pid rule reason n cands sig ticks :
  ∃ a, executeKill cfg managed h pid rule reason n cands sig ticks
       = (a, cands, sig, S ticks)
       ∧ ra_targetPid a = pid ∧ ra_rule a = rule
       ∧ ra_outcome a
         = (if decide (rc_maxKillsPerWindow cfg ≤ n ∨ pid ∈ managed)
            then OutSkippedSafety else OutDryRun).
Proof.
  unfold executeKill.
  destruct (rc_maxKillsPerWindow cfg <=? n) eqn:Hmax.
  { apply Z.leb_le in Hmax. eexists. split_and!; [done..|]. simpl.
    by rewrite decide_True by auto. }
  apply Z.leb_gt in Hmax.
  destruct (bool_decide (pid ∈ managed)) eqn:Hman.
  { apply bool_decide_eq_true in Hman. eexists. split_and!; [done..|]. simpl.
    by rewrite decide_True by auto. }
  apply bool_decide_eq_false in Hman. rewrite Hdry.
  eexists. split_and!; [done..|]. simpl.
  rewrite decide_False; [done|]. intros [?|?]; [lia|done].
Qed.

Lemma quiet_no_kills l :
  quiet l → filter (fun a => ra_outcome a = OutKilled) (loop_actions l) = [].
Proof.
  intros [_ Hacts]. induction (loop_actions l) as [|a acts IH]; [done|].
  rewrite filter_cons. destruct (decide _) as [Hk|_].
  - destruct (Hacts a (list_elem_of_here _ _)); congruence.
  - apply IH. intros b Hb. apply Hacts. by apply list_elem_of_further.
Qed.

Lemma confirmOne_quiet k l e : quiet l → quiet (confirmOne cfg managed h k l e).
Proof.
  intros [Hsig Hacts]. destruct e as [pid info].
  destruct (confirmOne_cases cfg managed h k l pid info)
    as [(_ & a & c & s & Hex & ->)|[_ ->]]; [|done].
  destruct (executeKill_dry_run pid (flag_rule info) (flag_reason info)
              (k + Z.of_nat (length (filter (fun a => ra_outcome a = OutKilled)
                                            (loop_actions l))))
              (loop_candidates l) (loop_signalled l) (loop_ticks l))
    as (a' & Heq & _ & _ & Hout).
  rewrite Heq in Hex. injection Hex as -> <- <-. split; simpl; [done|].
  intros b Hb. apply elem_of_app in Hb as [Hb|Hb]; [by apply Hacts|].
  apply list_elem_of_singleton in Hb as ->. rewrite Hout.
  destruct (decide _); auto.
Qed.

End DryRun.

(** C5, as stated, fails on the second half: a confirmed candidate of a
    dry-run call is recorded as skipped-safety, not as dry-run, when the
    circuit breaker is open (three kills were made before dry-run mode was
    switched on) or when its PID is in the managed registry (PID 600, flagged
    from a snapshot older than its registration). *)
Lemma dry_run_counterexample :
  (rc_dryRun (ZombieReaper.config Samples.dryRunAfterKills.2) = true
   ∧ Samples.verdicts <$> Samples.dryRunAfterKills.1.1
     = [[]; [(504, DuplicateModel, OutSkippedSafety);
             (505, DuplicateModel, OutSkippedSafety)]]
   ∧ Samples.dryRunAfterKills.1.2 = [])
  ∧ (Samples.verdicts (ZombieReaper.out_actions Samples.dryRunOutdated)
     = [(500, DuplicateModel, OutDryRun); (600, DuplicateModel, OutSkippedSafety)]
     ∧ ZombieReaper.out_signalled Samples.dryRunOutdated = []).
Proof. by vm_compute. Qed.

(** C5, amended.  With [dryRun] true, [evaluate] never calls [safeKillPid],
    and every action it returns is a dry-run or a skipped-safety.  With the
    reaper enabled the actions are appended to the log, which is then cut to
    its last 100 entries, and every confirmed candidate gets an action, in
    the log when the call made at most 100: its outcome is skipped-safety
    when the kills in the window have reached the maximum or its PID is in
    the managed registry, and dry-run otherwise. *)
Theorem dry_run_sends_no_signal managed h processes cudaSnapshot backend
    (st : ZombieReaper.State) :
  rc_dryRun (ZombieReaper.config st) = true →
  let o := ZombieReaper.evaluate managed h processes cudaSnapshot backend st in
  let cur := ZombieReaper.currentCandidates (ZombieReaper.config st) managed h
               processes cudaSnapshot backend in
  ZombieReaper.out_signalled o = []
  ∧ (∀ a, a ∈ ZombieReaper.out_actions o →
          ra_outcome a = OutDryRun ∨ ra_outcome a = OutSkippedSafety)
  ∧ (rc_enabled (ZombieReaper.config st) = true →
     ZombieReaper.actionLog (ZombieReaper.out_state o)
     = trim_to 100 (ZombieReaper.actionLog st ++ ZombieReaper.out_actions o)
     ∧ ∀ pid info,
         jsmap_get pid cur = Some info →
         ZombieReaper.isConfirmed (ZombieReaper.candidates st) pid info →
         ∃ a, a ∈ ZombieReaper.out_actions o
              ∧ ra_targetPid a = pid
              ∧ ra_rule a = ZombieReaper.flag_rule info
              ∧ ra_outcome a
                = (if decide (rc_maxKillsPerWindow (ZombieReaper.config st)
                              ≤ ZombieReaper.getKillsInWindow
                                  (ZombieReaper.Date_now h 0) st
                              ∨ pid ∈ managed)
                   then OutSkippedSafety else OutDryRun)
              ∧ ((length (ZombieReaper.out_actions o) ≤ 100)%nat →
                 a ∈ ZombieReaper.actionLog (ZombieReaper.out_state o))).
Proof.
  intros Hdry o cur.
  destruct (rc_enabled (ZombieReaper.config st)) eqn:Hen.
  - assert (ZombieReaper.quiet (fold_left
                     (ZombieReaper.confirmOne (ZombieReaper.config st) managed h
                        (ZombieReaper.getKillsInWindow (ZombieReaper.Date_now h 0) st))
                     cur
                     {| ZombieReaper.loop_candidates := ZombieReaper.candidates st;
                        ZombieReaper.loop_actions := [];
                        ZombieReaper.loop_signalled := [];
                        ZombieReaper.loop_ticks := 1 |})) as [Hsig Hacts].
    { apply confirm_fold_inv.
      - split; [done|]. intros a Ha. by apply elem_of_nil in Ha.
      - intros l e _. by apply confirmOne_quiet. }
    subst o. rewrite evaluate_enabled by done. simpl.
    split_and!; [done|done|]. intros _. split; [done|].
    intros pid info Hget Hconf.
    destruct (evaluate_confirmed managed h processes cudaSnapshot backend st Hen
                ZombieReaper.quiet pid info Hget Hconf)
      as (l & a & cands & sig & Hq & Hex & Hin & Ht & Hr & _).
    { split; [done|]. intros a Ha. by apply elem_of_nil in Ha. }
    { intros l e. by apply confirmOne_quiet. }
    rewrite evaluate_enabled in Hin by done. simpl in Hin.
    exists a. split_and!; [done..| |].
    + rewrite (quiet_no_kills _ Hq) in Hex. simpl in Hex. rewrite Z.add_0_r in Hex.
      destruct (executeKill_dry_run managed h (ZombieReaper.config st) Hdry pid
                  (ZombieReaper.flag_rule info) (ZombieReaper.flag_reason info)
                  (ZombieReaper.getKillsInWindow (ZombieReaper.Date_now h 0) st)
                  (ZombieReaper.loop_candidates l) (ZombieReaper.loop_signalled l)
                  (ZombieReaper.loop_ticks l)) as (a' & Heq & _ & _ & Hout).
      rewrite Heq in Hex. by injection Hex as ->.
    + intros Hlen. by apply elem_of_trim_to_suffix.
  - subst o. unfold ZombieReaper.evaluate. rewrite Hen. simpl.
    split_and!; [done| |done]. intros a Ha. by apply elem_of_nil in Ha.
Qed.

(** Dry-run mode with PIDs 500 and 600 confirmed, PID 600 being managed. *)
Lemma dry_run_sends_no_signal_witness :
  rc_dryRun (ZombieReaper.config
               (ZombieReaper.updateConfig (Samples.patchDryRun true)
                  Samples.afterFirstSight)) = true
  ∧ Samples.verdicts (ZombieReaper.out_actions Samples.dryRunOutdated)
    = [(500, DuplicateModel, OutDryRun); (600, DuplicateModel, OutSkippedSafety)]
  ∧ ZombieReaper.out_signalled Samples.dryRunOutdated = [].
Proof.
  split; [reflexivity|]. split; [by vm_compute|].
  exact (proj1 (dry_run_sends_no_signal {[600]} (Samples.hostAt 10000) []
                  (Samples.outdatedSnapshot 10000) None
                  (ZombieReaper.updateConfig (Samples.patchDryRun true)
                     Samples.afterFirstSight) eq_refl)).
Defined.

(** ** Repeated calls on unchanged snapshots *)

Lemma NoDup_fmap_eq {A B} (f : A → B) (l : list A) (x y : A) :
  NoDup (f <$> l) → x ∈ l → y ∈ l → f x = f y → x = y.
Proof.
  induction l as [|z l IH]; intros Hnd Hx Hy Hf; [by apply elem_of_nil in Hx|].
  rewrite fmap_cons in Hnd. apply NoDup_cons in Hnd as [Hz Hnd].
  apply elem_of_cons in Hx as [->|Hx]; apply elem_of_cons in Hy as [->|Hy].
  - done.
  - exfalso. apply Hz. rewrite Hf. by apply list_elem_of_fmap_2.
  - exfalso. apply Hz. rewrite <- Hf. by apply list_elem_of_fmap_2.
  - by apply IH.
Qed.

Section Unchanged.
Import ZombieReaper.

Lemma evaluate_config managed h processes cudaSnapshot backend st :
  config (out_state (evaluate managed h processes cudaSnapshot backend st))
  = config st.
Proof. unfold evaluate. by destruct (rc_enabled (config st)). Qed.

(** Of the host, the rules only consult the owner of port 8998. *)
Lemma currentCandidates_port cfg managed h h' processes cudaSnapshot backend :
  getPortOwner h' = getPortOwner h →
  currentCandidates cfg managed h' processes cudaSnapshot backend
  = currentCandidates cfg managed h processes cudaSnapshot backend.
Proof. intros Hport. unfold currentCandidates. by rewrite Hport. Qed.

(** One call never acts twice on the same PID. *)
Lemma confirm_fold_targets_NoDup cfg managed h k cur l :
  NoDup cur.*1 →
  NoDup (ra_targetPid <$> loop_actions l) →
  (∀ a, a ∈ loop_actions l → ra_targetPid a ∉ cur.*1) →
  NoDup (ra_targetPid <$> loop_actions (fold_left (confirmOne cfg managed h k) cur l)).
Proof.
  revert l. induction cur as [|[p info] cur IH]; intros l Hnd Hl Hout; [done|].
  cbn [fold_left]. rewrite fmap_cons in Hnd. apply NoDup_cons in Hnd as [Hp Hnd].
  assert (∀ a, a ∈ loop_actions l → ra_targetPid a ≠ p ∧ ra_targetPid a ∉ cur.*1) as Hout'.
  { intros a Ha. specialize (Hout a Ha). rewrite fmap_cons in Hout.
    by apply not_elem_of_cons in Hout. }
  destruct (confirmOne_cases cfg managed h k l p info)
    as [(_ & a & c & s & Hex & Heq)|[_ Heq]]; rewrite Heq; apply IH; simpl; try done.
  - destruct (executeKill_spec cfg managed h p (flag_rule info) (flag_reason info)
                (k + Z.of_nat (length (filter (fun a => ra_outcome a = OutKilled)
                                              (loop_actions l))))
                (loop_candidates l) (loop_signalled l) (loop_ticks l))
      as (a' & Ht & _ & _ & [[Heq' _]|[Heq' _]]);
      rewrite Heq' in Hex; injection Hex as -> _ _;
      rewrite fmap_app; apply NoDup_app; (split_and!; [done| |apply NoDup_singleton]);
      intros x Hx Hx'; apply list_elem_of_singleton in Hx'; subst x;
      apply list_elem_of_fmap in Hx as (b & Hb & Hin); rewrite Ht in Hb;
      destruct (Hout' b Hin) as [Hne _]; congruence.
  - intros b Hb. apply elem_of_app in Hb as [Hb|Hb]; [by apply Hout'|].
    apply list_elem_of_singleton in Hb as ->.
    destruct (executeKill_spec cfg managed h p (flag_rule info) (flag_reason info)
                (k + Z.of_nat (length (filter (fun a => ra_outcome a = OutKilled)
                                              (loop_actions l))))
                (loop_candidates l) (loop_signalled l) (loop_ticks l))
      as (a' & Ht & _ & _ & [[Heq' _]|[Heq' _]]);
      rewrite Heq' in Hex; injection Hex as -> _ _; by rewrite Ht.
  - intros b Hb. by apply Hout'.
Qed.

Lemma evaluate_targets_NoDup managed h processes cudaSnapshot backend st :
  NoDup (ra_targetPid
           <$> out_actions (evaluate managed h processes cudaSnapshot backend st)).
Proof.
  destruct (rc_enabled (config st)) eqn:Hen.
  - rewrite evaluate_enabled by done. simpl.
    apply confirm_fold_targets_NoDup;
      [apply currentCandidates_NoDup | constructor |].
    intros a Ha. by apply elem_of_nil in Ha.
  - unfold evaluate. rewrite Hen. constructor.
Qed.

(** What an action of an enabled call tells about the candidate entry of
    its PID: gone after a kill signal, untouched after a skip or a dry run. *)
Lemma evaluate_action_entry managed h processes cudaSnapshot backend st a :
  rc_enabled (config st) = true →
  a ∈ out_actions (evaluate managed h processes cudaSnapshot backend st) →
  ∃ info,
    jsmap_get (ra_targetPid a)
      (currentCandidates (config st) managed h processes cudaSnapshot backend)
    = Some info
    ∧ ra_rule a = flag_rule info
    ∧ isConfirmed (candidates st) (ra_targetPid a) info
    ∧ candidates (out_state (evaluate managed h processes cudaSnapshot backend st))
        !! ra_targetPid a
      = (if decide (ra_outcome a = OutKilled ∨ ra_outcome a = OutFailed)
         then None else candidates st !! ra_targetPid a).
Proof.
  intros Hen Ha.
  destruct (evaluate_action_confirmed _ _ _ _ _ _ Hen a Ha) as (info & Hget & Hconf & Hr).
  exists info. split_and!; [done..|].
  destruct (evaluate_confirmed managed h processes cudaSnapshot backend st Hen
              (fun _ => True) _ info Hget Hconf I)
    as (_ & a' & _ & _ & _ & _ & Hin' & Ht' & _ & Hfin); [done|].
  assert (a' = a) as ->; [|done].
  eapply NoDup_fmap_eq; [apply evaluate_targets_NoDup|done..].
Qed.

End Unchanged.

(** C6, as stated, fails: handed the same snapshot pair four times, the
    reaper kills PID 500 in the second call and again in the fourth; when
    PID 500 has stopped answering the liveness probe, the fourth call still
    emits an action for it (a skipped-safety); and in dry-run mode every call
    after the first emits an action for it. *)
Lemma unchanged_snapshots_counterexample :
  (Samples.verdicts <$> Samples.unchangedAlive.1.1
   = [[]; [(500, DuplicateModel, OutKilled)]; [];
      [(500, DuplicateModel, OutKilled)]]
   ∧ Samples.unchangedAlive.1.2 = [500; 500])
  ∧ Samples.verdicts <$> Samples.unchangedDead.1.1
    = [[]; [(500, DuplicateModel, OutKilled)]; [];
       [(500, DuplicateModel, OutSkippedSafety)]]
  ∧ Samples.verdicts <$> Samples.unchangedDryRun.1.1
    = [[]; [(500, DuplicateModel, OutDryRun)];
       [(500, DuplicateModel, OutDryRun)]; [(500, DuplicateModel, OutDryRun)]].
Proof. by vm_compute. Qed.

(** C6, amended.  Take three successive calls of [evaluate] with the reaper
    enabled on the same process list, GPU snapshot, backend PID and registry,
    the port owner being the same too.  (1) A PID that no rule flags gets no
    action in any of them.  (2) After an action that sent the kill signal
    (outcome killed or failed), the next call emits no action for that PID,
    and the call after that emits one again, under the same rule.  (3) After
    a dry-run or skipped-safety action, the next call already emits an action
    for that PID again, under the same rule. *)
Theorem unchanged_snapshots_actions managed processes cudaSnapshot backend
    (h1 h2 h3 : ZombieReaper.Host) (st : ZombieReaper.State) :
  rc_enabled (ZombieReaper.config st) = true →
  ZombieReaper.getPortOwner h2 = ZombieReaper.getPortOwner h1 →
  ZombieReaper.getPortOwner h3 = ZombieReaper.getPortOwner h1 →
  let o1 := ZombieReaper.evaluate managed h1 processes cudaSnapshot backend st in
  let o2 := ZombieReaper.evaluate managed h2 processes cudaSnapshot backend
              (ZombieReaper.out_state o1) in
  let o3 := ZombieReaper.evaluate managed h3 processes cudaSnapshot backend
              (ZombieReaper.out_state o2) in
  let cur := ZombieReaper.currentCandidates (ZombieReaper.config st) managed h1
               processes cudaSnapshot backend in
  (∀ pid a, jsmap_get pid cur = None →
            a ∈ ZombieReaper.out_actions o1 ++ ZombieReaper.out_actions o2
                ++ ZombieReaper.out_actions o3 →
            ra_targetPid a ≠ pid)
  ∧ (∀ a, a ∈ ZombieReaper.out_actions o1 →
          ra_outcome a = OutKilled ∨ ra_outcome a = OutFailed →
          (∀ b, b ∈ ZombieReaper.out_actions o2 → ra_targetPid b ≠ ra_targetPid a)
          ∧ ∃ c, c ∈ ZombieReaper.out_actions o3
                 ∧ ra_targetPid c = ra_targetPid a ∧ ra_rule c = ra_rule a)
  ∧ (∀ a, a ∈ ZombieReaper.out_actions o1 →
          ra_outcome a = OutDryRun ∨ ra_outcome a = OutSkippedSafety →
          ∃ b, b ∈ ZombieReaper.out_actions o2
               ∧ ra_targetPid b = ra_targetPid a ∧ ra_rule b = ra_rule a).
Proof.
  intros Hen Hp2 Hp3 o1 o2 o3 cur.
  assert (ZombieReaper.config (ZombieReaper.out_state o1) = ZombieReaper.config st)
    as Hc1 by apply evaluate_config.
  assert (ZombieReaper.config (ZombieReaper.out_state o2) = ZombieReaper.config st)
    as Hc2 by (subst o2; by rewrite evaluate_config).
  assert (rc_enabled (ZombieReaper.config (ZombieReaper.out_state o1)) = true)
    as Hen1 by (by rewrite Hc1).
  assert (rc_enabled (ZombieReaper.config (ZombieReaper.out_state o2)) = true)
    as Hen2 by (by rewrite Hc2).
  assert (ZombieReaper.currentCandidates
            (ZombieReaper.config (ZombieReaper.out_state o1)) managed h2
            processes cudaSnapshot backend = cur) as Hcur2.
  { rewrite Hc1. by apply currentCandidates_port. }
  assert (ZombieReaper.currentCandidates
            (ZombieReaper.config (ZombieReaper.out_state o2)) managed h3
            processes cudaSnapshot backend = cur) as Hcur3.
  { rewrite Hc2. by apply currentCandidates_port. }
  split_and!.
  - intros pid a Hnone Ha.
    apply elem_of_app in Ha as [Ha|Ha]; [|apply elem_of_app in Ha as [Ha|Ha]].
    + by apply (proj2 (evaluate_unflagged _ _ _ _ _ _ Hen pid Hnone)).
    + destruct (evaluate_unflagged managed h2 processes cudaSnapshot backend
                  _ Hen1 pid) as [_ Hno]; [by rewrite Hcur2 | by apply Hno].
    + destruct (evaluate_unflagged managed h3 processes cudaSnapshot backend
                  _ Hen2 pid) as [_ Hno]; [by rewrite Hcur3 | by apply Hno].
  - intros a Ha Hout.
    destruct (evaluate_action_entry _ _ _ _ _ _ a Hen Ha)
      as (info & Hget & Hr & _ & Hfin).
    rewrite decide_True in Hfin by done.
    destruct (evaluate_first_seen managed h2 processes cudaSnapshot backend
                (ZombieReaper.out_state o1) Hen1 (ra_targetPid a) info)
      as [[t Hreg] Hnone].
    { by rewrite Hcur2. }
    { intros (prev & Hprev & _). fold o1 in Hfin. congruence. }
    split; [done|].
    destruct (evaluate_confirmed managed h3 processes cudaSnapshot backend
                (ZombieReaper.out_state o2) Hen2 (fun _ => True)
                (ra_targetPid a) info)
      as (_ & c & _ & _ & _ & _ & Hin & Ht & Hrc & _); [by rewrite Hcur3| |done|done|].
    { eexists. split; [exact Hreg | done]. }
    exists c. split_and!; [done|done|congruence].
  - intros a Ha Hout.
    destruct (evaluate_action_entry _ _ _ _ _ _ a Hen Ha)
      as (info & Hget & Hr & Hconf & Hfin).
    rewrite decide_False in Hfin by (intros [?|?]; destruct Hout; congruence).
    destruct (evaluate_confirmed managed h2 processes cudaSnapshot backend
                (ZombieReaper.out_state o1) Hen1 (fun _ => True)
                (ra_targetPid a) info)
      as (_ & b & _ & _ & _ & _ & Hin & Ht & Hrb & _); [by rewrite Hcur2| |done|done|].
    { destruct Hconf as (prev & Hprev & Hrule). exists prev.
      split; [|done]. fold o1 in Hfin. by rewrite <- Hprev. }
    exists b. split_and!; [done|done|congruence].
Qed.

(** The second, third and fourth calls on the unchanged snapshot pair. *)
Lemma unchanged_snapshots_actions_witness :
  rc_enabled
    (ZombieReaper.config (ZombieReaper.out_state Samples.twice1)) = true
  ∧ Samples.verdicts
      (ZombieReaper.out_actions
         (ZombieReaper.evaluate {[600]} (Samples.hostAt 10000) []
            (Samples.duplicateSnapshot 0) (Some 600)
            (ZombieReaper.out_state Samples.twice1)))
    = [(500, DuplicateModel, OutKilled)]
  ∧ (∀ a,
       a ∈ ZombieReaper.out_actions
             (ZombieReaper.evaluate {[600]} (Samples.hostAt 10000) []
                (Samples.duplicateSnapshot 0) (Some 600)
                (ZombieReaper.out_state Samples.twice1)) →
       ra_outcome a = OutKilled ∨ ra_outcome a = OutFailed →
       (∀ b,
          b ∈ ZombieReaper.out_actions
                (ZombieReaper.evaluate {[600]} (Samples.hostAt 20000) []
                   (Samples.duplicateSnapshot 0) (Some 600)
                   (ZombieReaper.out_state
                      (ZombieReaper.evaluate {[600]} (Samples.hostAt 10000) []
                         (Samples.duplicateSnapshot 0) (Some 600)
                         (ZombieReaper.out_state Samples.twice1)))) →
          ra_targetPid b ≠ ra_targetPid a)
       ∧ ∃ c,
           c ∈ ZombieReaper.out_actions
                 (ZombieReaper.evaluate {[600]} (Samples.hostAt 30000) []
                    (Samples.duplicateSnapshot 0) (Some 600)
                    (ZombieReaper.out_state
                       (ZombieReaper.evaluate {[600]} (Samples.hostAt 20000) []
                          (Samples.duplicateSnapshot 0) (Some 600)
                          (ZombieReaper.out_state
                             (ZombieReaper.evaluate {[600]} (Samples.hostAt 10000) []
                                (Samples.duplicateSnapshot 0) (Some 600)
                                (ZombieReaper.out_state Samples.twice1))))))
           ∧ ra_targetPid c = ra_targetPid a ∧ ra_rule c = ra_rule a).
Proof.
  split; [reflexivity|]. split; [by vm_compute|].
  exact (proj1 (proj2 (unchanged_snapshots_actions {[600]} []
                         (Samples.duplicateSnapshot 0) (Some 600)
                         (Samples.hostAt 10000) (Samples.hostAt 20000)
                         (Samples.hostAt 30000)
                         (ZombieReaper.out_state Samples.twice1)
                         eq_refl eq_refl eq_refl))).
Defined.

(** ** The circuit breaker *)

(** C4: the code at the failing input.  With the default configuration (at
    most 3 kills per 300 000 ms) and seven stray models, PIDs 501 to 503 are
    killed at 10 000 ms and the four others are skipped, call after call.
    Each skip is logged; the 26th call brings the log over 100 entries and
    the three kills are shifted out of it.  The 27th call, at 260 000 ms,
    counts no kill in the window and kills PIDs 504 to 506: six kills within
    250 000 ms. *)
Theorem circuit_breaker_forgets_kills :
  rc_maxKillsPerWindow (ZombieReaper.config ZombieReaper.init) = 3
  ∧ rc_windowMs (ZombieReaper.config ZombieReaper.init) = 300000
  ∧ length Samples.breakerCycles = 27%nat
  ∧ length (ZombieReaper.actionLog Samples.breakerBeforeLast) = 100%nat
  ∧ ZombieReaper.getKillsInWindow 250000
      (ZombieReaper.run (take 25 Samples.breakerCycles) ZombieReaper.init).2 = 3
  ∧ ZombieReaper.getKillsInWindow 260000 Samples.breakerBeforeLast = 0
  ∧ Samples.killsOf Samples.breakerRun.1.1
    = [(10000, 501); (10000, 502); (10000, 503);
       (260000, 504); (260000, 505); (260000, 506)]
  ∧ Samples.breakerRun.1.2 = [501; 502; 503; 504; 505; 506].
Proof. by vm_compute. Qed.

(** ** The process tracker's health debounce *)

Section TrackerHealth.
Import ProcessTracker.

(** Every path through [determineHealth] that does not return early ends in
    [staleCycles.delete(raw.pid)]: from an empty counter map the verdict is
    healthy and the map is empty again. *)
Lemma determineHealth_from_empty raw role cpuPercent gpuMemMb alivePids managed :
  determineHealth raw role cpuPercent gpuMemMb alivePids managed ∅ = (Healthy, ∅).
Proof.
  unfold determineHealth. rewrite lookup_empty.
  generalize (f64_leb cpuPercent (f64_of_Z 1)). intros idleCpu. simpl.
  destruct ((1 <? raw_parentPid raw)
            && negb (bool_decide (raw_parentPid raw ∈ alivePids))
            && negb (bool_decide (raw_pid raw ∈ managed))); simpl;
    rewrite ?lookup_insert_eq, ?lookup_empty; simpl;
    destruct (bool_decide (role = UnknownRole)
              && match gpuMemMb with Some g => 500 <? g | None => false end
              && idleCpu); simpl;
    f_equal;
    rewrite ?insert_insert_eq, ?delete_insert_eq, ?delete_empty; done.
Qed.

Lemma scanOne_all_healthy gpuMap alivePids now res st raw :
  staleCycles st = ∅ → Forall (fun tp => tp_status tp = Healthy) res →
  staleCycles (scanOne gpuMap alivePids now (res, st) raw).2 = ∅
  ∧ Forall (fun tp => tp_status tp = Healthy)
      (scanOne gpuMap alivePids now (res, st) raw).1.
Proof.
  intros Hsc Hres. unfold scanOne. rewrite Hsc, determineHealth_from_empty. simpl.
  split; [done|]. apply Forall_app. split; [done|]. by apply Forall_singleton.
Qed.

(** The counters start empty and the public operations keep them empty, so
    no scan ever reports a status other than healthy. *)
Lemma scanProcesses_all_healthy gpuMap raws now st :
  staleCycles st = ∅ →
  Forall (fun tp => tp_status tp = Healthy) (scanProcesses gpuMap raws now st).1
  ∧ staleCycles (scanProcesses gpuMap raws now st).2 = ∅.
Proof.
  intros Hsc. unfold scanProcesses.
  set (alive := list_to_set (raw_pid <$> raws) : gset Z). clearbody alive.
  assert (∀ acc, staleCycles acc.2 = ∅ →
                 Forall (fun tp => tp_status tp = Healthy) acc.1 →
                 staleCycles (fold_left (scanOne gpuMap alive now) raws acc).2 = ∅
                 ∧ Forall (fun tp => tp_status tp = Healthy)
                     (fold_left (scanOne gpuMap alive now) raws acc).1) as Hfold.
  { induction raws as [|raw raws IH]; intros [res st0] H1 H2; simpl in *; [done|].
    apply IH; by apply scanOne_all_healthy. }
  destruct (Hfold ([], st)) as [H1 H2]; [done|by constructor|].
  destruct (fold_left _ _ _) as [res st1]. simpl in *.
  split; [done|]. rewrite H1. apply map_filter_empty.
Qed.

Lemma registerManagedPid_counters pid st :
  staleCycles st = ∅ → staleCycles (registerManagedPid pid st) = ∅.
Proof. simpl. intros ->. apply delete_empty. Qed.

Lemma unregisterManagedPid_counters pid st :
  staleCycles st = ∅ → staleCycles (unregisterManagedPid pid st) = ∅.
Proof. simpl. intros ->. apply delete_empty. Qed.

End TrackerHealth.

(** C3: the code at the failing input.  PID 700 is unmanaged and its parent
    PID 650 is in none of three successive scans.  The first scan reports it
    healthy, as the claim says; the second and the third report it healthy
    too, where the claim says zombie: the counter that the first scan set
    is deleted on the way to [return 'healthy'], so that no scan finds a
    count to add to.  The same holds of an idle orphan sitting on 5000 MB
    of VRAM, which four scans in a row report healthy, never stale. *)
Theorem zombie_never_reported :
  (tp_status <$> TrackerSamples.orphanScan1.1 = [Healthy]
   ∧ ProcessTracker.staleCycles TrackerSamples.orphanScan1.2 = ∅
   ∧ tp_status <$> TrackerSamples.orphanScan2.1 = [Healthy]
   ∧ tp_status <$> TrackerSamples.orphanScan3.1 = [Healthy])
  ∧ (tp_status <$> TrackerSamples.idleScan1.1 = [Healthy]
     ∧ tp_status <$> TrackerSamples.idleScan2.1 = [Healthy]
     ∧ tp_status <$> TrackerSamples.idleScan3.1 = [Healthy]
     ∧ tp_status <$> TrackerSamples.idleScan4.1 = [Healthy]).
Proof. by vm_compute. Qed.

(** ** Binary64 arithmetic

    Signs through the rounded operations, and the order of two doubles
    against the sign of their rounded difference. *)

Section Binary64.
Import SpecFloat.






















(** *** Positive results: no underflow to zero *)












End Binary64.

(** ** The CPU activity delta *)

Section CpuPercent.
Import ProcessTracker.





(** What one turn of the scan loop appends. *)
Lemma scanOne_result gpuMap alivePids now res st raw :
  ∃ tp st',
    scanOne gpuMap alivePids now (res, st) raw = (res ++ [tp], st')
    ∧ tp_pid tp = raw_pid raw
    ∧ tp_cpuPercent tp
      = cpuPercentOf raw (lastCpuSnapshot st !! raw_pid raw) now
    ∧ lastCpuSnapshot st'
      = <[raw_pid raw := mkCpuSample (raw_cpuSeconds raw) now]> (lastCpuSnapshot st).
Proof.
  unfold scanOne. destruct (determineHealth _ _ _ _ _ _ _) as [status sc'].
  by do 2 eexists.
Qed.

Lemma scan_fold_prefix gpuMap alivePids now raws res st :
  res `prefix_of` (fold_left (scanOne gpuMap alivePids now) raws (res, st)).1.
Proof.
  revert res st. induction raws as [|raw raws IH]; intros res st; cbn [fold_left]; [done|].
  destruct (scanOne_result gpuMap alivePids now res st raw) as (tp & st' & -> & _).
  etrans; [|apply IH]. by apply prefix_app_r.
Qed.

(** The record of the i-th raw process carries the delta against the sample
    that [lastCpuSnapshot] held for its PID when the scan began. *)
Lemma scan_fold_lookup gpuMap alivePids now raws res st i raw :
  NoDup (raw_pid <$> raws) → raws !! i = Some raw →
  ∃ tp,
    (fold_left (scanOne gpuMap alivePids now) raws (res, st)).1
      !! (length res + i)%nat = Some tp
    ∧ tp_pid tp = raw_pid raw
    ∧ tp_cpuPercent tp
      = cpuPercentOf raw (lastCpuSnapshot st !! raw_pid raw) now.
Proof.
  revert res st i. induction raws as [|r raws IH]; intros res st i Hnd Hi; [done|].
  rewrite fmap_cons in Hnd. apply NoDup_cons in Hnd as [Hr Hnd]. cbn [fold_left].
  destruct (scanOne_result gpuMap alivePids now res st r)
    as (tp & st' & Heq & Hpid & Hcpu & Hlast).
  rewrite Heq. destruct i as [|i]; simpl in Hi.
  - injection Hi as ->. exists tp. split_and!; [|done|done].
    eapply prefix_lookup_Some; [|apply scan_fold_prefix].
    rewrite Nat.add_0_r. apply list_lookup_middle. done.
  - destruct (IH (res ++ [tp]) st' i Hnd Hi) as (tp' & Hl & Hpid' & Hcpu').
    exists tp'. split_and!; [|done|].
    + rewrite length_app in Hl. simpl in Hl.
      by replace (length res + S i)%nat with (length res + 1 + i)%nat by lia.
    + rewrite Hcpu', Hlast. rewrite lookup_insert_ne; [done|].
      intros Heq'. apply Hr. rewrite Heq'. apply list_elem_of_fmap_2.
      by eapply list_elem_of_lookup_2.
Qed.

End CpuPercent.

(** The operations of [f64] against the floats of the kernel, which are the
    doubles of the machine, on the two inputs of [roundedScan2] and
    [slowScan2]: the same doubles come out. *)
Lemma binary64_matches_primitive_floats :
  FloatOps.Prim2SF
    (PrimFloat.mul
       (PrimFloat.div
          (PrimFloat.sub (FloatOps.SF2Prim (f64_dec 29 2))
                         (FloatOps.SF2Prim (f64_of_Z 0)))
          (PrimFloat.div (FloatOps.SF2Prim (f64_of_Z 2000))
                         (FloatOps.SF2Prim (f64_of_Z 1000))))
       (FloatOps.SF2Prim (f64_of_Z 100)))
  = f64_mul
      (f64_div (f64_sub (f64_dec 29 2) (f64_of_Z 0))
               (f64_div (f64_of_Z 2000) (f64_of_Z 1000)))
      (f64_of_Z 100)
  ∧ FloatOps.Prim2SF
      (PrimFloat.mul
         (PrimFloat.div
            (PrimFloat.sub (FloatOps.SF2Prim (f64_dec 313 2))
                           (FloatOps.SF2Prim (f64_dec 1 2)))
            (PrimFloat.div (FloatOps.SF2Prim (f64_of_Z 4992))
                           (FloatOps.SF2Prim (f64_of_Z 1000))))
         (FloatOps.SF2Prim (f64_of_Z 100)))
    = f64_mul
        (f64_div (f64_sub (f64_dec 313 2) (f64_dec 1 2))
                 (f64_div (f64_of_Z 4992) (f64_of_Z 1000)))
        (f64_of_Z 100).
Proof. by vm_compute. Qed.

(** Where the doubles round away from the exact quotient, the reported value
    is the one of the doubles: 0.29 s over two seconds is 14.499999999999998
    percent and is reported as 14, where the exact 14.5 would round to 15;
    3.12 s over 4992 ms is 62.5 percent and is reported as 63, where the
    exact quotient of the same doubles lies below 62.5. *)
Lemma cpu_percent_rounds_as_doubles :
  tp_cpuPercent <$> TrackerSamples.roundedScan2.1 = [f64_of_Z 14]
  ∧ tp_cpuPercent <$> TrackerSamples.slowScan2.1 = [f64_of_Z 63]
  ∧ f64_ltb
      (f64_mul
         (f64_div (f64_sub (f64_dec 29 2) (f64_of_Z 0))
                  (f64_div (f64_of_Z 2000) (f64_of_Z 1000)))
         (f64_of_Z 100))
      (f64_dec 145 1) = true
  ∧ f64_mul
      (f64_div (f64_sub (f64_dec 313 2) (f64_dec 1 2))
               (f64_div (f64_of_Z 4992) (f64_of_Z 1000)))
      (f64_of_Z 100)
    = f64_dec 625 1.
Proof. by vm_compute. Qed.




(** ** The VRAM leak alert *)

Section LeakAlert.
Import CudaMonitor.

Lemma filter_managed_nil (processes : list GpuProcess) :
  length (filter (fun p => gp_isManaged p = true) processes) = 0%nat
  ↔ Forall (fun p => gp_isManaged p = false) processes.
Proof.
  induction processes as [|p ps IH]; [by split; [constructor|]|].
  rewrite filter_cons, Forall_cons.
  destruct (decide (gp_isManaged p = true)) as [Hm|Hm]; simpl.
  - split; [done|]. intros [? _]. congruence.
  - rewrite IH. apply not_true_is_false in Hm. tauto.
Qed.

Lemma leakAlerts_spec g processes now st a :
  a ∈ leakAlerts g processes now st ↔
  ∃ pg, previousGpu st = Some pg
        ∧ 500 < gi_memoryUsedMb g - gi_memoryUsedMb pg
        ∧ Forall (fun p => gp_isManaged p = false) processes
        ∧ a = {| ca_type := VramLeak; ca_severity := Warning;
                 ca_message :=
                   "VRAM grew by "
                   +:+ pretty (gi_memoryUsedMb g - gi_memoryUsedMb pg)
                   +:+ " MB with no managed processes on GPU. Possible leak.";
                 ca_pid := None; ca_timestamp := now |}.
Proof.
  unfold leakAlerts. destruct (previousGpu st) as [pg|].
  - destruct (500 <? gi_memoryUsedMb g - gi_memoryUsedMb pg) eqn:Hd; simpl.
    + apply Z.ltb_lt in Hd.
      destruct (bool_decide _) eqn:Hm.
      * apply bool_decide_eq_true in Hm. apply filter_managed_nil in Hm.
        rewrite list_elem_of_singleton. split.
        -- intros ->. by exists pg.
        -- by intros (pg' & [= <-] & _ & _ & ->).
      * apply bool_decide_eq_false in Hm. rewrite filter_managed_nil in Hm.
        split; [intros H; by apply elem_of_nil in H|].
        by intros (pg' & _ & _ & ? & _).
    + apply Z.ltb_ge in Hd. split; [intros H; by apply elem_of_nil in H|].
      intros (pg' & [= <-] & ? & _). lia.
  - split; [intros H; by apply elem_of_nil in H|]. by intros (pg' & [=] & _).
Qed.

(** Only the leak detection emits alerts of type vram-leak. *)
Lemma generateAlerts_leak gpu processes now st a :
  a ∈ generateAlerts gpu processes now st ∧ ca_type a = VramLeak ↔
  ∃ g, gpu = Some g ∧ a ∈ leakAlerts g processes now st.
Proof.
  unfold generateAlerts. destruct gpu as [g|].
  - rewrite !elem_of_app. split.
    + intros [[H|[H|[H|H]]] Hty]; [exfalso..|by exists g].
      * unfold overBudgetAlerts in H. destruct (_ <? _);
          [apply list_elem_of_singleton in H as ->; done | by apply elem_of_nil in H].
      * unfold thermalAlerts in H. destruct (90 <=? _);
          [apply list_elem_of_singleton in H as ->; done|].
        destruct (80 <=? _);
          [apply list_elem_of_singleton in H as ->; done | by apply elem_of_nil in H].
      * apply list_elem_of_In, in_concat in H as (l & Hl & Ha).
        apply list_elem_of_In in Hl, Ha.
        apply list_elem_of_fmap in Hl as (p & -> & _).
        unfold unmanagedAlert in Ha. destruct (_ && _);
          [apply list_elem_of_singleton in Ha as ->; done | by apply elem_of_nil in Ha].
    + intros (g' & [= <-] & H). split; [auto|].
      apply leakAlerts_spec in H as (pg & _ & _ & _ & ->). done.
  - split; [intros [H _]; by apply elem_of_nil in H | by intros (g & [=] & _)].
Qed.

End LeakAlert.

(** C8.  Of two successive polls, the second emits a vram-leak alert exactly
    when both polls got GPU figures, the used memory grew by more than 500 MB
    from the first to the second, and no process listed by the second is
    managed; the alert has severity warning.  An 800 MB jump with nothing
    managed on the GPU emits it, alone or beside the unmanaged-process alert
    of a stray process; the same jump with a managed process listed emits no
    alert, and a jump of exactly 500 MB emits none either. *)
Theorem vram_leak_alert gpu1 processes1 now1 gpu2 processes2 now2
    (st : CudaMonitor.State) :
  let first := CudaMonitor.pollCuda gpu1 processes1 now1 st in
  let second := CudaMonitor.pollCuda gpu2 processes2 now2 first.2 in
  ((∃ a, a ∈ cs_alerts second.1 ∧ ca_type a = VramLeak)
   ↔ ∃ g1 g2, gpu1 = Some g1 ∧ gpu2 = Some g2
              ∧ 500 < gi_memoryUsedMb g2 - gi_memoryUsedMb g1
              ∧ Forall (fun p => gp_isManaged p = false) processes2)
  ∧ (∀ a, a ∈ cs_alerts second.1 → ca_type a = VramLeak →
          ca_severity a = Warning ∧ ca_timestamp a = now2)
  ∧ CudaSamples.alertKinds (CudaSamples.secondPoll 800 []) = [(VramLeak, Warning)]
  ∧ CudaSamples.alertKinds
      (CudaSamples.secondPoll 800 [Samples.gpuProc 500 700 false])
    = [(UnmanagedProcess, Warning); (VramLeak, Warning)]
  ∧ CudaSamples.alertKinds
      (CudaSamples.secondPoll 800 [Samples.gpuProc 600 700 true]) = []
  ∧ CudaSamples.alertKinds (CudaSamples.secondPoll 500 []) = [].
Proof.
  intros first second. split_and!; [| |by vm_compute..].
  - split.
    + intros (a & Ha & Hty).
      destruct (proj1 (generateAlerts_leak gpu2 processes2 now2 first.2 a)
                  (conj Ha Hty)) as (g2 & -> & Hleak).
      apply leakAlerts_spec in Hleak as (pg & Hprev & Hd & Hm & _).
      unfold CudaMonitor.previousGpu in Hprev. simpl in Hprev. subst gpu1.
      by exists pg, g2.
    + intros (g1 & g2 & -> & -> & Hd & Hm).
      eexists. apply generateAlerts_leak. exists g2. split; [done|].
      apply leakAlerts_spec. exists g1. split_and!; done.
  - intros a Ha Hty.
    destruct (proj1 (generateAlerts_leak gpu2 processes2 now2 first.2 a)
                (conj Ha Hty)) as (g2 & _ & Hleak).
    by apply leakAlerts_spec in Hleak as (pg & _ & _ & _ & ->).
Qed.

(** ** The launch gate *)

(** C9.  [canLaunchModel] refuses, with a reason, exactly when the GPU
    processes above 4000 MB are at least [maxConcurrentModels] or the lock is
    held (the count being tested first), and allows, without a reason,
    otherwise.  With [maxConcurrentModels] = 1 one process above 4000 MB is
    enough to be refused. *)
Theorem canLaunchModel_gate cudaSnapshot (st : InferenceFence.State) :
  let d := InferenceFence.canLaunchModel cudaSnapshot st in
  let activeModels :=
    Z.of_nat (length (filter (fun p => 4000 < gp_usedMemoryMb p)
                             (cs_processes cudaSnapshot))) in
  (InferenceFence.allowed d = false
   ↔ fc_maxConcurrentModels (InferenceFence.config st) ≤ activeModels
     ∨ InferenceFence.locked st = true)
  ∧ (InferenceFence.allowed d = false →
     ∃ r, InferenceFence.reason d = Some r ∧ r ≠ ""
          ∧ (fc_maxConcurrentModels (InferenceFence.config st) ≤ activeModels →
             r = "Already " +:+ pretty activeModels +:+ "/"
                 +:+ pretty (fc_maxConcurrentModels (InferenceFence.config st))
                 +:+ " model(s) loaded. Kill existing before launching another."))
  ∧ (InferenceFence.allowed d = true → InferenceFence.reason d = None)
  ∧ (fc_maxConcurrentModels (InferenceFence.config st) = 1 →
     (∃ p, p ∈ cs_processes cudaSnapshot ∧ 4000 < gp_usedMemoryMb p) →
     InferenceFence.allowed d = false ∧ is_Some (InferenceFence.reason d))
  ∧ InferenceFence.canLaunchModel
      (Samples.snapshotOf 0 [Samples.gpuProc 600 6000 true]) InferenceFence.init
    = {| InferenceFence.allowed := false;
         InferenceFence.reason :=
           Some "Already 1/1 model(s) loaded. Kill existing before launching another." |}
  ∧ InferenceFence.canLaunchModel
      (Samples.snapshotOf 0 [Samples.gpuProc 600 3000 true]) InferenceFence.init
    = {| InferenceFence.allowed := true; InferenceFence.reason := None |}.
Proof.
  intros d activeModels. subst d.
  unfold InferenceFence.canLaunchModel, InferenceFence.activeModelsOf.
  fold activeModels.
  destruct (fc_maxConcurrentModels (InferenceFence.config st) <=? activeModels) eqn:Hmax.
  - apply Z.leb_le in Hmax. simpl. split_and!; [tauto| |done| |by vm_compute..].
    + intros _. eexists. split_and!; [done|done|done].
    + intros _ _. split; [done|by eexists].
  - apply Z.leb_gt in Hmax.
    destruct (InferenceFence.locked st) eqn:Hl; simpl;
      (split_and!; [| | | |by vm_compute..]).
    + tauto.
    + intros _. eexists. split_and!; [done|done|]. intros ?. lia.
    + done.
    + intros _ _. split; [done|by eexists].
    + split; [done|]. intros [?|?]; [lia|done].
    + done.
    + done.
    + intros Hone (p & Hp & Hbig). exfalso.
      assert (p ∈ filter (fun p => 4000 < gp_usedMemoryMb p)
                    (cs_processes cudaSnapshot)) as Hin
        by (by apply list_elem_of_filter).
      subst activeModels.
      destruct (filter _ _) as [|q qs]; [by apply elem_of_nil in Hin|].
      simpl in Hmax. lia.
Qed.

(** * Further properties *)

(** ** The process tracker: registry, records and samples *)

Section TrackerScan.
Import ProcessTracker.

Lemma classifyRole_registry raw st st' :
  managedPids st = managedPids st' → classifyRole raw st = classifyRole raw st'.
Proof. intros H. unfold classifyRole, isManagedPid. by rewrite H. Qed.

Lemma scanOne_mirrors gpuMap alivePids now res st raw :
  ∃ tp st',
    scanOne gpuMap alivePids now (res, st) raw = (res ++ [tp], st')
    ∧ mirrors gpuMap now (managedPids st) raw tp
    ∧ managedPids st' = managedPids st
    ∧ lastCpuSnapshot st'
      = <[raw_pid raw := mkCpuSample (raw_cpuSeconds raw) now]> (lastCpuSnapshot st).
Proof.
  unfold scanOne. destruct (determineHealth _ _ _ _ _ _ _) as [status sc'].
  do 2 eexists. split; [done|]. split; [|by split].
  unfold mirrors. simpl. split_and!; try done.
  all: by apply classifyRole_registry.
Qed.

(** The loop of [scanProcesses]: one record per row, in order, the
    registry untouched, a sample stored per row. *)
Lemma scan_fold_mirrors gpuMap alivePids now raws res st :
  ∃ news st',
    fold_left (scanOne gpuMap alivePids now) raws (res, st) = (res ++ news, st')
    ∧ Forall2 (mirrors gpuMap now (managedPids st)) raws news
    ∧ managedPids st' = managedPids st
    ∧ lastCpuSnapshot st' = sampled now raws (lastCpuSnapshot st).
Proof.
  revert res st. induction raws as [|raw raws IH]; intros res st; cbn [fold_left].
  - exists [], st. rewrite app_nil_r. split_and!; [done|constructor|done|done].
  - destruct (scanOne_mirrors gpuMap alivePids now res st raw)
      as (tp & st1 & -> & Hm & Hreg & Hlast).
    destruct (IH (res ++ [tp]) st1) as (news & st' & -> & Hall & Hreg' & Hlast').
    exists (tp :: news), st'. rewrite <- app_assoc. split_and!; [done| | |].
    + constructor; [done|]. by rewrite <- Hreg.
    + by rewrite Hreg'.
    + unfold sampled in *. cbn [fold_left]. by rewrite Hlast', Hlast.
Qed.

Lemma scanProcesses_mirrors gpuMap raws now st :
  Forall2 (mirrors gpuMap now (managedPids st)) raws
    (scanProcesses gpuMap raws now st).1
  ∧ managedPids (scanProcesses gpuMap raws now st).2 = managedPids st
  ∧ lastCpuSnapshot (scanProcesses gpuMap raws now st).2
    = filter (fun kv => kv.1 ∈ (list_to_set (raw_pid <$> raws) : gset Z))
             (sampled now raws (lastCpuSnapshot st)).
Proof.
  unfold scanProcesses.
  destruct (scan_fold_mirrors gpuMap (list_to_set (raw_pid <$> raws)) now raws [] st)
    as (news & st' & -> & Hall & Hreg & Hlast).
  simpl. by rewrite Hlast.
Qed.

Lemma sampled_lookup_ne now raws last pid :
  pid ∉ raw_pid <$> raws → sampled now raws last !! pid = last !! pid.
Proof.
  revert last. induction raws as [|raw raws IH]; intros last Hnin; [done|].
  rewrite fmap_cons in Hnin. apply not_elem_of_cons in Hnin as [Hne Hnin].
  unfold sampled in *. cbn [fold_left]. rewrite IH by done.
  by rewrite lookup_insert_ne.
Qed.

Lemma sampled_lookup_in now raws last pid :
  pid ∈ raw_pid <$> raws →
  ∃ raw, raw ∈ raws ∧ raw_pid raw = pid
         ∧ sampled now raws last !! pid = Some (mkCpuSample (raw_cpuSeconds raw) now).
Proof.
  revert last. induction raws as [|raw raws IH]; intros last Hin;
    [by apply elem_of_nil in Hin|].
  unfold sampled in *. cbn [fold_left].
  destruct (decide (pid ∈ raw_pid <$> raws)) as [Hlater|Hlater].
  - destruct (IH (<[raw_pid raw := mkCpuSample (raw_cpuSeconds raw) now]> last) Hlater)
      as (r & Hr & Hpid & Hl).
    exists r. split_and!; [by apply list_elem_of_further|done|done].
  - rewrite fmap_cons in Hin. apply elem_of_cons in Hin as [->|Hin]; [|done].
    exists raw. split_and!; [apply list_elem_of_here|done|].
    fold (sampled now raws (<[raw_pid raw := mkCpuSample (raw_cpuSeconds raw) now]> last)).
    rewrite sampled_lookup_ne by done. apply lookup_insert_eq.
Qed.

End TrackerScan.

(** X1.  [scanProcesses] returns one record per raw row, in the order of the
    rows; each record copies the PID, the parent PID, the command line and
    the working set of its row, takes its GPU memory from the map it was
    handed (absent when the PID is not in the map), and is stamped with the
    time of the scan.  An empty process list gives an empty result. *)
Theorem scanProcesses_records gpuMap raws now (st : ProcessTracker.State) :
  length (ProcessTracker.scanProcesses gpuMap raws now st).1 = length raws
  ∧ (∀ i raw, raws !! i = Some raw →
       ∃ tp, (ProcessTracker.scanProcesses gpuMap raws now st).1 !! i = Some tp
             ∧ tp_pid tp = ProcessTracker.raw_pid raw
             ∧ tp_parentPid tp = Some (ProcessTracker.raw_parentPid raw)
             ∧ tp_commandLine tp = ProcessTracker.raw_commandLine raw
             ∧ tp_memoryMb tp = ProcessTracker.raw_workingSetMb raw
             ∧ tp_gpuMemoryMb tp = gpuMap !! ProcessTracker.raw_pid raw
             ∧ tp_startedAt tp = now ∧ tp_lastHeartbeat tp = now)
  ∧ (ProcessTracker.scanProcesses gpuMap [] now st).1 = [].
Proof.
  destruct (scanProcesses_mirrors gpuMap raws now st) as (Hall & _ & _).
  split_and!; [symmetry; by eapply Forall2_length| |done].
  intros i raw Hi.
  destruct (Forall2_lookup_l _ _ _ _ _ Hall Hi) as (tp & Htp & Hm).
  exists tp. destruct Hm as (? & ? & ? & ? & ? & ? & ? & ?). by split_and!.
Qed.

(** X2.  The role of a scanned process follows the registry, never the
    command line alone: backend-server is only given to a managed PID,
    model-worker only to a process whose parent PID is managed; a managed
    PID is never unknown; an unmanaged process is unknown when its parent is
    unmanaged too, and also when its command line has the backend's
    signature (an unmanaged look-alike), whoever its parent is. *)
Theorem scanProcesses_roles gpuMap raws now (st : ProcessTracker.State) i raw tp :
  raws !! i = Some raw →
  (ProcessTracker.scanProcesses gpuMap raws now st).1 !! i = Some tp →
  let managed := ProcessTracker.managedPids st in
  let cmd := toLowerCase (ProcessTracker.raw_commandLine raw) in
  (tp_role tp = BackendServer → tp_pid tp ∈ managed)
  ∧ (tp_role tp = ModelWorker → ProcessTracker.raw_parentPid raw ∈ managed)
  ∧ (tp_pid tp ∈ managed → tp_role tp ≠ UnknownRole)
  ∧ (tp_pid tp ∉ managed → ProcessTracker.raw_parentPid raw ∉ managed →
     tp_role tp = UnknownRole)
  ∧ (tp_pid tp ∉ managed →
     includes cmd "moshi.server" || includes cmd "moshi\server" = true →
     tp_role tp = UnknownRole).
Proof.
  intros Hi Htp managed cmd.
  destruct (scanProcesses_mirrors gpuMap raws now st) as (Hall & _ & _).
  destruct (Forall2_lookup_l _ _ _ _ _ Hall Hi) as (tp' & Htp' & Hm).
  rewrite Htp in Htp'. injection Htp' as <-.
  destruct Hm as (Hpid & _ & Hrole & _). rewrite Hpid, Hrole.
  unfold ProcessTracker.classifyRole, ProcessTracker.isManagedPid. simpl.
  fold managed. fold cmd.
  destruct (includes cmd "moshi.server" || includes cmd "moshi\server");
    repeat case_bool_decide; naive_solver.
Qed.

(** The rows of the sample scans, PID 700 being registered first. *)
Lemma scanProcesses_roles_witness :
  tp_role <$> (ProcessTracker.scanProcesses ∅ [TrackerSamples.orphan700 10] 1000
                 (ProcessTracker.registerManagedPid 700 ProcessTracker.init)).1
  = [BackendServer]
  ∧ ∀ tp,
      (ProcessTracker.scanProcesses ∅ [TrackerSamples.orphan700 10] 1000
         (ProcessTracker.registerManagedPid 700 ProcessTracker.init)).1 !! 0%nat
      = Some tp →
      tp_role tp = BackendServer →
      tp_pid tp ∈ ProcessTracker.managedPids
                    (ProcessTracker.registerManagedPid 700 ProcessTracker.init).
Proof.
  split; [by vm_compute|]. intros tp Htp.
  exact (proj1 (scanProcesses_roles ∅ [TrackerSamples.orphan700 10] 1000
                  (ProcessTracker.registerManagedPid 700 ProcessTracker.init)
                  0 (TrackerSamples.orphan700 10) tp eq_refl Htp)).
Defined.

(** X3.  After a scan, [lastCpuSnapshot] holds a sample for exactly the PIDs
    the scan listed: the samples of PIDs that have gone are purged, every
    sample is stamped with the time of the scan and carries the CPU seconds
    of a listed row of that PID.  The registry is not touched. *)
Theorem scanProcesses_samples gpuMap raws now (st : ProcessTracker.State) :
  let st' := (ProcessTracker.scanProcesses gpuMap raws now st).2 in
  dom (ProcessTracker.lastCpuSnapshot st')
  = (list_to_set (ProcessTracker.raw_pid <$> raws) : gset Z)
  ∧ (∀ pid s, ProcessTracker.lastCpuSnapshot st' !! pid = Some s →
       ProcessTracker.timestamp s = now
       ∧ ∃ raw, raw ∈ raws ∧ ProcessTracker.raw_pid raw = pid
                ∧ ProcessTracker.cpuSeconds s = ProcessTracker.raw_cpuSeconds raw)
  ∧ ProcessTracker.managedPids st' = ProcessTracker.managedPids st.
Proof.
  intros st'. subst st'.
  destruct (scanProcesses_mirrors gpuMap raws now st) as (_ & Hreg & Hlast).
  assert (∀ pid s, ProcessTracker.lastCpuSnapshot
                     (ProcessTracker.scanProcesses gpuMap raws now st).2 !! pid = Some s →
            pid ∈ ProcessTracker.raw_pid <$> raws
            ∧ ProcessTracker.timestamp s = now
            ∧ ∃ raw, raw ∈ raws ∧ ProcessTracker.raw_pid raw = pid
                     ∧ ProcessTracker.cpuSeconds s = ProcessTracker.raw_cpuSeconds raw)
    as Hsome.
  { intros pid s. rewrite Hlast, map_lookup_filter_Some. simpl.
    rewrite elem_of_list_to_set. intros [Hl Hin].
    destruct (sampled_lookup_in now raws (ProcessTracker.lastCpuSnapshot st) pid Hin)
      as (raw & Hraw & Hpid & Hl').
    rewrite Hl in Hl'. injection Hl' as ->. split_and!; [done|done|by exists raw]. }
  split_and!; [|intros pid s Hs; by destruct (Hsome pid s Hs) as (_ & ? & ?)|done].
  apply set_eq. intros pid. rewrite elem_of_dom, elem_of_list_to_set. split.
  - intros [s Hs]. by destruct (Hsome pid s Hs).
  - intros Hin.
    destruct (sampled_lookup_in now raws (ProcessTracker.lastCpuSnapshot st) pid Hin)
      as (raw & _ & _ & Hl).
    eexists. rewrite Hlast. apply map_lookup_filter_Some. split; [exact Hl|].
    simpl. by apply elem_of_list_to_set.
Qed.

(** X4.  A process for which [lastCpuSnapshot] holds no sample is reported
    with [cpuPercent] 0 (in a scan that lists each PID once).  That is the
    case of every process of the first scan, of a PID that has just been
    unregistered, and of a PID that the scan before did not list. *)
Theorem cpu_percent_without_sample gpuMap raws now (st : ProcessTracker.State)
    i raw tp :
  NoDup (ProcessTracker.raw_pid <$> raws) →
  raws !! i = Some raw →
  (ProcessTracker.scanProcesses gpuMap raws now st).1 !! i = Some tp →
  let pid := ProcessTracker.raw_pid raw in
  (ProcessTracker.lastCpuSnapshot st !! pid = None → tp_cpuPercent tp = 0)
  ∧ ProcessTracker.lastCpuSnapshot ProcessTracker.init !! pid = None
  ∧ (∀ st0, ProcessTracker.lastCpuSnapshot
              (ProcessTracker.unregisterManagedPid pid st0) !! pid = None)
  ∧ (∀ gpuMap0 raws0 now0 st0,
       pid ∉ ProcessTracker.raw_pid <$> raws0 →
       ProcessTracker.lastCpuSnapshot
         (ProcessTracker.scanProcesses gpuMap0 raws0 now0 st0).2 !! pid = None).
Proof.
  intros Hnd Hi Htp pid. split_and!.
  - intros Hnone. unfold ProcessTracker.scanProcesses in Htp.
    destruct (scan_fold_lookup gpuMap
                (list_to_set (ProcessTracker.raw_pid <$> raws)) now raws [] st
                i raw Hnd Hi) as (tp' & Hl & _ & Hcpu).
    destruct (fold_left _ _ _) as [res st1]. simpl in Htp, Hl.
    rewrite Hl in Htp. injection Htp as ->. fold pid in Hcpu.
    by rewrite Hcpu, Hnone.
  - apply lookup_empty.
  - intros st0. simpl. apply lookup_delete_eq.
  - intros gpuMap0 raws0 now0 st0 Hnin.
    destruct (scanProcesses_mirrors gpuMap0 raws0 now0 st0) as (_ & _ & ->).
    apply map_lookup_filter_None. right. intros s _. simpl.
    by rewrite elem_of_list_to_set.
Qed.

(** The first scan of the daemon. *)
Lemma cpu_percent_without_sample_witness :
  tp_cpuPercent <$> TrackerSamples.orphanScan1.1 = [f64_of_Z 0]
  ∧ ∀ tp, TrackerSamples.orphanScan1.1 !! 0%nat = Some tp →
          ProcessTracker.lastCpuSnapshot ProcessTracker.init !! 700 = None →
          tp_cpuPercent tp = 0.
Proof.
  split; [by vm_compute|]. intros tp Htp.
  exact (proj1 (cpu_percent_without_sample ∅ [TrackerSamples.orphan700 10] 1000
                  ProcessTracker.init 0 (TrackerSamples.orphan700 10) tp
                  (NoDup_singleton _) eq_refl Htp)).
Defined.

(** X5.  The managed registry answers as a set: after [registerManagedPid]
    the PID is managed and no other answer changes; after
    [unregisterManagedPid] it is not, and no other answer changes;
    [getManagedPids] lists the managed PIDs, each once; nothing is managed
    at start; registering and then unregistering a PID that was not managed
    gives the registry back.  Registering keeps the CPU sample of the PID,
    unregistering deletes it. *)
Theorem registry_membership (pid q : Z) (st : ProcessTracker.State) :
  ProcessTracker.isManagedPid q (ProcessTracker.registerManagedPid pid st)
  = bool_decide (q = pid) || ProcessTracker.isManagedPid q st
  ∧ ProcessTracker.isManagedPid q (ProcessTracker.unregisterManagedPid pid st)
    = negb (bool_decide (q = pid)) && ProcessTracker.isManagedPid q st
  ∧ (q ∈ ProcessTracker.getManagedPids st
     ↔ ProcessTracker.isManagedPid q st = true)
  ∧ NoDup (ProcessTracker.getManagedPids st)
  ∧ ProcessTracker.isManagedPid q ProcessTracker.init = false
  ∧ (ProcessTracker.isManagedPid pid st = false →
     ProcessTracker.managedPids
       (ProcessTracker.unregisterManagedPid pid
          (ProcessTracker.registerManagedPid pid st))
     = ProcessTracker.managedPids st)
  ∧ ProcessTracker.lastCpuSnapshot (ProcessTracker.registerManagedPid pid st)
    = ProcessTracker.lastCpuSnapshot st
  ∧ ProcessTracker.lastCpuSnapshot (ProcessTracker.unregisterManagedPid pid st)
    = delete pid (ProcessTracker.lastCpuSnapshot st).
Proof.
  unfold ProcessTracker.isManagedPid, ProcessTracker.getManagedPids. simpl.
  split_and!; try done.
  - apply eq_true_iff_eq.
    rewrite orb_true_iff, !bool_decide_eq_true, elem_of_union, elem_of_singleton.
    done.
  - apply eq_true_iff_eq.
    rewrite andb_true_iff, negb_true_iff, bool_decide_eq_false,
      !bool_decide_eq_true, elem_of_difference, elem_of_singleton.
    tauto.
  - rewrite elem_of_elements. by rewrite bool_decide_eq_true.
  - apply NoDup_elements.
  - intros Hnot. apply bool_decide_eq_false in Hnot.
    apply set_eq. intros x.
    rewrite elem_of_difference, elem_of_union, elem_of_singleton.
    split; [tauto|]. intros Hx. split; [by right|]. by intros ->.
Qed.

(** ** The reaper: what is flagged, what is signalled, what is logged *)

Lemma elem_of_jsmap_set {V} (k : Z) (v : V) (m : list (Z * V)) (e : Z * V) :
  e ∈ jsmap_set k v m → e = (k, v) ∨ e ∈ m.
Proof.
  induction m as [|[k' v'] m IH]; simpl.
  - intros H. apply list_elem_of_singleton in H. by left.
  - destruct (decide (k = k')) as [->|Hne]; rewrite !elem_of_cons; intros [H|H].
    + by left.
    + right. by right.
    + right. by left.
    + destruct (IH H); [by left | right; by right].
Qed.

Section Flags.
Import ZombieReaper.
Variables (cfg : ReaperConfig) (managed : gset Z) (h : Host)
          (processes : list TrackedProcess) (cudaSnapshot : CudaSnapshot)
          (backend : option Z).

Local Abbreviation just pid rule :=
  (justified cfg managed h processes cudaSnapshot backend pid rule).
Local Abbreviation allJust cur :=
  (∀ pid info, (pid, info) ∈ cur → just pid (flag_rule info)).

(** A loop over part of a list that only ever adds justified flags. *)
Lemma flags_fold_inv {A} (xs : list A) (f : list (Z * Flag) → A → list (Z * Flag))
    (cur : list (Z * Flag)) :
  allJust cur →
  (∀ c x, x ∈ xs → allJust c → allJust (f c x)) →
  allJust (fold_left f xs cur).
Proof.
  revert cur. induction xs as [|x xs IH]; intros cur Hc Hf; simpl; [done|].
  apply IH.
  - apply Hf; [apply list_elem_of_here | done].
  - intros c y Hy. apply Hf. by apply list_elem_of_further.
Qed.

Lemma allJust_set cur pid info :
  allJust cur → just pid (flag_rule info) → allJust (jsmap_set pid info cur).
Proof.
  intros Hc Hj p i Hin. apply elem_of_jsmap_set in Hin as [[= -> ->]|Hin]; auto.
Qed.

Lemma ruleOrphanKill_justified cur :
  rc_rules cfg OrphanKill = true → allJust cur →
  allJust (ruleOrphanKill managed processes cur).
Proof.
  intros Hon Hc. apply flags_fold_inv; [done|].
  intros c proc Hproc Hc'.
  destruct (bool_decide (tp_status proc = Zombie)) eqn:Hz; simpl; [|done].
  destruct (bool_decide (tp_pid proc ∈ managed)) eqn:Hm; simpl; [done|].
  apply bool_decide_eq_true in Hz. apply bool_decide_eq_false in Hm.
  apply allJust_set; [done|]. simpl. split; [done|]. split; [done|]. by exists proc.
Qed.

Lemma ruleStaleWorker_justified cur :
  rc_rules cfg StaleWorker = true → allJust cur →
  allJust (ruleStaleWorker managed processes cur).
Proof.
  intros Hon Hc. apply flags_fold_inv; [done|].
  intros c proc Hproc Hc'.
  destruct (bool_decide (tp_status proc = Stale)) eqn:Hz; simpl; [|done].
  destruct (bool_decide (tp_pid proc ∈ managed)) eqn:Hm; simpl; [done|].
  apply bool_decide_eq_true in Hz. apply bool_decide_eq_false in Hm.
  apply allJust_set; [done|]. simpl. split; [done|]. split; [done|]. by exists proc.
Qed.

Lemma ruleDuplicateModel_justified cur :
  rc_rules cfg DuplicateModel = true → allJust cur →
  allJust (ruleDuplicateModel cudaSnapshot cur).
Proof.
  intros Hon Hc. unfold ruleDuplicateModel.
  destruct (bool_decide _) eqn:Hmany; [|done].
  apply bool_decide_eq_true in Hmany.
  apply flags_fold_inv; [done|].
  intros c hog Hhog Hc'. apply list_elem_of_filter in Hhog as [Hbig Hin].
  destruct (gp_isManaged hog) eqn:Hm; simpl; [done|].
  apply allJust_set; [done|]. simpl. split; [done|]. split; [done|]. by exists hog.
Qed.

Lemma rulePortSquatter_justified cur :
  rc_rules cfg PortSquatter = true → allJust cur →
  allJust (rulePortSquatter managed (getPortOwner h) backend cur).
Proof.
  intros Hon Hc. unfold rulePortSquatter.
  destruct (getPortOwner h) as [owner|] eqn:Hp; [|done].
  destruct (bool_decide (Some owner = backend)) eqn:Hb; simpl; [done|].
  destruct (bool_decide (owner ∈ managed)) eqn:Hm; simpl; [done|].
  apply bool_decide_eq_false in Hb, Hm.
  apply allJust_set; [done|]. simpl. split_and!; [done|done|done|congruence].
Qed.

Lemma ruleVramHog_justified cur :
  rc_rules cfg VramHog = true → allJust cur →
  allJust (ruleVramHog processes cudaSnapshot cur).
Proof.
  intros Hon Hc. apply flags_fold_inv; [done|].
  intros c gpuProc Hgp Hc'.
  destruct (gp_isManaged gpuProc) eqn:Hm; simpl; [done|].
  destruct (2000 <? gp_usedMemoryMb gpuProc) eqn:Hbig; [|done].
  apply Z.ltb_lt in Hbig.
  destruct (find _ processes) as [tracked|] eqn:Hfind; [|done].
  destruct (bool_decide (tp_role tracked = UnknownRole)) eqn:Hrole; [|done].
  apply bool_decide_eq_true in Hrole.
  apply find_some in Hfind as [Hin Hpid].
  apply list_elem_of_In in Hin. apply bool_decide_eq_true in Hpid.
  apply allJust_set; [done|]. simpl. split; [done|]. split.
  - by exists gpuProc.
  - by exists tracked.
Qed.

Lemma when_justified (b : bool) (f : list (Z * Flag) → list (Z * Flag)) cur :
  (b = true → allJust cur → allJust (f cur)) → allJust cur → allJust (when b f cur).
Proof. unfold when. destruct b; auto. Qed.

(** Every entry of [currentCandidates] was put there by an enabled rule
    whose condition held. *)
Lemma currentCandidates_justified :
  allJust (currentCandidates cfg managed h processes cudaSnapshot backend).
Proof.
  unfold currentCandidates.
  apply when_justified; [apply ruleVramHog_justified|].
  apply when_justified; [apply ruleStaleWorker_justified|].
  apply when_justified; [apply rulePortSquatter_justified|].
  apply when_justified; [apply ruleDuplicateModel_justified|].
  apply when_justified; [apply ruleOrphanKill_justified|].
  intros ? ? H. by apply elem_of_nil in H.
Qed.

(** On a snapshot stamped by the registry no rule flags a managed PID. *)
Lemma currentCandidates_unmanaged pid info :
  stampedBy managed cudaSnapshot →
  (pid, info) ∈ currentCandidates cfg managed h processes cudaSnapshot backend →
  pid ∉ managed.
Proof.
  intros Hstamp Hin. apply currentCandidates_justified in Hin as [_ Hj].
  destruct (flag_rule info); try (by destruct Hj as [? _]).
  - destruct Hj as (_ & hog & Hhog & <- & _ & Hm).
    rewrite (Hstamp _ Hhog) in Hm. by apply bool_decide_eq_false in Hm.
  - destruct Hj as ((gp & Hgp & <- & _ & Hm) & _).
    rewrite (Hstamp _ Hgp) in Hm. by apply bool_decide_eq_false in Hm.
Qed.

End Flags.

Section Signals.
Import ZombieReaper.
Variables (cfg : ReaperConfig) (managed : gset Z) (h : Host) (k : Z).

Local Abbreviation kills acts :=
  (Z.of_nat (length (filter (fun a => ra_outcome a = OutKilled) acts))).
Local Abbreviation sent acts :=
  (ra_targetPid
     <$> filter (fun a => ra_outcome a = OutKilled ∨ ra_outcome a = OutFailed) acts).

Lemma kills_snoc acts a :
  kills (acts ++ [a]) = kills acts + (if decide (ra_outcome a = OutKilled) then 1 else 0).
Proof.
  rewrite filter_app, length_app, filter_cons, filter_nil.
  destruct (decide _); simpl; lia.
Qed.

Lemma sent_snoc acts a :
  sent (acts ++ [a])
  = sent acts ++ (if decide (ra_outcome a = OutKilled ∨ ra_outcome a = OutFailed)
                  then [ra_targetPid a] else []).
Proof.
  rewrite filter_app, fmap_app, filter_cons, filter_nil. by destruct (decide _).
Qed.

(** The counted kills never pass the maximum inside the loop. *)
Lemma confirmOne_kill_budget l e :
  k + kills (loop_actions l) ≤ Z.max k (rc_maxKillsPerWindow cfg) →
  k + kills (loop_actions (confirmOne cfg managed h k l e))
  ≤ Z.max k (rc_maxKillsPerWindow cfg).
Proof.
  intros Hinv. destruct e as [pid info].
  destruct (confirmOne_cases cfg managed h k l pid info)
    as [(_ & a & c & s & Hex & ->)|[_ ->]]; simpl; [|done].
  destruct (executeKill_spec cfg managed h pid (flag_rule info) (flag_reason info)
              (k + kills (loop_actions l))
              (loop_candidates l) (loop_signalled l) (loop_ticks l))
    as (a' & _ & _ & _ & [[Heq Hout]|(Heq & Hout & Hlt & _)]);
    rewrite Heq in Hex; injection Hex as -> _ _; rewrite kills_snoc.
  - rewrite decide_False; [lia|]. destruct Hout; congruence.
  - destruct (decide _); lia.
Qed.

(** With the breaker open from the start, the loop only skips. *)
Lemma confirmOne_breaker_open l e :
  rc_maxKillsPerWindow cfg ≤ k →
  loop_signalled l = [] ∧ Forall (fun a => ra_outcome a = OutSkippedSafety) (loop_actions l) →
  loop_signalled (confirmOne cfg managed h k l e) = []
  ∧ Forall (fun a => ra_outcome a = OutSkippedSafety)
      (loop_actions (confirmOne cfg managed h k l e)).
Proof.
  intros Hopen [Hsig Hacts]. destruct e as [pid info].
  destruct (confirmOne_cases cfg managed h k l pid info)
    as [(_ & a & c & s & Hex & ->)|[_ ->]]; simpl; [|done].
  rewrite executeKill_circuit_breaker in Hex by lia.
  injection Hex as <- _ <-. split; [done|].
  apply Forall_app. split; [done|]. by apply Forall_singleton.
Qed.

(** What the loop has signalled is what its killed and failed actions
    target; such an action has passed every guard. *)
Lemma confirmOne_signals l e :
  loop_signalled l = sent (loop_actions l)
  ∧ Forall (fun a =>
              (ra_outcome a = OutKilled ∨ ra_outcome a = OutFailed) →
              (ra_targetPid a ∉ managed) ∧ rc_dryRun cfg = false
              ∧ isPidAlive h (ra_targetPid a) = true
              ∧ (safeKillPid h (ra_targetPid a) = true ↔ ra_outcome a = OutKilled))
      (loop_actions l) →
  loop_signalled (confirmOne cfg managed h k l e)
  = sent (loop_actions (confirmOne cfg managed h k l e))
  ∧ Forall (fun a =>
              (ra_outcome a = OutKilled ∨ ra_outcome a = OutFailed) →
              (ra_targetPid a ∉ managed) ∧ rc_dryRun cfg = false
              ∧ isPidAlive h (ra_targetPid a) = true
              ∧ (safeKillPid h (ra_targetPid a) = true ↔ ra_outcome a = OutKilled))
      (loop_actions (confirmOne cfg managed h k l e)).
Proof.
  intros [Hsig Hacts]. destruct e as [pid info].
  destruct (confirmOne_cases cfg managed h k l pid info)
    as [(_ & a & c & s & Hex & ->)|[_ ->]]; simpl; [|done].
  destruct (executeKill_spec cfg managed h pid (flag_rule info) (flag_reason info)
              (k + kills (loop_actions l))
              (loop_candidates l) (loop_signalled l) (loop_ticks l))
    as (a' & Ht & _ & _ & [[Heq Hout]|(Heq & Hout & _ & Hnm & Hdry & Halive)]);
    rewrite Heq in Hex; injection Hex as -> _ <-; rewrite sent_snoc; split.
  - rewrite decide_False; [by rewrite app_nil_r|].
    intros [?|?]; destruct Hout; congruence.
  - apply Forall_app. split; [done|]. apply Forall_singleton.
    intros [?|?]; destruct Hout; congruence.
  - rewrite decide_True; [by rewrite Hsig, Ht|].
    rewrite Hout. destruct (safeKillPid h pid); auto.
  - apply Forall_app. split; [done|]. apply Forall_singleton.
    intros _. rewrite Ht. split_and!; [done..|].
    rewrite Hout. destruct (safeKillPid h pid); split; congruence.
Qed.

End Signals.

(** X6.  Every entry of [currentCandidates], and with it every action of
    [evaluate] (kill, skip or dry run), names a rule that is switched on in
    the configuration and whose condition holds in the arguments of that
    call: a zombie (or stale) tracked process out of the registry for
    orphan-kill (stale-worker); an unmanaged GPU process above 4000 MB
    among at least two such processes for duplicate-model; the owner of port
    8998, out of the registry and not the backend PID, for port-squatter; an
    unmanaged GPU process above 2000 MB tracked with role unknown for
    vram-hog. *)
Theorem reaper_flags_justified managed h processes cudaSnapshot backend
    (st : ZombieReaper.State) :
  (∀ pid info,
     (pid, info) ∈ ZombieReaper.currentCandidates (ZombieReaper.config st)
                     managed h processes cudaSnapshot backend →
     ZombieReaper.justified (ZombieReaper.config st) managed h processes
       cudaSnapshot backend pid (ZombieReaper.flag_rule info))
  ∧ (∀ a,
       a ∈ ZombieReaper.out_actions
             (ZombieReaper.evaluate managed h processes cudaSnapshot backend st) →
       ZombieReaper.justified (ZombieReaper.config st) managed h processes
         cudaSnapshot backend (ra_targetPid a) (ra_rule a)).
Proof.
  split; [apply currentCandidates_justified|].
  intros a Ha. destruct (rc_enabled (ZombieReaper.config st)) eqn:Hen.
  - apply (evaluate_action_confirmed _ _ _ _ _ _ Hen) in Ha
      as (info & Hget & _ & ->).
    apply currentCandidates_justified. by apply jsmap_get_Some.
  - unfold ZombieReaper.evaluate in Ha. rewrite Hen in Ha.
    by apply elem_of_nil in Ha.
Qed.

(** X7.  When the [isManaged] stamps of the snapshot agree with the
    registry, as those that [queryGpuProcesses] sets do, no rule flags a
    managed PID, and no action of [evaluate], not even a skip, targets one. *)
Theorem stamped_snapshot_spares_managed managed h processes cudaSnapshot backend
    (st : ZombieReaper.State) :
  ZombieReaper.stampedBy managed cudaSnapshot →
  (∀ pid info,
     (pid, info) ∈ ZombieReaper.currentCandidates (ZombieReaper.config st)
                     managed h processes cudaSnapshot backend →
     pid ∉ managed)
  ∧ (∀ a,
       a ∈ ZombieReaper.out_actions
             (ZombieReaper.evaluate managed h processes cudaSnapshot backend st) →
       ra_targetPid a ∉ managed).
Proof.
  intros Hstamp. split.
  - intros pid info. by apply currentCandidates_unmanaged.
  - intros a Ha. destruct (rc_enabled (ZombieReaper.config st)) eqn:Hen.
    + apply (evaluate_action_confirmed _ _ _ _ _ _ Hen) in Ha
        as (info & Hget & _ & _).
      eapply currentCandidates_unmanaged; [done|]. by apply jsmap_get_Some.
    + unfold ZombieReaper.evaluate in Ha. rewrite Hen in Ha.
      by apply elem_of_nil in Ha.
Qed.

(** The duplicate-model scenario: PID 600 is managed and stamped so. *)
Lemma stamped_snapshot_spares_managed_witness :
  ZombieReaper.stampedBy {[600]} (Samples.duplicateSnapshot 10000)
  ∧ Samples.verdicts (ZombieReaper.out_actions Samples.twice2)
    = [(500, DuplicateModel, OutKilled)]
  ∧ ∀ a, a ∈ ZombieReaper.out_actions Samples.twice2 →
         ra_targetPid a ∉ ({[600]} : gset Z).
Proof.
  assert (ZombieReaper.stampedBy {[600]} (Samples.duplicateSnapshot 10000)) as Hs.
  { intros p Hp. simpl in Hp.
    apply elem_of_cons in Hp as [->|Hp];
      [|apply elem_of_cons in Hp as [->|Hp]; [|by apply elem_of_nil in Hp]];
      by vm_compute. }
  split; [exact Hs|]. split; [by vm_compute|].
  exact (proj2 (stamped_snapshot_spares_managed {[600]} (Samples.hostAt 10000) []
                  (Samples.duplicateSnapshot 10000) (Some 600)
                  (ZombieReaper.out_state Samples.twice1) Hs)).
Defined.

(** X8.  One call of [evaluate] never brings the kills it counts over the
    maximum: the kills found in the window at the start of the call plus the
    kills of the call stay below [maxKillsPerWindow], unless the count was
    above it already, in which case the call kills nobody.  When the count
    has reached the maximum at the start of the call, every action of the
    call is a skipped-safety and no signal is sent. *)
Theorem kills_per_call_bounded managed h processes cudaSnapshot backend
    (st : ZombieReaper.State) :
  let o := ZombieReaper.evaluate managed h processes cudaSnapshot backend st in
  let counted := ZombieReaper.getKillsInWindow (ZombieReaper.Date_now h 0) st in
  let killed :=
    Z.of_nat (length (filter (fun a => ra_outcome a = OutKilled)
                             (ZombieReaper.out_actions o))) in
  counted + killed ≤ Z.max counted (rc_maxKillsPerWindow (ZombieReaper.config st))
  ∧ (rc_maxKillsPerWindow (ZombieReaper.config st) ≤ counted →
     ZombieReaper.out_signalled o = []
     ∧ Forall (fun a => ra_outcome a = OutSkippedSafety) (ZombieReaper.out_actions o)).
Proof.
  intros o counted killed. subst o killed.
  destruct (rc_enabled (ZombieReaper.config st)) eqn:Hen.
  - rewrite evaluate_enabled by done. simpl. split.
    + apply (confirm_fold_inv _ _ _ _
               (fun l => counted
                         + Z.of_nat (length (filter (fun a => ra_outcome a = OutKilled)
                                                    (ZombieReaper.loop_actions l)))
                         ≤ Z.max counted (rc_maxKillsPerWindow (ZombieReaper.config st)))).
      * simpl. lia.
      * intros l e _. apply confirmOne_kill_budget.
    + intros Hopen.
      apply (confirm_fold_inv _ _ _ _
               (fun l => ZombieReaper.loop_signalled l = []
                         ∧ Forall (fun a => ra_outcome a = OutSkippedSafety)
                             (ZombieReaper.loop_actions l))).
      * by split.
      * intros l e _. by apply confirmOne_breaker_open.
  - unfold ZombieReaper.evaluate. rewrite Hen. simpl. split; [lia|done].
Qed.

(** X9.  [evaluate] calls [safeKillPid] exactly once for each action whose
    outcome is killed or failed, in the order of the actions, and for no
    other PID.  Such an action means that the PID was out of the registry,
    that dry-run mode was off and that the liveness probe had just answered
    alive; it is killed when the signal was delivered and failed when not. *)
Theorem signals_match_actions managed h processes cudaSnapshot backend
    (st : ZombieReaper.State) :
  let o := ZombieReaper.evaluate managed h processes cudaSnapshot backend st in
  ZombieReaper.out_signalled o
  = ra_targetPid
      <$> filter (fun a => ra_outcome a = OutKilled ∨ ra_outcome a = OutFailed)
                 (ZombieReaper.out_actions o)
  ∧ Forall (fun a =>
              (ra_outcome a = OutKilled ∨ ra_outcome a = OutFailed) →
              (ra_targetPid a ∉ managed)
              ∧ rc_dryRun (ZombieReaper.config st) = false
              ∧ ZombieReaper.isPidAlive h (ra_targetPid a) = true
              ∧ (ZombieReaper.safeKillPid h (ra_targetPid a) = true
                 ↔ ra_outcome a = OutKilled))
      (ZombieReaper.out_actions o).
Proof.
  intros o. subst o.
  destruct (rc_enabled (ZombieReaper.config st)) eqn:Hen.
  - rewrite evaluate_enabled by done. simpl.
    apply (confirm_fold_inv _ _ _ _
             (fun l => ZombieReaper.loop_signalled l
                       = ra_targetPid
                           <$> filter (fun a => ra_outcome a = OutKilled
                                                ∨ ra_outcome a = OutFailed)
                                      (ZombieReaper.loop_actions l)
                       ∧ Forall _ (ZombieReaper.loop_actions l))).
    + by split.
    + intros l e _. apply confirmOne_signals.
  - unfold ZombieReaper.evaluate. rewrite Hen. simpl. by split.
Qed.

Section ActionLog.
Import ZombieReaper.

Lemma length_trim_to {A} (cap : nat) (l : list A) :
  length (trim_to cap l) = (length l `min` cap)%nat.
Proof. unfold trim_to. rewrite length_drop. lia. Qed.

Lemma trim_to_suffix {A} (cap : nat) (l : list A) : trim_to cap l `suffix_of` l.
Proof. exists (take (length l - cap) l). unfold trim_to. by rewrite take_drop. Qed.

Lemma evaluate_log_bounded managed h processes cudaSnapshot backend st :
  (length (actionLog st) ≤ 100)%nat →
  (length (actionLog (out_state (evaluate managed h processes cudaSnapshot backend st)))
   ≤ 100)%nat.
Proof.
  intros Hlen. destruct (rc_enabled (config st)) eqn:Hen.
  - rewrite evaluate_enabled by done. simpl. rewrite length_trim_to. lia.
  - unfold evaluate. by rewrite Hen.
Qed.

Lemma run_log_bounded cs st :
  (length (actionLog st) ≤ 100)%nat → (length (actionLog (run cs st).2) ≤ 100)%nat.
Proof.
  revert st. induction cs as [|c cs IH]; intros st Hlen; simpl; [done|].
  specialize (IH (out_state (step c st)) (evaluate_log_bounded _ _ _ _ _ _ Hlen)).
  by destruct (run cs (out_state (step c st))) as [[acts sig] st'].
Qed.

Lemma kills_in_window_antitone (now now' : Z) (w : Z) (log : list ReaperAction) :
  now ≤ now' →
  (length (filter (fun a => (now' - w < ra_timestamp a)%Z ∧ ra_outcome a = OutKilled) log)
   ≤ length (filter (fun a => (now - w < ra_timestamp a)%Z ∧ ra_outcome a = OutKilled) log))%nat.
Proof.
  intros Hle. induction log as [|a log IH]; [done|].
  rewrite !filter_cons.
  destruct (decide (now' - w < ra_timestamp a ∧ ra_outcome a = OutKilled)) as [[H1 H2]|H1].
  - rewrite decide_True by (split; [lia|done]). simpl. lia.
  - destruct (decide _); simpl; lia.
Qed.

End ActionLog.

(** X10.  The action log is a bounded queue.  An enabled call appends its
    actions to the log and keeps the last 100 entries: the new log is a
    suffix of the old log followed by the actions, of length the smaller of
    100 and their total.  A log of at most 100 entries stays so through any
    call, and the daemon's log, empty at start, never holds more than 100
    entries however many calls are made. *)
Theorem action_log_bounded managed h processes cudaSnapshot backend
    (st : ZombieReaper.State) (cs : list ZombieReaper.Cycle) :
  let o := ZombieReaper.evaluate managed h processes cudaSnapshot backend st in
  (rc_enabled (ZombieReaper.config st) = true →
   ZombieReaper.actionLog (ZombieReaper.out_state o)
     `suffix_of` (ZombieReaper.actionLog st ++ ZombieReaper.out_actions o)
   ∧ length (ZombieReaper.actionLog (ZombieReaper.out_state o))
     = ((length (ZombieReaper.actionLog st)
         + length (ZombieReaper.out_actions o)) `min` 100)%nat)
  ∧ ((length (ZombieReaper.actionLog st) ≤ 100)%nat →
     (length (ZombieReaper.actionLog (ZombieReaper.out_state o)) ≤ 100)%nat)
  ∧ (length (ZombieReaper.actionLog (ZombieReaper.run cs ZombieReaper.init).2)
     ≤ 100)%nat.
Proof.
  intros o. subst o. split_and!.
  - intros Hen. rewrite evaluate_enabled by done. simpl.
    split; [apply trim_to_suffix|]. by rewrite length_trim_to, length_app.
  - apply evaluate_log_bounded.
  - apply run_log_bounded. simpl. lia.
Qed.

(** X11.  [updateConfig] merges a patch field by field: each of [enabled],
    [dryRun], [maxKillsPerWindow] and [windowMs] takes the value the patch
    carries and keeps its own when the patch carries none; an empty patch
    changes nothing, and applying a patch twice is the same as applying it
    once; the action log and the candidates are not touched.  The rule table
    is the exception: a patch that carries no rules keeps the table, a patch
    that carries rules replaces it, so that a rule the patch does not mention
    is switched off whatever it was before.  After a patch that sets
    [enabled] to false, [evaluate] does nothing. *)
Theorem reaper_updateConfig_merge (patch : ZombieReaper.ConfigPatch)
    (st : ZombieReaper.State) :
  let st' := ZombieReaper.updateConfig patch st in
  ZombieReaper.updateConfig
    {| ZombieReaper.patch_enabled := None; ZombieReaper.patch_dryRun := None;
       ZombieReaper.patch_maxKillsPerWindow := None;
       ZombieReaper.patch_windowMs := None;
       ZombieReaper.patch_rules := None |} st = st
  ∧ ZombieReaper.updateConfig patch st' = st'
  ∧ ZombieReaper.actionLog st' = ZombieReaper.actionLog st
  ∧ ZombieReaper.candidates st' = ZombieReaper.candidates st
  ∧ (ZombieReaper.patch_dryRun patch = None →
     rc_dryRun (ZombieReaper.getConfig st') = rc_dryRun (ZombieReaper.config st))
  ∧ (ZombieReaper.patch_enabled patch = None →
     rc_enabled (ZombieReaper.getConfig st') = rc_enabled (ZombieReaper.config st))
  ∧ (ZombieReaper.patch_rules patch = None →
     rc_rules (ZombieReaper.getConfig st') = rc_rules (ZombieReaper.config st))
  ∧ (∀ pr r, ZombieReaper.patch_rules patch = Some pr →
             rc_rules (ZombieReaper.getConfig st') r = default false (pr r))
  ∧ ZombieReaper.getConfig
      (ZombieReaper.updateConfig (Samples.patchDryRun true) ZombieReaper.init)
    = {| rc_enabled := true; rc_dryRun := true; rc_maxKillsPerWindow := 3;
         rc_windowMs := 300000; rc_rules := rc_rules DEFAULT_REAPER_CONFIG |}
  ∧ rc_enabled (ZombieReaper.getConfig st')
    = default (rc_enabled (ZombieReaper.config st)) (ZombieReaper.patch_enabled patch)
  ∧ rc_dryRun (ZombieReaper.getConfig st')
    = default (rc_dryRun (ZombieReaper.config st)) (ZombieReaper.patch_dryRun patch)
  ∧ rc_maxKillsPerWindow (ZombieReaper.getConfig st')
    = default (rc_maxKillsPerWindow (ZombieReaper.config st))
        (ZombieReaper.patch_maxKillsPerWindow patch)
  ∧ rc_windowMs (ZombieReaper.getConfig st')
    = default (rc_windowMs (ZombieReaper.config st))
        (ZombieReaper.patch_windowMs patch)
  ∧ (ZombieReaper.patch_enabled patch = Some false →
     ∀ managed h processes cudaSnapshot backend,
       ZombieReaper.evaluate managed h processes cudaSnapshot backend st'
       = {| ZombieReaper.out_actions := []; ZombieReaper.out_state := st';
            ZombieReaper.out_signalled := [] |}).
Proof.
  intros st'. subst st'. destruct st as [[en dr mk wm rl] log cands].
  destruct patch as [[pe|] [pd|] [pm|] [pw|] [pr|]];
    unfold ZombieReaper.updateConfig, ZombieReaper.getConfig; simpl;
    split_and!; try done; try (intros ? ? [=]; by subst);
    by intros [= ->].
Qed.

(** X12.  [getKillsInWindow] counts the killed entries of the log that are
    less than [windowMs] old: the count lies between 0 and the length of the
    log, an entry that is not a kill or is [windowMs] old or older does not
    add to it, and, the log being the same, the count never grows as time
    passes. *)
Theorem kills_in_window_ages (now now' : Z) (st : ZombieReaper.State)
    (a : ReaperAction) :
  0 ≤ ZombieReaper.getKillsInWindow now st
      ≤ Z.of_nat (length (ZombieReaper.actionLog st))
  ∧ ZombieReaper.getKillsInWindow now
      {| ZombieReaper.config := ZombieReaper.config st;
         ZombieReaper.actionLog := ZombieReaper.actionLog st ++ [a];
         ZombieReaper.candidates := ZombieReaper.candidates st |}
    = ZombieReaper.getKillsInWindow now st
      + (if decide (ra_outcome a = OutKilled
                    ∧ now - ra_timestamp a < rc_windowMs (ZombieReaper.config st))
         then 1 else 0)
  ∧ (now ≤ now' →
     ZombieReaper.getKillsInWindow now' st ≤ ZombieReaper.getKillsInWindow now st).
Proof.
  unfold ZombieReaper.getKillsInWindow. simpl.
  split; [split|split].
  - lia.
  - apply inj_le, length_filter.
  - rewrite filter_app, length_app, filter_cons, filter_nil.
    destruct (decide (now - rc_windowMs (ZombieReaper.config st) < ra_timestamp a
                      ∧ ra_outcome a = OutKilled)) as [[H1 H2]|H1].
    + rewrite decide_True by (split; [done|lia]). simpl. lia.
    + rewrite decide_False; [simpl; lia|]. intros [H2 H3]. apply H1. split; [lia|done].
  - intros Hle. apply inj_le. by apply kills_in_window_antitone.
Qed.

(** ** The fence: lock, prompt timer and status *)

Section Fence.
Import InferenceFence.

Lemma canLaunchModel_allowed cudaSnapshot st :
  allowed (canLaunchModel cudaSnapshot st) = true
  ↔ activeModelsOf cudaSnapshot < fc_maxConcurrentModels (config st)
    ∧ locked st = false.
Proof.
  unfold canLaunchModel.
  destruct (fc_maxConcurrentModels (config st) <=? activeModelsOf cudaSnapshot) eqn:Hmax.
  - apply Z.leb_le in Hmax. simpl. split; [done|]. intros [? _]. lia.
  - apply Z.leb_gt in Hmax. destruct (locked st); simpl.
    + split; [done | by intros [_ ?]].
    + split; [intros _; split; [lia|done] | done].
Qed.

Lemma canLaunchModel_locked cudaSnapshot st :
  locked st = true → allowed (canLaunchModel cudaSnapshot st) = false.
Proof.
  intros Hl. destruct (allowed _) eqn:E; [|done].
  apply canLaunchModel_allowed in E as [_ E]. congruence.
Qed.

Lemma foldl_sum {A} (f : A → Z) (l : list A) (a : Z) :
  foldl (fun sum p => sum + f p) a l = a + foldr Z.add 0 (f <$> l).
Proof.
  revert a. induction l as [|x l IH]; intros a; [simpl; lia|].
  rewrite fmap_cons. cbn [foldl foldr]. rewrite IH. lia.
Qed.

End Fence.

(** X13.  The advisory lock is a flag without an owner or a queue.
    [acquireLock] succeeds exactly when the lock is free and leaves it held;
    a second [acquireLock] fails at once and changes nothing; while the lock
    is held [canLaunchModel] refuses whatever the snapshot shows;
    [releaseLock] and [resetFence] free it whoever holds it, and whether it
    is held or not, after which [acquireLock] succeeds again and
    [canLaunchModel] goes by the count of models alone.  None of the three
    touches the configuration, and only [resetFence] touches the prompt
    timer, which it clears. *)
Theorem fence_lock_protocol cudaSnapshot (st : InferenceFence.State) :
  let st1 := (InferenceFence.acquireLock st).2 in
  (InferenceFence.acquireLock st).1 = negb (InferenceFence.locked st)
  ∧ InferenceFence.locked st1 = true
  ∧ InferenceFence.acquireLock st1 = (false, st1)
  ∧ InferenceFence.allowed (InferenceFence.canLaunchModel cudaSnapshot st1) = false
  ∧ InferenceFence.locked (InferenceFence.releaseLock st1) = false
  ∧ (InferenceFence.acquireLock (InferenceFence.releaseLock st1)).1 = true
  ∧ (InferenceFence.acquireLock (InferenceFence.resetFence st1)).1 = true
  ∧ InferenceFence.config st1 = InferenceFence.config st
  ∧ InferenceFence.promptStartedAt st1 = InferenceFence.promptStartedAt st
  ∧ InferenceFence.promptStartedAt (InferenceFence.releaseLock st1)
    = InferenceFence.promptStartedAt st
  ∧ InferenceFence.promptStartedAt (InferenceFence.resetFence st1) = None
  ∧ (InferenceFence.allowed
       (InferenceFence.canLaunchModel cudaSnapshot (InferenceFence.releaseLock st1))
     = true
     ↔ InferenceFence.activeModelsOf cudaSnapshot
       < fc_maxConcurrentModels (InferenceFence.config st))
  ∧ InferenceFence.config (InferenceFence.releaseLock st1) = InferenceFence.config st
  ∧ InferenceFence.config (InferenceFence.resetFence st1) = InferenceFence.config st
  ∧ InferenceFence.locked (InferenceFence.resetFence st1) = false
  ∧ (InferenceFence.allowed
       (InferenceFence.canLaunchModel cudaSnapshot (InferenceFence.resetFence st1))
     = true
     ↔ InferenceFence.activeModelsOf cudaSnapshot
       < fc_maxConcurrentModels (InferenceFence.config st))
  ∧ InferenceFence.releaseLock st
    = {| InferenceFence.config := InferenceFence.config st;
         InferenceFence.promptStartedAt := InferenceFence.promptStartedAt st;
         InferenceFence.locked := false |}
  ∧ InferenceFence.resetFence st
    = {| InferenceFence.config := InferenceFence.config st;
         InferenceFence.promptStartedAt := None;
         InferenceFence.locked := false |}.
Proof.
  intros st1. subst st1. unfold InferenceFence.acquireLock.
  assert (∀ s, InferenceFence.locked s = false →
               (InferenceFence.allowed (InferenceFence.canLaunchModel cudaSnapshot s)
                = true
                ↔ InferenceFence.activeModelsOf cudaSnapshot
                  < fc_maxConcurrentModels (InferenceFence.config s))) as Hfree.
  { intros s Hs. rewrite canLaunchModel_allowed. split; [by intros [? _] | by split]. }
  destruct (InferenceFence.locked st) eqn:Hl; simpl; rewrite ?Hl;
    split_and!; try done;
    try (by apply canLaunchModel_locked); by rewrite Hfree.
Qed.

(** X14.  The status that the fence's [evaluate] reports.  The prompt has
    timed out exactly when a prompt was marked started and more than
    [promptTimeoutMs] have passed since: so after [markPromptStarted] at
    time t the flag is raised once now - t exceeds the timeout, and after
    [markPromptFinished] or [resetFence] it is never raised.  The VRAM in
    use is the sum over the managed GPU processes only, and the budget flag
    says whether that sum exceeds [vramBudgetMb].  The count of active
    models is the one [canLaunchModel] decides on.  The process list is not
    looked at, and the state is not changed. *)
Theorem fence_status_view processes cudaSnapshot (now t : Z)
    (st : InferenceFence.State) :
  let fs := InferenceFence.evaluate processes cudaSnapshot now st in
  (fs_promptTimedOut fs = true
   ↔ ∃ t0, InferenceFence.promptStartedAt st = Some t0
           ∧ fc_promptTimeoutMs (InferenceFence.config st) < now - t0)
  ∧ (fs_promptTimedOut
       (InferenceFence.evaluate processes cudaSnapshot now
          (InferenceFence.markPromptStarted t st)) = true
     ↔ fc_promptTimeoutMs (InferenceFence.config st) < now - t)
  ∧ fs_promptTimedOut
      (InferenceFence.evaluate processes cudaSnapshot now
         (InferenceFence.markPromptFinished st)) = false
  ∧ fs_promptTimedOut
      (InferenceFence.evaluate processes cudaSnapshot now
         (InferenceFence.resetFence st)) = false
  ∧ fs_vramUsedMb fs
    = foldr Z.add 0
        (gp_usedMemoryMb
           <$> filter (fun p => gp_isManaged p = true) (cs_processes cudaSnapshot))
  ∧ (fs_isOverBudget fs = true
     ↔ fc_vramBudgetMb (InferenceFence.config st) < fs_vramUsedMb fs)
  ∧ (InferenceFence.allowed (InferenceFence.canLaunchModel cudaSnapshot st) = true
     ↔ fs_activeModels fs < fc_maxConcurrentModels (InferenceFence.config st)
       ∧ fs_locked fs = false)
  ∧ fs = InferenceFence.evaluate [] cudaSnapshot now st.
Proof.
  intros fs. subst fs. unfold InferenceFence.evaluate. simpl. split_and!.
  - destruct (InferenceFence.promptStartedAt st) as [t0|].
    + rewrite Z.ltb_lt. split; [intros H; by exists t0 | by intros (? & [= <-] & ?)].
    + split; [done | by intros (? & [=] & _)].
  - apply Z.ltb_lt.
  - done.
  - done.
  - by rewrite foldl_sum.
  - apply Z.ltb_lt.
  - apply canLaunchModel_allowed.
  - done.
Qed.

(** X15.  The fence's [updateConfig] merges a patch field by field and
    touches neither the lock nor the prompt timer: each of the five fields
    of the configuration takes the value the patch carries and keeps its own
    when the patch carries none; an empty patch changes nothing, a patch
    applied twice is the patch applied once; after a patch that sets
    [maxConcurrentModels] to n a launch is allowed exactly when fewer than n
    GPU processes exceed 4000 MB and the lock is free, and the budget that
    [evaluate] reports is the patched one. *)
Theorem fence_updateConfig_merge (patch : InferenceFence.ConfigPatch)
    (n : Z) cudaSnapshot (st : InferenceFence.State) :
  let st' := InferenceFence.updateConfig patch st in
  InferenceFence.updateConfig
    {| InferenceFence.patch_maxConcurrentModels := None;
       InferenceFence.patch_vramBudgetMb := None;
       InferenceFence.patch_promptTimeoutMs := None;
       InferenceFence.patch_inferenceStepTimeoutMs := None;
       InferenceFence.patch_maxConnectionsPerModel := None |} st = st
  ∧ InferenceFence.updateConfig patch st' = st'
  ∧ InferenceFence.locked st' = InferenceFence.locked st
  ∧ InferenceFence.promptStartedAt st' = InferenceFence.promptStartedAt st
  ∧ (InferenceFence.patch_maxConcurrentModels patch = Some n →
     (InferenceFence.allowed (InferenceFence.canLaunchModel cudaSnapshot st') = true
      ↔ InferenceFence.activeModelsOf cudaSnapshot < n
        ∧ InferenceFence.locked st = false))
  ∧ (InferenceFence.patch_maxConcurrentModels patch = None →
     InferenceFence.canLaunchModel cudaSnapshot st'
     = InferenceFence.canLaunchModel cudaSnapshot st)
  ∧ fc_maxConcurrentModels (InferenceFence.getConfig st')
    = default (fc_maxConcurrentModels (InferenceFence.config st))
        (InferenceFence.patch_maxConcurrentModels patch)
  ∧ fc_vramBudgetMb (InferenceFence.getConfig st')
    = default (fc_vramBudgetMb (InferenceFence.config st))
        (InferenceFence.patch_vramBudgetMb patch)
  ∧ fc_promptTimeoutMs (InferenceFence.getConfig st')
    = default (fc_promptTimeoutMs (InferenceFence.config st))
        (InferenceFence.patch_promptTimeoutMs patch)
  ∧ fc_inferenceStepTimeoutMs (InferenceFence.getConfig st')
    = default (fc_inferenceStepTimeoutMs (InferenceFence.config st))
        (InferenceFence.patch_inferenceStepTimeoutMs patch)
  ∧ fc_maxConnectionsPerModel (InferenceFence.getConfig st')
    = default (fc_maxConnectionsPerModel (InferenceFence.config st))
        (InferenceFence.patch_maxConnectionsPerModel patch)
  ∧ (∀ processes now,
       fs_vramBudgetMb (InferenceFence.evaluate processes cudaSnapshot now st')
       = default (fc_vramBudgetMb (InferenceFence.config st))
           (InferenceFence.patch_vramBudgetMb patch)).
Proof.
  intros st'. subst st'. destruct st as [[mc vb pt it mx] ps lk].
  destruct patch as [[p1|] [p2|] [p3|] [p4|] [p5|]];
    unfold InferenceFence.updateConfig, InferenceFence.getConfig; simpl;
    split_and!; try done;
    intros [= ->]; by rewrite canLaunchModel_allowed.
Qed.

(** ** The CUDA monitor: history, alerts and the nvidia-smi listing *)

Section CudaAlerts.
Import CudaMonitor.


(** Where an alert of [generateAlerts] comes from. *)
Lemma elem_of_generateAlerts g processes now st a :
  a ∈ generateAlerts (Some g) processes now st
  ↔ a ∈ overBudgetAlerts g now st ∨ a ∈ thermalAlerts g now
    ∨ (∃ p, p ∈ processes ∧ a ∈ unmanagedAlert now p)
    ∨ a ∈ leakAlerts g processes now st.
Proof.
  unfold generateAlerts. rewrite !elem_of_app.
  assert (a ∈ concat (unmanagedAlert now <$> processes)
          ↔ ∃ p, p ∈ processes ∧ a ∈ unmanagedAlert now p) as ->; [|done].
  rewrite list_elem_of_In, in_concat. split.
  - intros (l & Hl & Ha). apply list_elem_of_In in Hl, Ha.
    apply list_elem_of_fmap in Hl as (p & -> & Hp). by exists p.
  - intros (p & Hp & Ha). exists (unmanagedAlert now p).
    split; apply list_elem_of_In; [by apply list_elem_of_fmap_2 | done].
Qed.

Lemma elem_of_overBudgetAlerts g now st a :
  a ∈ overBudgetAlerts g now st →
  vramBudgetMb st < gi_memoryUsedMb g
  ∧ ca_type a = OverBudget ∧ ca_severity a = Warning ∧ ca_timestamp a = now
  ∧ ca_pid a = None.
Proof.
  unfold overBudgetAlerts. destruct (_ <? _) eqn:E; [|intros H; by apply elem_of_nil in H].
  apply Z.ltb_lt in E. intros H. by apply list_elem_of_singleton in H as ->.
Qed.

Lemma elem_of_thermalAlerts g now a :
  a ∈ thermalAlerts g now →
  ca_type a = Thermal ∧ ca_timestamp a = now ∧ ca_pid a = None
  ∧ ((90 ≤ gi_temperature g ∧ ca_severity a = Critical)
     ∨ (80 ≤ gi_temperature g < 90 ∧ ca_severity a = Warning)).
Proof.
  unfold thermalAlerts. destruct (90 <=? _) eqn:E90.
  - apply Z.leb_le in E90. intros H. apply list_elem_of_singleton in H as ->.
    split_and!; [done..|by left].
  - apply Z.leb_gt in E90. destruct (80 <=? _) eqn:E80.
    + apply Z.leb_le in E80. intros H. apply list_elem_of_singleton in H as ->.
      split_and!; [done..|]. right. split; [lia|done].
    + intros H. by apply elem_of_nil in H.
Qed.

Lemma elem_of_unmanagedAlert now p a :
  a ∈ unmanagedAlert now p →
  gp_isManaged p = false ∧ 100 < gp_usedMemoryMb p
  ∧ ca_type a = UnmanagedProcess ∧ ca_severity a = Warning
  ∧ ca_timestamp a = now ∧ ca_pid a = Some (gp_pid p).
Proof.
  unfold unmanagedAlert. destruct (gp_isManaged p); simpl;
    [intros H; by apply elem_of_nil in H|].
  destruct (100 <? _) eqn:E; [|intros H; by apply elem_of_nil in H].
  apply Z.ltb_lt in E. intros H. by apply list_elem_of_singleton in H as ->.
Qed.

End CudaAlerts.


(** X17.  The threshold alerts of a poll that got GPU figures.  An
    over-budget alert is raised exactly when the used memory exceeds the
    budget, the one set by [setVramBudget] if it was called.  A critical
    thermal alert is raised exactly from 90 degrees up and a thermal warning
    exactly from 80 to 89 degrees, so never both.  Every alert of the poll
    is stamped with the time of the poll and is a warning or a critical
    alert.  Without GPU figures no alert is raised at all. *)
Theorem threshold_alerts g processes now (budget : Z) (st : CudaMonitor.State) :
  let alerts := CudaMonitor.generateAlerts (Some g) processes now st in
  ((∃ a, a ∈ alerts ∧ ca_type a = OverBudget)
   ↔ CudaMonitor.vramBudgetMb st < gi_memoryUsedMb g)
  ∧ ((∃ a, a ∈ CudaMonitor.generateAlerts (Some g) processes now
                 (CudaMonitor.setVramBudget budget st)
           ∧ ca_type a = OverBudget)
     ↔ budget < gi_memoryUsedMb g)
  ∧ ((∃ a, a ∈ alerts ∧ ca_type a = Thermal ∧ ca_severity a = Critical)
     ↔ 90 ≤ gi_temperature g)
  ∧ ((∃ a, a ∈ alerts ∧ ca_type a = Thermal ∧ ca_severity a = Warning)
     ↔ 80 ≤ gi_temperature g < 90)
  ∧ (∀ a, a ∈ alerts →
          ca_timestamp a = now
          ∧ (ca_severity a = Warning ∨ ca_severity a = Critical))
  ∧ CudaMonitor.generateAlerts None processes now st = [].
Proof.
  intros alerts. subst alerts.
  assert (∀ s, (∃ a, a ∈ CudaMonitor.generateAlerts (Some g) processes now s
                     ∧ ca_type a = OverBudget)
               ↔ CudaMonitor.vramBudgetMb s < gi_memoryUsedMb g) as Hover.
  { intros s. split.
    - intros (a & Ha & Hty). apply elem_of_generateAlerts in Ha as [H|[H|[(p & _ & H)|H]]].
      + by apply elem_of_overBudgetAlerts in H as [? _].
      + apply elem_of_thermalAlerts in H as (? & _). congruence.
      + apply elem_of_unmanagedAlert in H as (_ & _ & ? & _). congruence.
      + apply leakAlerts_spec in H as (? & _ & _ & _ & ->). done.
    - intros Hlt. eexists. split.
      + apply elem_of_generateAlerts. left. unfold CudaMonitor.overBudgetAlerts.
        rewrite (proj2 (Z.ltb_lt _ _) Hlt). apply list_elem_of_here.
      + done. }
  split_and!; [apply Hover|apply (Hover (CudaMonitor.setVramBudget budget st))| | | |done].
  - split.
    + intros (a & Ha & Hty & Hsev).
      apply elem_of_generateAlerts in Ha as [H|[H|[(p & _ & H)|H]]].
      * apply elem_of_overBudgetAlerts in H as (_ & ? & _). congruence.
      * apply elem_of_thermalAlerts in H as (_ & _ & _ & [[? _]|[_ ?]]); [done|congruence].
      * apply elem_of_unmanagedAlert in H as (_ & _ & ? & _). congruence.
      * apply leakAlerts_spec in H as (? & _ & _ & _ & ->). done.
    + intros Hhot. eexists. split.
      * apply elem_of_generateAlerts. right. left. unfold CudaMonitor.thermalAlerts.
        rewrite (proj2 (Z.leb_le _ _) Hhot). apply list_elem_of_here.
      * done.
  - split.
    + intros (a & Ha & Hty & Hsev).
      apply elem_of_generateAlerts in Ha as [H|[H|[(p & _ & H)|H]]].
      * apply elem_of_overBudgetAlerts in H as (_ & ? & _). congruence.
      * apply elem_of_thermalAlerts in H as (_ & _ & _ & [[_ ?]|[? _]]); [congruence|done].
      * apply elem_of_unmanagedAlert in H as (_ & _ & ? & _). congruence.
      * apply leakAlerts_spec in H as (? & _ & _ & _ & ->). done.
    + intros [Hwarm Hnot]. eexists. split.
      * apply elem_of_generateAlerts. right. left. unfold CudaMonitor.thermalAlerts.
        rewrite (proj2 (Z.leb_gt _ _)) by lia.
        rewrite (proj2 (Z.leb_le _ _) Hwarm). apply list_elem_of_here.
      * done.
  - intros a Ha. apply elem_of_generateAlerts in Ha as [H|[H|[(p & _ & H)|H]]].
    + apply elem_of_overBudgetAlerts in H as (_ & _ & ? & ? & _). auto.
    + apply elem_of_thermalAlerts in H as (_ & ? & _ & [[_ ?]|[_ ?]]); auto.
    + apply elem_of_unmanagedAlert in H as (_ & _ & _ & ? & ? & _). auto.
    + apply leakAlerts_spec in H as (? & _ & _ & _ & ->). auto.
Qed.

Section UnmanagedAlerts.
Import CudaMonitor.

Lemma filter_none {A} (P : A → Prop) `{!∀ x, Decision (P x)} (l : list A) :
  (∀ x, x ∈ l → ¬ P x) → filter P l = [].
Proof.
  induction l as [|x l IH]; intros Hall; [done|].
  rewrite filter_cons, decide_False by (apply Hall, list_elem_of_here).
  apply IH. intros y Hy. apply Hall. by apply list_elem_of_further.
Qed.

Lemma unmanagedAlerts_pids now processes :
  ca_pid <$> filter (fun a => ca_type a = UnmanagedProcess)
               (concat (unmanagedAlert now <$> processes))
  = (fun p => Some (gp_pid p))
      <$> filter (fun p => gp_isManaged p = false ∧ 100 < gp_usedMemoryMb p) processes.
Proof.
  induction processes as [|p ps IH]; [done|].
  rewrite fmap_cons. cbn [concat]. rewrite filter_app, fmap_app, IH, filter_cons.
  unfold unmanagedAlert at 1.
  destruct (gp_isManaged p) eqn:Hm; simpl; [done|].
  destruct (100 <? gp_usedMemoryMb p) eqn:Hbig;
    destruct (decide _) as [[_ Hlt]|Hnot]; simpl.
  - done.
  - exfalso. apply Hnot. split; [done|]. by apply Z.ltb_lt.
  - apply Z.ltb_ge in Hbig. lia.
  - done.
Qed.

End UnmanagedAlerts.

(** X18.  A poll that got GPU figures raises one unmanaged-process alert for
    each listed GPU process that is stamped unmanaged and holds more than
    100 MB, in the order of the listing and carrying its PID; a managed
    process, or one at 100 MB or below, raises none. *)
Theorem unmanaged_process_alerts g processes now (st : CudaMonitor.State) :
  ca_pid <$> filter (fun a => ca_type a = UnmanagedProcess)
               (CudaMonitor.generateAlerts (Some g) processes now st)
  = (fun p => Some (gp_pid p))
      <$> filter (fun p => gp_isManaged p = false ∧ 100 < gp_usedMemoryMb p)
                 processes.
Proof.
  unfold CudaMonitor.generateAlerts. rewrite !filter_app, !fmap_app.
  rewrite (filter_none _ (CudaMonitor.overBudgetAlerts g now st)).
  2:{ intros a Ha Hty. apply elem_of_overBudgetAlerts in Ha as (_ & ? & _). congruence. }
  rewrite (filter_none _ (CudaMonitor.thermalAlerts g now)).
  2:{ intros a Ha Hty. apply elem_of_thermalAlerts in Ha as (? & _). congruence. }
  rewrite (filter_none _ (CudaMonitor.leakAlerts g processes now st)).
  2:{ intros a Ha Hty. apply leakAlerts_spec in Ha as (? & _ & _ & _ & ->). done. }
  simpl. rewrite app_nil_r. apply unmanagedAlerts_pids.
Qed.

Section GpuListing.
Import CudaMonitor.

Lemma elem_of_queryGpuProcesses managed rows p :
  p ∈ queryGpuProcesses managed rows
  ↔ 0 < gp_pid p
    ∧ ∃ row, row ∈ rows
             ∧ p = {| gp_pid := row_pid row;
                      gp_processName := row_processName row;
                      gp_usedMemoryMb := row_usedMemoryMb row;
                      gp_isManaged := bool_decide (row_pid row ∈ managed) |}.
Proof.
  unfold queryGpuProcesses. rewrite list_elem_of_filter, list_elem_of_fmap.
  split; intros [Hpos (row & H1 & H2)]; (split; [done|]); by exists row.
Qed.

Lemma gpu_map_lookup_ne (procs : list GpuProcess) (m : gmap Z Z) pid :
  pid ∉ gp_pid <$> procs →
  fold_left (fun map p => <[gp_pid p := gp_usedMemoryMb p]> map) procs m !! pid
  = m !! pid.
Proof.
  revert m. induction procs as [|p procs IH]; intros m Hnin; [done|].
  rewrite fmap_cons in Hnin. apply not_elem_of_cons in Hnin as [Hne Hnin].
  cbn [fold_left]. rewrite IH by done. by rewrite lookup_insert_ne.
Qed.

Lemma gpu_map_lookup_in (procs : list GpuProcess) (m : gmap Z Z) pid :
  pid ∈ gp_pid <$> procs →
  ∃ p, p ∈ procs ∧ gp_pid p = pid
       ∧ fold_left (fun map p => <[gp_pid p := gp_usedMemoryMb p]> map) procs m !! pid
         = Some (gp_usedMemoryMb p).
Proof.
  revert m. induction procs as [|p procs IH]; intros m Hin;
    [by apply elem_of_nil in Hin|].
  cbn [fold_left].
  destruct (decide (pid ∈ gp_pid <$> procs)) as [Hlater|Hlater].
  - destruct (IH (<[gp_pid p := gp_usedMemoryMb p]> m) Hlater) as (q & Hq & Hpid & Hl).
    exists q. split_and!; [by apply list_elem_of_further|done|done].
  - rewrite fmap_cons in Hin. apply elem_of_cons in Hin as [->|Hin]; [|done].
    exists p. split_and!; [apply list_elem_of_here|done|].
    rewrite gpu_map_lookup_ne by done. apply lookup_insert_eq.
Qed.

(** The stamps that [queryGpuProcesses] sets agree with the registry it
    was run against. *)
Lemma queryGpuProcesses_stamped managed rows t gpu alerts :
  ZombieReaper.stampedBy managed
    {| cs_timestamp := t; cs_gpu := gpu;
       cs_processes := queryGpuProcesses managed rows; cs_alerts := alerts |}.
Proof.
  intros p Hp. simpl in Hp.
  by apply elem_of_queryGpuProcesses in Hp as (_ & row & _ & ->).
Qed.

End GpuListing.

(** X19.  The nvidia-smi listing.  [queryGpuProcesses] keeps the rows with a
    positive PID, in order, and stamps each with the registry's answer for
    its PID; no row, no process.  [getGpuPidMemoryMap] maps a PID to memory
    exactly when a row with that positive PID exists, the memory being that
    of such a row, and that of the row itself when the listing names the PID
    once. *)
Theorem gpu_listing (managed : gset Z) (rows : list CudaMonitor.GpuRow) (pid : Z) :
  (∀ p, p ∈ CudaMonitor.queryGpuProcesses managed rows →
        0 < gp_pid p ∧ gp_isManaged p = bool_decide (gp_pid p ∈ managed)
        ∧ ∃ row, row ∈ rows ∧ CudaMonitor.row_pid row = gp_pid p
                 ∧ CudaMonitor.row_processName row = gp_processName p
                 ∧ CudaMonitor.row_usedMemoryMb row = gp_usedMemoryMb p)
  ∧ gp_pid <$> CudaMonitor.queryGpuProcesses managed rows
    = filter (fun n => 0 < n) (CudaMonitor.row_pid <$> rows)
  ∧ CudaMonitor.queryGpuProcesses managed [] = []
  ∧ (is_Some (CudaMonitor.getGpuPidMemoryMap managed rows !! pid)
     ↔ 0 < pid ∧ pid ∈ CudaMonitor.row_pid <$> rows)
  ∧ (∀ mb, CudaMonitor.getGpuPidMemoryMap managed rows !! pid = Some mb →
           ∃ row, row ∈ rows ∧ CudaMonitor.row_pid row = pid
                  ∧ CudaMonitor.row_usedMemoryMb row = mb)
  ∧ (∀ row, NoDup (CudaMonitor.row_pid <$> rows) → row ∈ rows →
            CudaMonitor.row_pid row = pid → 0 < pid →
            CudaMonitor.getGpuPidMemoryMap managed rows !! pid
            = Some (CudaMonitor.row_usedMemoryMb row)).
Proof.
  assert (gp_pid <$> CudaMonitor.queryGpuProcesses managed rows
          = filter (fun n => 0 < n) (CudaMonitor.row_pid <$> rows)) as Hpids.
  { unfold CudaMonitor.queryGpuProcesses.
    induction rows as [|row rows IH]; [done|].
    rewrite !fmap_cons, !filter_cons. simpl.
    destruct (decide (0 < CudaMonitor.row_pid row)); [rewrite fmap_cons; simpl|];
      by rewrite IH. }
  assert (∀ mb, CudaMonitor.getGpuPidMemoryMap managed rows !! pid = Some mb →
                0 < pid
                ∧ ∃ row, row ∈ rows ∧ CudaMonitor.row_pid row = pid
                         ∧ CudaMonitor.row_usedMemoryMb row = mb) as Hsome.
  { intros mb Hmb. unfold CudaMonitor.getGpuPidMemoryMap in Hmb.
    destruct (decide (pid ∈ gp_pid <$> CudaMonitor.queryGpuProcesses managed rows))
      as [Hin|Hnin].
    - destruct (gpu_map_lookup_in _ ∅ pid Hin) as (p & Hp & Hpid & Hl).
      rewrite Hl in Hmb. injection Hmb as <-.
      apply elem_of_queryGpuProcesses in Hp as (Hpos & row & Hrow & ->).
      simpl in *. split; [lia|]. by exists row.
    - rewrite gpu_map_lookup_ne in Hmb by done. by rewrite lookup_empty in Hmb. }
  split_and!; [| done | done | | |].
  - intros p Hp. apply elem_of_queryGpuProcesses in Hp as (Hpos & row & Hrow & ->).
    simpl. split_and!; [done|done|]. by exists row.
  - split.
    + intros [mb Hmb]. destruct (Hsome mb Hmb) as (Hpos & row & Hrow & <- & _).
      split; [done|]. by apply list_elem_of_fmap_2.
    + intros [Hpos Hin].
      assert (pid ∈ gp_pid <$> CudaMonitor.queryGpuProcesses managed rows) as Hin'.
      { rewrite Hpids. by apply list_elem_of_filter. }
      destruct (gpu_map_lookup_in _ ∅ pid Hin') as (p & _ & _ & Hl). by eexists.
  - intros mb Hmb. by destruct (Hsome mb Hmb) as [_ ?].
  - intros row Hnd Hrow Hpid Hpos.
    assert (pid ∈ gp_pid <$> CudaMonitor.queryGpuProcesses managed rows) as Hin'.
    { rewrite Hpids. apply list_elem_of_filter. split; [done|].
      rewrite <- Hpid. by apply list_elem_of_fmap_2. }
    destruct (gpu_map_lookup_in _ ∅ pid Hin') as (p & Hp & Hppid & Hl).
    unfold CudaMonitor.getGpuPidMemoryMap. rewrite Hl. f_equal.
    apply elem_of_queryGpuProcesses in Hp as (_ & row' & Hrow' & ->). simpl in *.
    assert (row' = row) as ->; [|done].
    eapply NoDup_fmap_eq; [exact Hnd|done|done|congruence].
Qed.

(** ** The daemon: registration, manual kill and the two polls *)

Section Daemon.
Import Guardian.

Lemma length_glog time msg log : length (glog time msg log) = (S (length log) `min` 300)%nat.
Proof. unfold glog. rewrite length_trim_to, length_app. simpl. lia. Qed.

Lemma elem_of_getManagedPids pid tr :
  pid ∈ ProcessTracker.getManagedPids tr ↔ pid ∈ ProcessTracker.managedPids tr.
Proof. unfold ProcessTracker.getManagedPids. apply elem_of_elements. Qed.

(** What one turn of the registration loop of [runProcessPoll] does. *)
Lemma autoRegister_spec backend times st n proc :
  let r := autoRegister backend times (st, n) proc in
  ProcessTracker.managedPids (tracker r.1)
  = (if bool_decide (tp_parentPid proc = Some backend)
     then {[tp_pid proc]} ∪ ProcessTracker.managedPids (tracker st)
     else ProcessTracker.managedPids (tracker st))
  ∧ ProcessTracker.lastCpuSnapshot (tracker r.1)
    = ProcessTracker.lastCpuSnapshot (tracker st)
  ∧ (ProcessTracker.staleCycles (tracker st) = ∅ →
     ProcessTracker.staleCycles (tracker r.1) = ∅)
  ∧ latestProcesses r.1 = latestProcesses st
  ∧ latestCuda r.1 = latestCuda st
  ∧ managedBackendPid r.1 = managedBackendPid st
  ∧ cuda r.1 = cuda st ∧ reaper r.1 = reaper st ∧ fence r.1 = fence st
  ∧ ((length (guardianLog st) ≤ 300)%nat → (length (guardianLog r.1) ≤ 300)%nat).
Proof.
  unfold autoRegister.
  destruct (bool_decide (tp_parentPid proc = Some backend)) eqn:Hparent; simpl;
    [|by split_and!].
  destruct (bool_decide (tp_pid proc ∈ ProcessTracker.getManagedPids (tracker st)))
    eqn:Hin; simpl.
  - apply bool_decide_eq_true, elem_of_getManagedPids in Hin.
    split_and!; try done. apply set_eq. intros x.
    rewrite elem_of_union, elem_of_singleton. split; [auto|].
    intros [->|?]; done.
  - split_and!; try done.
    + intros ->. apply delete_empty.
    + intros _. rewrite length_glog. lia.
Qed.

Lemma autoRegister_fold backend times procs st n :
  let r := fold_left (autoRegister backend times) procs (st, n) in
  (∀ q, q ∈ ProcessTracker.managedPids (tracker r.1)
        ↔ q ∈ ProcessTracker.managedPids (tracker st)
          ∨ ∃ proc, proc ∈ procs ∧ tp_parentPid proc = Some backend
                    ∧ tp_pid proc = q)
  ∧ ProcessTracker.lastCpuSnapshot (tracker r.1)
    = ProcessTracker.lastCpuSnapshot (tracker st)
  ∧ (ProcessTracker.staleCycles (tracker st) = ∅ →
     ProcessTracker.staleCycles (tracker r.1) = ∅)
  ∧ latestProcesses r.1 = latestProcesses st
  ∧ latestCuda r.1 = latestCuda st
  ∧ managedBackendPid r.1 = managedBackendPid st
  ∧ cuda r.1 = cuda st ∧ reaper r.1 = reaper st ∧ fence r.1 = fence st
  ∧ ((length (guardianLog st) ≤ 300)%nat → (length (guardianLog r.1) ≤ 300)%nat).
Proof.
  revert st n. induction procs as [|proc procs IH]; intros st n; cbn [fold_left].
  - simpl. split_and!; try done. intros q. split; [auto|].
    intros [?|(? & H & _)]; [done|by apply elem_of_nil in H].
  - destruct (autoRegister backend times (st, n) proc) as [st1 n1] eqn:Hstep.
    pose proof (autoRegister_spec backend times st n proc) as Hspec.
    rewrite Hstep in Hspec. simpl in Hspec.
    destruct Hspec as (Hreg & Hlast & Hsc & Hlp & Hlc & Hb & Hcu & Hre & Hfe & Hlog).
    destruct (IH st1 n1) as (Hreg' & Hlast' & Hsc' & Hlp' & Hlc' & Hb' & Hcu' & Hre' & Hfe' & Hlog').
    split_and!; try congruence; try (by auto).
    intros q. rewrite Hreg', Hreg. split.
    + intros [Hq|(p & Hp & Hpar & Hpid)].
      * destruct (bool_decide (tp_parentPid proc = Some backend)) eqn:Hparent.
        -- apply bool_decide_eq_true in Hparent.
           apply elem_of_union in Hq as [Hq|Hq]; [|by left].
           apply elem_of_singleton in Hq. right. exists proc.
           split_and!; [apply list_elem_of_here|done|done].
        -- by left.
      * right. exists p. split_and!; [by apply list_elem_of_further|done|done].
    + intros [Hq|(p & Hp & Hpar & Hpid)].
      * left. destruct (bool_decide _); [apply elem_of_union; by right | done].
      * apply elem_of_cons in Hp as [->|Hp].
        -- left. rewrite bool_decide_eq_true_2 by done.
           apply elem_of_union. left. by apply elem_of_singleton.
        -- right. by exists p.
Qed.

End Daemon.

(** X20.  [manualKill] refuses a PID of the managed registry: it reports
    failure, sends no signal and changes nothing.  For any other PID it
    sends exactly one signal, to that PID, and reports what the signal
    returned.  Either way the registry is not changed, and the reaper's
    action log is not written: a manual kill does not count in the reaper's
    kill window. *)
Theorem manualKill_respects_registry (pid : Z) (safeKillPid : Z → bool)
    (time : string) (now : Z) (st : Guardian.State) :
  let r := Guardian.manualKill pid safeKillPid time st in
  (ProcessTracker.isManagedPid pid (Guardian.tracker st) = true →
   Guardian.success r.1.1 = false ∧ r.2 = [] ∧ r.1.2 = st)
  ∧ (ProcessTracker.isManagedPid pid (Guardian.tracker st) = false →
     r.2 = [pid] ∧ Guardian.success r.1.1 = safeKillPid pid
     ∧ length (Guardian.guardianLog r.1.2)
       = (S (length (Guardian.guardianLog st)) `min` 300)%nat)
  ∧ (∀ q, q ∈ r.2 →
          q = pid ∧ q ∉ ProcessTracker.managedPids (Guardian.tracker st))
  ∧ Guardian.tracker r.1.2 = Guardian.tracker st
  ∧ Guardian.reaper r.1.2 = Guardian.reaper st
  ∧ ZombieReaper.getKillsInWindow now (Guardian.reaper r.1.2)
    = ZombieReaper.getKillsInWindow now (Guardian.reaper st).
Proof.
  intros r. subst r. unfold Guardian.manualKill, ProcessTracker.isManagedPid.
  destruct (bool_decide (pid ∈ ProcessTracker.getManagedPids (Guardian.tracker st)))
    eqn:Hin; simpl.
  - apply bool_decide_eq_true, elem_of_getManagedPids in Hin.
    rewrite bool_decide_eq_true_2 by done.
    split_and!; try done. intros q Hq. by apply elem_of_nil in Hq.
  - apply bool_decide_eq_false in Hin. rewrite elem_of_getManagedPids in Hin.
    rewrite bool_decide_eq_false_2 by done.
    split_and!; try done.
    + intros _. split_and!; [done|done|apply length_glog].
    + intros q Hq. apply list_elem_of_singleton in Hq as ->. done.
Qed.

(** X21.  The registration calls of the process launcher.
    [setManagedBackendPid] makes the PID the backend PID and a managed PID,
    and leaves every PID that was managed before in the registry, a former
    backend PID included.  [clearManagedBackendPid] takes the PID out of the
    registry and forgets the backend PID only when it is that PID; the
    children registered along the way stay managed.  [registerChildPid] adds
    the PID to the registry and leaves the backend PID alone. *)
Theorem backend_pid_registration (pid q : Z) (time : string) (st : Guardian.State) :
  let set := Guardian.setManagedBackendPid pid time st in
  let clear := Guardian.clearManagedBackendPid pid time st in
  let child := Guardian.registerChildPid pid time st in
  Guardian.managedBackendPid set = Some pid
  ∧ ProcessTracker.isManagedPid pid (Guardian.tracker set) = true
  ∧ (ProcessTracker.isManagedPid q (Guardian.tracker st) = true →
     ProcessTracker.isManagedPid q (Guardian.tracker set) = true)
  ∧ ProcessTracker.isManagedPid pid (Guardian.tracker clear) = false
  ∧ Guardian.managedBackendPid clear
    = (if decide (Guardian.managedBackendPid st = Some pid) then None
       else Guardian.managedBackendPid st)
  ∧ (q ≠ pid →
     ProcessTracker.isManagedPid q (Guardian.tracker clear)
     = ProcessTracker.isManagedPid q (Guardian.tracker st))
  ∧ Guardian.managedBackendPid (Guardian.clearManagedBackendPid pid time set) = None
  ∧ ProcessTracker.isManagedPid pid (Guardian.tracker child) = true
  ∧ Guardian.managedBackendPid child = Guardian.managedBackendPid st
  ∧ (q ≠ pid →
     ProcessTracker.isManagedPid q (Guardian.tracker child)
     = ProcessTracker.isManagedPid q (Guardian.tracker st)).
Proof.
  intros set clear child. subst set clear child.
  unfold ProcessTracker.isManagedPid. simpl.
  split_and!; try done.
  - apply bool_decide_eq_true_2, elem_of_union. left. by apply elem_of_singleton.
  - rewrite !bool_decide_eq_true. intros H. apply elem_of_union. by right.
  - apply bool_decide_eq_false_2. rewrite elem_of_difference, elem_of_singleton.
    by intros [_ ?].
  - by destruct (decide _) as [H|H];
      [rewrite bool_decide_eq_true_2 | rewrite bool_decide_eq_false_2].
  - intros Hne. apply bool_decide_ext.
    rewrite elem_of_difference, elem_of_singleton. tauto.
  - by rewrite bool_decide_eq_true_2.
  - apply bool_decide_eq_true_2, elem_of_union. left. by apply elem_of_singleton.
  - intros Hne. apply bool_decide_ext.
    rewrite elem_of_union, elem_of_singleton. tauto.
Qed.

(** X22.  [runProcessPoll] scans with the GPU memory map read from
    nvidia-smi and then registers the children of the managed backend: after
    the poll the registry holds what it held before together with the PID of
    every scanned process whose parent PID is the backend PID, and nothing
    else, so a grandchild of the backend is not registered.  Without a
    backend PID the registry is left as it was.  Neither the backend PID nor
    the states of the CUDA monitor, the reaper and the fence are touched. *)
Theorem process_poll_registers_children rows raws now times (st : Guardian.State) :
  let st' := Guardian.runProcessPoll rows raws now times st in
  let managed := ProcessTracker.managedPids (Guardian.tracker st) in
  Guardian.latestProcesses st'
  = (ProcessTracker.scanProcesses
       (CudaMonitor.getGpuPidMemoryMap managed rows) raws now
       (Guardian.tracker st)).1
  ∧ (∀ backend q, Guardian.managedBackendPid st = Some backend →
       (q ∈ ProcessTracker.managedPids (Guardian.tracker st')
        ↔ q ∈ managed
          ∨ ∃ raw, raw ∈ raws ∧ ProcessTracker.raw_parentPid raw = backend
                   ∧ ProcessTracker.raw_pid raw = q))
  ∧ (Guardian.managedBackendPid st = None →
     ProcessTracker.managedPids (Guardian.tracker st') = managed)
  ∧ Guardian.managedBackendPid st' = Guardian.managedBackendPid st
  ∧ Guardian.cuda st' = Guardian.cuda st
  ∧ Guardian.reaper st' = Guardian.reaper st
  ∧ Guardian.fence st' = Guardian.fence st
  ∧ Guardian.latestCuda st' = Guardian.latestCuda st.
Proof.
  intros st' managed. subst st'. unfold Guardian.runProcessPoll. fold managed.
  pose proof (scanProcesses_mirrors (CudaMonitor.getGpuPidMemoryMap managed rows)
                raws now (Guardian.tracker st)) as (Hall & Hreg & _).
  destruct (ProcessTracker.scanProcesses _ raws now (Guardian.tracker st))
    as [procs tr] eqn:Hscan. simpl in Hall, Hreg.
  destruct (Guardian.managedBackendPid st) as [backend|] eqn:Hb.
  - match goal with
    | |- context [fold_left _ procs (?s, ?n)] =>
        pose proof (autoRegister_fold backend times procs s n) as Hfold
    end.
    simpl in Hfold.
    destruct Hfold as (Hm & _ & _ & Hlp & Hlc & Hbk & Hcu & Hre & Hfe & _).
    split_and!; try done.
    intros b q [= <-]. rewrite Hm, Hreg. fold managed.
    split; (intros [?|Hex]; [by left|right]).
    + destruct Hex as (proc & Hp & Hpar & Hpid).
      apply list_elem_of_lookup in Hp as [i Hi].
      destruct (Forall2_lookup_r _ _ _ _ _ Hall Hi) as (raw & Hraw & Hmir).
      destruct Hmir as (Hpid' & Hpar' & _).
      exists raw. split_and!; [by eapply list_elem_of_lookup_2|congruence|congruence].
    + destruct Hex as (raw & Hraw & Hpar & Hpid).
      apply list_elem_of_lookup in Hraw as [i Hi].
      destruct (Forall2_lookup_l _ _ _ _ _ Hall Hi) as (proc & Hproc & Hmir).
      destruct Hmir as (Hpid' & Hpar' & _).
      exists proc. split_and!; [by eapply list_elem_of_lookup_2|congruence|congruence].
  - simpl. split_and!; try done.
Qed.

Section DaemonPolls.
Import Guardian.

Lemma evaluate_actions_justified managed h processes cudaSnapshot backend st a :
  a ∈ ZombieReaper.out_actions
        (ZombieReaper.evaluate managed h processes cudaSnapshot backend st) →
  ZombieReaper.justified (ZombieReaper.config st) managed h processes
    cudaSnapshot backend (ra_targetPid a) (ra_rule a).
Proof.
  intros Ha. destruct (rc_enabled (ZombieReaper.config st)) eqn:Hen.
  - apply (evaluate_action_confirmed _ _ _ _ _ _ Hen) in Ha
      as (info & Hget & _ & ->).
    apply currentCandidates_justified. by apply jsmap_get_Some.
  - unfold ZombieReaper.evaluate in Ha. rewrite Hen in Ha.
    by apply elem_of_nil in Ha.
Qed.

Lemma evaluate_actions_unmanaged managed h processes cudaSnapshot backend st a :
  ZombieReaper.stampedBy managed cudaSnapshot →
  a ∈ ZombieReaper.out_actions
        (ZombieReaper.evaluate managed h processes cudaSnapshot backend st) →
  ra_targetPid a ∉ managed.
Proof.
  intros Hstamp Ha. destruct (rc_enabled (ZombieReaper.config st)) eqn:Hen.
  - apply (evaluate_action_confirmed _ _ _ _ _ _ Hen) in Ha
      as (info & Hget & _ & _).
    eapply currentCandidates_unmanaged; [done|]. by apply jsmap_get_Some.
  - unfold ZombieReaper.evaluate in Ha. rewrite Hen in Ha.
    by apply elem_of_nil in Ha.
Qed.

Lemma evaluate_log_elem managed h processes cudaSnapshot backend st a :
  a ∈ ZombieReaper.actionLog
        (ZombieReaper.out_state
           (ZombieReaper.evaluate managed h processes cudaSnapshot backend st)) →
  a ∈ ZombieReaper.actionLog st
  ∨ a ∈ ZombieReaper.out_actions
          (ZombieReaper.evaluate managed h processes cudaSnapshot backend st).
Proof.
  destruct (rc_enabled (ZombieReaper.config st)) eqn:Hen.
  - rewrite evaluate_enabled by done. simpl. intros Ha.
    apply elem_of_app. eapply elem_of_suffix; [done|apply trim_to_suffix].
  - unfold ZombieReaper.evaluate. rewrite Hen. simpl. by left.
Qed.

Lemma length_glogAll times lines log :
  (length log ≤ 300)%nat → (length (glogAll times lines log) ≤ 300)%nat.
Proof.
  unfold glogAll. intros Hlen.
  assert (∀ acc : list string * nat,
            (length acc.1 ≤ 300)%nat →
            (length (fold_left (fun acc line => (glog (times acc.2) line acc.1, S acc.2))
                               lines acc).1 ≤ 300)%nat) as Hfold.
  { induction lines as [|line lines IH]; intros acc Hacc; simpl; [done|].
    apply IH. simpl. rewrite length_glog. lia. }
  by apply Hfold.
Qed.

(** What [runCudaPoll] is made of. *)
Lemma runCudaPoll_spec i st :
  let managed := ProcessTracker.managedPids (tracker st) in
  let snapshot :=
    (CudaMonitor.pollCuda (in_gpu i)
       (CudaMonitor.queryGpuProcesses managed (in_rows i)) (in_pollNow i)
       (cuda st)).1 in
  let o := ZombieReaper.evaluate managed (in_host i) (latestProcesses st) snapshot
             (managedBackendPid st) (reaper st) in
  latestCuda (runCudaPoll i st).1 = snapshot
  ∧ cuda (runCudaPoll i st).1
    = (CudaMonitor.pollCuda (in_gpu i)
         (CudaMonitor.queryGpuProcesses managed (in_rows i)) (in_pollNow i)
         (cuda st)).2
  ∧ reaper (runCudaPoll i st).1 = ZombieReaper.out_state o
  ∧ (runCudaPoll i st).2 = ZombieReaper.out_signalled o
  ∧ tracker (runCudaPoll i st).1 = tracker st
  ∧ fence (runCudaPoll i st).1 = fence st
  ∧ latestProcesses (runCudaPoll i st).1 = latestProcesses st
  ∧ managedBackendPid (runCudaPoll i st).1 = managedBackendPid st
  ∧ ((length (guardianLog st) ≤ 300)%nat →
     (length (guardianLog (runCudaPoll i st).1) ≤ 300)%nat)
  ∧ ZombieReaper.stampedBy managed snapshot.
Proof.
  intros managed snapshot o. unfold runCudaPoll. fold managed.
  destruct (CudaMonitor.pollCuda _ _ _ _) as [snap cuda'] eqn:Hpoll.
  subst snapshot o. simpl. split_and!; try done.
  - apply length_glogAll.
  - unfold CudaMonitor.pollCuda in Hpoll. injection Hpoll as <- _.
    apply queryGpuProcesses_stamped.
Qed.

(** What [runProcessPoll] leaves alone, and what it keeps. *)
Lemma runProcessPoll_frame rows raws now times st :
  cuda (runProcessPoll rows raws now times st) = cuda st
  ∧ reaper (runProcessPoll rows raws now times st) = reaper st
  ∧ ((length (guardianLog st) ≤ 300)%nat →
     (length (guardianLog (runProcessPoll rows raws now times st)) ≤ 300)%nat)
  ∧ (ProcessTracker.staleCycles (tracker st) = ∅ →
     ProcessTracker.staleCycles (tracker (runProcessPoll rows raws now times st)) = ∅
     ∧ Forall (fun tp => tp_status tp = Healthy)
         (latestProcesses (runProcessPoll rows raws now times st))).
Proof.
  unfold runProcessPoll.
  pose proof (scanProcesses_all_healthy
                (CudaMonitor.getGpuPidMemoryMap
                   (ProcessTracker.managedPids (tracker st)) rows)
                raws now (tracker st)) as Hhealthy.
  destruct (ProcessTracker.scanProcesses _ raws now (tracker st)) as [procs tr].
  simpl in Hhealthy.
  destruct (managedBackendPid st) as [backend|];
    [|simpl; split_and!; [done|done|done|];
      intros Hempty; destruct (Hhealthy Hempty); by split].
  match goal with
  | |- context [fold_left _ procs (?s, ?n)] =>
      pose proof (autoRegister_fold backend times procs s n) as Hfold
  end.
  simpl in Hfold.
  destruct Hfold as (_ & _ & Hsc & Hlp & _ & _ & Hcu & Hre & _ & Hlog).
  split_and!; [done|done|done|].
  intros Hempty. destruct (Hhealthy Hempty) as [Hall Hsc']. split; [by apply Hsc|].
  by rewrite Hlp.
Qed.

(** A call only signals PIDs that are out of the registry when it starts. *)
Lemma exec_signals c st q :
  q ∈ (exec c st).2 → q ∉ ProcessTracker.managedPids (tracker st).
Proof.
  destruct c; unfold exec; try (intros H; by apply elem_of_nil in H).
  - destruct (runCudaPoll_spec i st) as (_ & _ & _ & -> & _).
    apply (proj2 (evaluate_spares_managed _ _ _ _ _ _)).
  - unfold manualKill.
    destruct (bool_decide (pid ∈ ProcessTracker.getManagedPids (tracker st))) eqn:Hin;
      simpl; [intros H; by apply elem_of_nil in H|].
    apply bool_decide_eq_false in Hin. rewrite elem_of_getManagedPids in Hin.
    intros H. by apply list_elem_of_singleton in H as ->.
Qed.

Lemma exec_bounded c st : bounded st → bounded (exec c st).1.
Proof.
  intros (Hlog & Hact & Hhist). destruct c; unfold exec.
  - destruct (runProcessPoll_frame rows rawProcesses now times st)
      as (Hcu & Hre & Hl & _).
    unfold bounded. simpl. rewrite Hcu, Hre. split_and!; [by apply Hl|done|done].
  - destruct (runCudaPoll_spec i st) as (_ & Hcu & Hre & _ & _ & _ & _ & _ & Hl & _).
    unfold bounded. rewrite Hcu, Hre. split_and!; [by apply Hl| |].
    + by apply evaluate_log_bounded.
    + unfold CudaMonitor.pollCuda. simpl. destruct (in_gpu i); [|done].
      rewrite length_trim_to. unfold HISTORY_MAX_ENTRIES. lia.
  - unfold bounded. simpl. rewrite length_glog. split_and!; [lia|done|done].
  - unfold bounded. simpl. rewrite length_glog. split_and!; [lia|done|done].
  - unfold bounded. simpl. rewrite length_glog. split_and!; [lia|done|done].
  - unfold manualKill. destruct (bool_decide _); simpl; [done|].
    unfold bounded. simpl. rewrite length_glog. split_and!; [lia|done|done].
  - done.
  - done.
Qed.

End DaemonPolls.

Section DaemonRuns.
Import Guardian.

Lemma exec_allHealthy c st : allHealthy st → allHealthy (exec c st).1.
Proof.
  intros (Hsc & Hprocs & Hlog). destruct c; unfold exec.
  - destruct (runProcessPoll_frame rows rawProcesses now times st)
      as (_ & Hre & _ & Hh).
    destruct (Hh Hsc) as [Hsc' Hall]. unfold allHealthy. simpl.
    rewrite Hre. by split_and!.
  - destruct (runCudaPoll_spec i st)
      as (_ & _ & Hre & _ & Htr & _ & Hlp & _ & _ & _).
    unfold allHealthy. rewrite Htr, Hlp, Hre. split_and!; [done|done|].
    apply Forall_forall. intros a Ha.
    apply evaluate_log_elem in Ha as [Ha|Ha].
    + by eapply Forall_forall in Hlog.
    + apply evaluate_actions_justified in Ha as [_ Hj].
      split; intros Hrule; rewrite Hrule in Hj;
        destruct Hj as (_ & proc & Hproc & _ & Hstatus);
        eapply Forall_forall in Hprocs; [|exact Hproc| |exact Hproc]; congruence.
  - unfold allHealthy. simpl. split_and!; [|done|done]. rewrite Hsc. apply delete_empty.
  - unfold allHealthy. simpl. split_and!; [|done|done]. rewrite Hsc. apply delete_empty.
  - unfold allHealthy. simpl. split_and!; [|done|done]. rewrite Hsc. apply delete_empty.
  - unfold manualKill. destruct (bool_decide _); simpl; by split_and!.
  - by split_and!.
  - by split_and!.
Qed.

(** What every call keeps holds of the state before each call and of the
    final state. *)
Lemma execAll_inv (P : State → Prop) cs st :
  P st → (∀ c s, P s → P (exec c s).1) →
  P (execAll cs st).2 ∧ ∀ e, e ∈ (execAll cs st).1 → P e.1.
Proof.
  intros Hst Hstep. revert st Hst.
  induction cs as [|c cs IH]; intros st Hst; simpl.
  - split; [done|]. intros e He. by apply elem_of_nil in He.
  - pose proof (Hstep c st Hst) as Hnext.
    destruct (exec c st) as [st1 sig]. simpl in Hnext.
    destruct (IH st1 Hnext) as [Hfin Htrace].
    destruct (execAll cs st1) as [trace final]. simpl in *.
    split; [done|]. intros e He. apply elem_of_cons in He as [->|He]; auto.
Qed.

Lemma execAll_trace cs st e :
  e ∈ (execAll cs st).1 → ∃ c, e.2 = (exec c e.1).2.
Proof.
  revert st. induction cs as [|c cs IH]; intros st; simpl.
  - intros He. by apply elem_of_nil in He.
  - destruct (exec c st) as [st1 sig] eqn:Hexec.
    specialize (IH st1). destruct (execAll cs st1) as [trace final]. simpl in *.
    intros He. apply elem_of_cons in He as [->|He]; [|by apply IH].
    exists c. cbn [fst snd]. by rewrite Hexec.
Qed.

End DaemonRuns.

(** X23.  [runCudaPoll] polls the GPU, hands the fresh snapshot to the
    reaper together with the process list of the last process poll, and
    logs.  The snapshot is stamped by the registry of the moment, so the
    reaper takes no action, not even a skip, against a managed PID, and no
    signal goes to one.  The snapshot becomes the latest snapshot and the
    previous one of the next poll.  The registry, the tracked processes, the
    backend PID and the fence are left alone. *)
Theorem cuda_poll_spares_managed (i : Guardian.CudaPollInput) (st : Guardian.State) :
  let r := Guardian.runCudaPoll i st in
  let managed := ProcessTracker.managedPids (Guardian.tracker st) in
  let o := ZombieReaper.evaluate managed (Guardian.in_host i)
             (Guardian.latestProcesses st) (Guardian.latestCuda r.1)
             (Guardian.managedBackendPid st) (Guardian.reaper st) in
  cs_processes (Guardian.latestCuda r.1)
  = CudaMonitor.queryGpuProcesses managed (Guardian.in_rows i)
  ∧ cs_gpu (Guardian.latestCuda r.1) = Guardian.in_gpu i
  ∧ CudaMonitor.previousSnapshot (Guardian.cuda r.1) = Some (Guardian.latestCuda r.1)
  ∧ Guardian.reaper r.1 = ZombieReaper.out_state o
  ∧ r.2 = ZombieReaper.out_signalled o
  ∧ (∀ a, a ∈ ZombieReaper.out_actions o → ra_targetPid a ∉ managed)
  ∧ (∀ q, q ∈ r.2 → q ∉ managed)
  ∧ Guardian.tracker r.1 = Guardian.tracker st
  ∧ Guardian.latestProcesses r.1 = Guardian.latestProcesses st
  ∧ Guardian.managedBackendPid r.1 = Guardian.managedBackendPid st
  ∧ Guardian.fence r.1 = Guardian.fence st.
Proof.
  intros r managed o. subst r o.
  destruct (runCudaPoll_spec i st)
    as (Hsnap & Hcu & Hre & Hsig & Htr & Hfe & Hlp & Hb & _ & Hstamp).
  fold managed in Hsnap, Hcu, Hre, Hsig, Hstamp.
  rewrite Hsnap, Hcu, Hre, Hsig.
  split_and!; try done.
  - intros a. by apply evaluate_actions_unmanaged.
  - intros q. apply (proj2 (evaluate_spares_managed _ _ _ _ _ _)).
Qed.

(** X24.  The daemon's memory is bounded.  Whatever calls reach it, in
    whatever order and with whatever answers from the operating system, the
    guardian log never holds more than 300 lines, the reaper's action log
    never more than 100 actions and the GPU history never more than 120
    entries. *)
Theorem daemon_logs_bounded (cs : list Guardian.Call) :
  let final := (Guardian.execAll cs Guardian.init).2 in
  (length (Guardian.guardianLog final) ≤ 300)%nat
  ∧ (length (ZombieReaper.actionLog (Guardian.reaper final)) ≤ 100)%nat
  ∧ (length (CudaMonitor.history (Guardian.cuda final)) ≤ 120)%nat.
Proof.
  intros final. subst final.
  apply (proj1 (execAll_inv Guardian.bounded cs Guardian.init
                  ltac:(unfold Guardian.bounded; simpl; lia) exec_bounded)).
Qed.

(** X25.  In the daemon the health debounce of the process tracker never
    fires: whatever calls reach it, every process of the latest process list
    is reported healthy, never zombie nor stale, and no action of the
    reaper's log was taken under the orphan-kill or the stale-worker rule. *)
Theorem daemon_reports_only_healthy (cs : list Guardian.Call) :
  let final := (Guardian.execAll cs Guardian.init).2 in
  Forall (fun tp => tp_status tp = Healthy) (Guardian.latestProcesses final)
  ∧ Forall (fun a => ra_rule a ≠ OrphanKill ∧ ra_rule a ≠ StaleWorker)
      (ZombieReaper.actionLog (Guardian.reaper final)).
Proof.
  intros final. subst final.
  destruct (proj1 (execAll_inv Guardian.allHealthy cs Guardian.init
                     ltac:(by split_and!; constructor) exec_allHealthy))
    as (_ & H1 & H2).
  by split.
Qed.

(** X26.  Across the whole life of the daemon no kill signal goes to a PID
    that is in the managed registry at the time of the call that sends it,
    be it a poll of the reaper or a manual kill; and only GPU polls and
    manual kills send signals at all. *)
Theorem daemon_never_signals_managed (cs : list Guardian.Call)
    (st : Guardian.State) :
  (∀ before signalled q,
     (before, signalled) ∈ (Guardian.execAll cs st).1 → q ∈ signalled →
     q ∉ ProcessTracker.managedPids (Guardian.tracker before))
  ∧ (∀ c s, (Guardian.exec c s).2 ≠ [] →
            (∃ i, c = Guardian.CallCudaPoll i)
            ∨ ∃ pid safeKillPid time, c = Guardian.CallManualKill pid safeKillPid time).
Proof.
  split.
  - intros before signalled q He Hq.
    destruct (execAll_trace cs st _ He) as [c Hc]. simpl in Hc. subst signalled.
    by eapply exec_signals.
  - intros c s Hne. destruct c; simpl in Hne; try done.
    + left. by eexists.
    + right. by do 3 eexists.
Qed.
